(** * Idle detection and safety-gated cleanup: a shallow embedding

    This development embeds the two AWS Lambda functions of the repository,

    - [Lambda/lambda_cleanup.py] (module [Cleanup]), and
    - [Lambda/Detect_idle_ec2_stale_resource.py] (module [Detect]),

    and proves properties of them.  Python code that calls the cloud
    provider is written in a small state-and-exception monad; the provider
    itself (boto3's EC2, CloudWatch and DynamoDB clients) is an interface
    whose methods may return a value or raise. *)

From Stdlib Require Import ZArith String List Lia.
From Stdlib Require PrimFloat SpecFloat FloatOps.
From stdpp Require Import base gmap strings list pretty.

Local Open Scope string_scope.

(** ** Exceptions and the state-and-exception monad *)

(** A Python [Exception] is represented by its message, [str(e)]: the
    handlers of both Lambdas only ever look at that. *)
Definition exn : Type := string.

(** The outcome of a call that may raise. *)
Definition res (A : Type) : Type := (exn + A)%type.

Definition M (S A : Type) : Type := S → res A * S.

Definition ret {S A} (a : A) : M S A := λ s, (inr a, s).

Definition raise {S A} (e : exn) : M S A := λ s, (inl e, s).

Definition bind {S A B} (m : M S A) (k : A → M S B) : M S B :=
  λ s, match m s with
       | (inr a, s') => k a s'
       | (inl e, s') => (inl e, s')
       end.

(** [try: m  except Exception as e: h e].  State changes made by [m] before
    it raised are kept, as in Python. *)
Definition try_except {S A} (m : M S A) (h : exn → M S A) : M S A :=
  λ s, match m s with
       | (inr a, s') => (inr a, s')
       | (inl e, s') => h e s'
       end.

Declare Scope py_scope.
Delimit Scope py_scope with py.
Notation "'let!' x ':=' m 'in' k" := (bind m (λ x, k))
  (at level 10, x name, m at level 100, k at level 200) : py_scope.
Notation "m ';;' k" := (bind m (λ _, k))
  (at level 100, k at level 200, right associativity) : py_scope.
Local Open Scope py_scope.

(** [for x in l: body x].  An exception escaping the body ends the loop. *)
Fixpoint for_each {S A} (l : list A) (body : A → M S unit) : M S unit :=
  match l with
  | [] => ret tt
  | x :: l' => body x ;; for_each l' body
  end.

(** [for x in it: body x] over a lazy iterator that yields the items of [l]
    and then is exhausted ([failure] is [None]) or raises ([Some e]).  An
    exception raised by the iterator escapes the loop like one of the body. *)
Definition for_each_lazy {S A} (l : list A) (failure : option exn)
    (body : A → M S unit) : M S unit :=
  for_each l body ;;
  match failure with
  | Some e => raise e
  | None => ret tt
  end.

(** A computation that returns or raises without touching the state. *)
Definition lift {S A} (r : res A) : M S A := λ s, (r, s).

(** [l[0]] on a Python list. *)
Definition index0 {S A} (l : list A) : M S A :=
  match l with
  | x :: _ => ret x
  | [] => raise "list index out of range"
  end.

(** [str(x)] for a value that is a string or [None]. *)
Definition py_str (x : option string) : string :=
  match x with
  | Some s => s
  | None => "None"
  end.

(** [s[:-1]] on a Python string. *)
Fixpoint drop_last (s : string) : string :=
  match s with
  | EmptyString => EmptyString
  | String c EmptyString => EmptyString
  | String c s' => String c (drop_last s')
  end.

(** The clock.  [utcnow_at n] is the instant returned by the n-th call of
    [datetime.utcnow()], in microseconds since the epoch; [isoformat] is the
    text of an instant. *)
Class Clock := {
  utcnow_at : nat → Z;
  isoformat : Z → string;
}.

(** A clock that advances one second per reading, on which the handlers can
    be evaluated. *)
#[export] Instance sim_clock : Clock := {
  utcnow_at n := (Z.of_nat n * 1000000)%Z;
  isoformat z := "1970-01-01T00:00:" +:+ pretty (z / 1000000)%Z;
}.

(** ** The cleanup Lambda ([lambda_cleanup.py]) *)

Module Cleanup.

(** *** Provider responses *)

(** [describe_instances(...)["Reservations"]] is a list of reservations, each
    with a list ["Instances"]; the code reads [inst["State"]["Name"]]. *)
Record instance_desc := { State_Name : string }.
Record reservation := { Instances : list instance_desc }.

(** An element of [describe_volumes(...)["Volumes"]]. *)
Record volume_desc := { State : string }.

(** An element of [describe_addresses(...)["Addresses"]]: the key
    ["AssociationId"] is present or not. *)
Record address_desc := { AssociationId : option string }.

(** An element of [describe_security_groups(...)["SecurityGroups"]]. *)
Record security_group_desc := { GroupName : string }.

(** An element of [describe_network_interfaces(...)["NetworkInterfaces"]]. *)
Record network_interface_desc := { NetworkInterfaceId : string }.

(** *** The provider interface

    [W] is the state of the cloud account.  The [describe_*] calls read it;
    the other six calls may change it, and any call may raise. *)
Class Ec2Client (W : Type) := {
  ec2_describe_instances : W → string → res (list reservation);
  ec2_stop_instances : W → string → res unit * W;
  ec2_start_instances : W → string → res unit * W;
  ec2_terminate_instances : W → string → res unit * W;
  ec2_describe_volumes : W → string → res (list volume_desc);
  ec2_delete_volume : W → string → res unit * W;
  ec2_describe_addresses : W → string → res (list address_desc);
  ec2_release_address : W → string → res unit * W;
  ec2_describe_security_groups : W → string → res (list security_group_desc);
  ec2_describe_network_interfaces : W → string → res (list network_interface_desc);
  ec2_delete_security_group : W → string → res unit * W;
}.

(** Every call made on the EC2 client is recorded, with its argument. *)
Inductive call :=
  | DescribeInstances (i : string)
  | StopInstances (i : string)
  | StartInstances (i : string)
  | TerminateInstances (i : string)
  | DescribeVolumes (v : string)
  | DeleteVolume (v : string)
  | DescribeAddresses (a : string)
  | ReleaseAddress (a : string)
  | DescribeSecurityGroups (g : string)
  | DescribeNetworkInterfaces (g : string)
  | DeleteSecurityGroup (g : string).

Definition mutating (c : call) : bool :=
  match c with
  | StopInstances _ | StartInstances _ | TerminateInstances _
  | DeleteVolume _ | ReleaseAddress _ | DeleteSecurityGroup _ => true
  | _ => false
  end.

(** The account and the calls issued so far, oldest first. *)
Record cloud (W : Type) := Cloud { world : W; calls : list call }.
Arguments Cloud {W} _ _.
Arguments world {W} _.
Arguments calls {W} _.

(** The state of one cleanup function while it runs: its local list
    [resp["results"]] (each element a one-entry dict [{id: tag}], kept as a
    pair) and the cloud. *)
Record frame (W : Type) := Frame { results : list (string * string); env : cloud W }.
Arguments Frame {W} _ _.
Arguments results {W} _.
Arguments env {W} _.

(** The dict returned by a cleanup function. *)
Record resp := Resp {
  resp_action : string;
  resp_requested : list string;
  resp_results : list (string * string);
}.

Section Functions.
Context {W : Type} `{Ec2Client W}.

(** [resp["results"].append({i: tag})] *)
Definition append_result (i tag : string) : M (frame W) unit :=
  λ f, (inr tt, Frame (results f ++ [(i, tag)]) (env f)).

(** A read-only call on the client. *)
Definition ec2_read {A} (c : call) (f : W → res A) : M (frame W) A :=
  λ fr, let e := env fr in
        (f (world e), Frame (results fr) (Cloud (world e) (calls e ++ [c]))).

(** A call on the client that may change the account. *)
Definition ec2_write (c : call) (f : W → res unit * W) : M (frame W) unit :=
  λ fr, let e := env fr in
        let '(r, w') := f (world e) in
        (r, Frame (results fr) (Cloud w' (calls e ++ [c]))).

(** Runs a loop over a fresh [resp] and returns the filled dict. *)
Definition with_resp (action : string) (requested : list string)
    (loop : M (frame W) unit) : M (cloud W) resp :=
  λ c, match loop (Frame [] c) with
       | (inr _, f) => (inr (Resp action requested (results f)), env f)
       | (inl e, f) => (inl e, env f)
       end.

(** The [try] block of the loop of [stop_instances]. *)
Definition stop_instances_try (dry_run : bool) (i : string) : M (frame W) unit :=
  (* validate current state *)
  let! reservations := ec2_read (DescribeInstances i) (λ w, ec2_describe_instances w i) in
  let! r := index0 reservations in
  let! inst := index0 (Instances r) in
  let state := State_Name inst in
  if String.eqb state "stopped" then append_result i "already stopped"
  else if dry_run then append_result i "dry_run_ok"
  else (ec2_write (StopInstances i) (λ w, ec2_stop_instances w i) ;;
        append_result i "stop_requested").

Definition stop_instances (instance_ids : list string) (dry_run : bool) : M (cloud W) resp :=
  with_resp "stop_instances" instance_ids
    (for_each instance_ids (λ i,
       try_except (stop_instances_try dry_run i)
                  (λ e, append_result i ("error:" +:+ e)))).

Definition start_instances_try (dry_run : bool) (i : string) : M (frame W) unit :=
  let! reservations := ec2_read (DescribeInstances i) (λ w, ec2_describe_instances w i) in
  let! r := index0 reservations in
  let! inst := index0 (Instances r) in
  let state := State_Name inst in
  if String.eqb state "running" then append_result i "already running"
  else if dry_run then append_result i "dry_run_ok"
  else (ec2_write (StartInstances i) (λ w, ec2_start_instances w i) ;;
        append_result i "start_requested").

Definition start_instances (instance_ids : list string) (dry_run : bool) : M (cloud W) resp :=
  with_resp "start_instances" instance_ids
    (for_each instance_ids (λ i,
       try_except (start_instances_try dry_run i)
                  (λ e, append_result i ("error:" +:+ e)))).

Definition terminate_instances_try (dry_run : bool) (i : string) : M (frame W) unit :=
  if dry_run then append_result i "dry_run_ok"
  else (ec2_write (TerminateInstances i) (λ w, ec2_terminate_instances w i) ;;
        append_result i "terminate_requested").

Definition terminate_instances (instance_ids : list string) (dry_run : bool) : M (cloud W) resp :=
  with_resp "terminate_instances" instance_ids
    (for_each instance_ids (λ i,
       try_except (terminate_instances_try dry_run i)
                  (λ e, append_result i ("error:" +:+ e)))).

Definition delete_volumes_try (dry_run : bool) (v : string) : M (frame W) unit :=
  let! volumes := ec2_read (DescribeVolumes v) (λ w, ec2_describe_volumes w v) in
  let! vol := index0 volumes in
  if negb (String.eqb (State vol) "available")
  then append_result v ("not_available_state:" +:+ State vol)
  else if dry_run then append_result v "dry_run_ok"
  else (ec2_write (DeleteVolume v) (λ w, ec2_delete_volume w v) ;;
        append_result v "deleted").

Definition delete_volumes (volume_ids : list string) (dry_run : bool) : M (cloud W) resp :=
  with_resp "delete_volumes" volume_ids
    (for_each volume_ids (λ v,
       try_except (delete_volumes_try dry_run v)
                  (λ e, append_result v ("error:" +:+ e)))).

Definition release_eips_try (dry_run : bool) (a : string) : M (frame W) unit :=
  (* ensure unassociated *)
  let! addrs := ec2_read (DescribeAddresses a) (λ w, ec2_describe_addresses w a) in
  match addrs with
  | [] => append_result a "not_found"
  | addr0 :: _ =>
      if bool_decide (is_Some (AssociationId addr0))
      then append_result a "associated"
      else if dry_run then append_result a "dry_run_ok"
      else (ec2_write (ReleaseAddress a) (λ w, ec2_release_address w a) ;;
            append_result a "released")
  end.

Definition release_eips (allocation_ids : list string) (dry_run : bool) : M (cloud W) resp :=
  with_resp "release_eips" allocation_ids
    (for_each allocation_ids (λ a,
       try_except (release_eips_try dry_run a)
                  (λ e, append_result a ("error:" +:+ e)))).

Definition delete_security_groups_try (dry_run : bool) (g : string) : M (frame W) unit :=
  (* skip default *)
  let! gids := ec2_read (DescribeSecurityGroups g) (λ w, ec2_describe_security_groups w g) in
  match gids with
  | [] => append_result g "not_found"
  | g0 :: _ =>
      if String.eqb (GroupName g0) "default"
      then append_result g "default_group_skip"
      else
        (* ensure not used by network interfaces *)
        let! enis := ec2_read (DescribeNetworkInterfaces g)
                              (λ w, ec2_describe_network_interfaces w g) in
        match enis with
        | _ :: _ => append_result g "in_use"
        | [] =>
            if dry_run then append_result g "dry_run_ok"
            else (ec2_write (DeleteSecurityGroup g) (λ w, ec2_delete_security_group w g) ;;
                  append_result g "deleted")
        end
  end.

Definition delete_security_groups (group_ids : list string) (dry_run : bool) : M (cloud W) resp :=
  with_resp "delete_security_groups" group_ids
    (for_each group_ids (λ g,
       try_except (delete_security_groups_try dry_run g)
                  (λ e, append_result g ("error:" +:+ e)))).

End Functions.

(** *** The handler *)

(** The request.  [event.get(k)] is [None] when the key [k] is absent. *)
Record event := Event {
  ev_action : option string;
  ev_dry_run : option bool;
  ev_instance_ids : option (list string);
  ev_volume_ids : option (list string);
  ev_allocation_ids : option (list string);
  ev_group_ids : option (list string);
}.

(** The dict [result]: the keys ["details"] and ["error"] are set by the
    dispatch, the other three when the dict is created. *)
Record result := MkResult {
  r_action : option string;
  r_timestamp : string;
  r_dry_run : bool;
  r_details : option resp;
  r_error : option string;
}.

Definition set_details (r : result) (d : resp) : result :=
  MkResult (r_action r) (r_timestamp r) (r_dry_run r) (Some d) (r_error r).

Definition set_error (r : result) (e : string) : result :=
  MkResult (r_action r) (r_timestamp r) (r_dry_run r) (r_details r) (Some e).

(** The item written to the log table.  [Result] is [str(result)] in the
    source; the dict is kept as it is here. *)
Record log_item := LogItem {
  ActionId : string;
  Action : option string;
  Timestamp : string;
  DryRun : bool;
  Result : result;
}.

(** The value returned by the handler.  [body] is [json.dumps(result)] in
    the source; the dict is kept as it is here. *)
Record response := Response { statusCode : Z; body : result }.

(** The DynamoDB log table, in a state [D]: [put_item] may raise. *)
Class LogTable (D : Type) := {
  table_put_item : D → log_item → res unit * D;
}.

(** What the handler runs against: the cloud, the number of clock readings
    taken so far, and the log table. *)
Record sys (W D : Type) := Sys { ec2 : cloud W; ticks : nat; logdb : D }.
Arguments Sys {W D} _ _ _.
Arguments ec2 {W D} _.
Arguments ticks {W D} _.
Arguments logdb {W D} _.

(** [action == s] *)
Definition py_eq (x : option string) (s : string) : bool :=
  match x with
  | Some a => String.eqb a s
  | None => false
  end.

Section Handler.
Context {W D : Type} `{Ec2Client W} `{LogTable D} `{Clock}.

Definition utcnow : M (sys W D) Z :=
  λ s, (inr (utcnow_at (ticks s)), Sys (ec2 s) (S (ticks s)) (logdb s)).

(** Runs a cleanup function on the cloud of the system. *)
Definition on_ec2 {A} (m : M (cloud W) A) : M (sys W D) A :=
  λ s, let '(r, c) := m (ec2 s) in (r, Sys c (ticks s) (logdb s)).

Definition log_action (item : log_item) : M (sys W D) unit :=
  try_except
    (λ s, let '(r, d) := table_put_item (logdb s) item in
          (r, Sys (ec2 s) (ticks s) d))
    (λ _, ret tt).

Definition lambda_handler (event : event) : M (sys W D) response :=
  let action := ev_action event in
  let dry_run := default true (ev_dry_run event) in
  let! now := utcnow in
  let result := MkResult action (isoformat now) dry_run None None in
  let! result :=
    try_except
      (if py_eq action "stop_instances" then
         let! d := on_ec2 (stop_instances (default [] (ev_instance_ids event)) dry_run) in
         ret (set_details result d)
       else if py_eq action "start_instances" then
         let! d := on_ec2 (start_instances (default [] (ev_instance_ids event)) dry_run) in
         ret (set_details result d)
       else if py_eq action "terminate_instances" then
         let! d := on_ec2 (terminate_instances (default [] (ev_instance_ids event)) dry_run) in
         ret (set_details result d)
       else if py_eq action "delete_volumes" then
         let! d := on_ec2 (delete_volumes (default [] (ev_volume_ids event)) dry_run) in
         ret (set_details result d)
       else if py_eq action "release_eips" then
         let! d := on_ec2 (release_eips (default [] (ev_allocation_ids event)) dry_run) in
         ret (set_details result d)
       else if py_eq action "delete_security_groups" then
         let! d := on_ec2 (delete_security_groups (default [] (ev_group_ids event)) dry_run) in
         ret (set_details result d)
       else ret (set_error result ("Unknown action: " +:+ py_str action)))
      (λ e, ret (set_error result e)) in
  try_except
    (let! t1 := utcnow in
     let! t2 := utcnow in
     let log_item := LogItem (py_str action +:+ "-" +:+ isoformat t1) action
                             (isoformat t2) dry_run result in
     log_action log_item)
    (λ _, ret tt) ;;
  ret (Response 200 result).

End Handler.

(** *** The six actions, indexed

    The six cleanup functions have the same shape; indexing them lets a
    statement range over all of them. *)
Inductive action_kind :=
  | Stop | Start | Terminate | DeleteVolumes | ReleaseEips | DeleteSecurityGroups.

(** The string the handler compares [action] with, which is also the
    ["action"] of the dict the function returns. *)
Definition action_name (k : action_kind) : string :=
  match k with
  | Stop => "stop_instances"
  | Start => "start_instances"
  | Terminate => "terminate_instances"
  | DeleteVolumes => "delete_volumes"
  | ReleaseEips => "release_eips"
  | DeleteSecurityGroups => "delete_security_groups"
  end.

(** The list of targets the handler passes to the function. *)
Definition target_ids (k : action_kind) (event : event) : list string :=
  match k with
  | Stop | Start | Terminate => default [] (ev_instance_ids event)
  | DeleteVolumes => default [] (ev_volume_ids event)
  | ReleaseEips => default [] (ev_allocation_ids event)
  | DeleteSecurityGroups => default [] (ev_group_ids event)
  end.

(** The branch of the handler's [if]/[elif] chain an action takes, if any. *)
Definition kind_of_action (action : option string) : option action_kind :=
  if py_eq action "stop_instances" then Some Stop
  else if py_eq action "start_instances" then Some Start
  else if py_eq action "terminate_instances" then Some Terminate
  else if py_eq action "delete_volumes" then Some DeleteVolumes
  else if py_eq action "release_eips" then Some ReleaseEips
  else if py_eq action "delete_security_groups" then Some DeleteSecurityGroups
  else None.

(** The tags by which the state check of an action refuses a target. *)
Definition refusal_tag (k : action_kind) (tag : string) : Prop :=
  match k with
  | Stop => tag = "already stopped"
  | Start => tag = "already running"
  | Terminate => False
  | DeleteVolumes => ∃ state, state ≠ "available" ∧ tag = "not_available_state:" +:+ state
  | ReleaseEips => tag = "not_found" ∨ tag = "associated"
  | DeleteSecurityGroups =>
      tag = "not_found" ∨ tag = "default_group_skip" ∨ tag = "in_use"
  end.

Definition error_tag (tag : string) : Prop := ∃ e : exn, tag = "error:" +:+ e.

Section Indexed.
Context {W : Type} `{Ec2Client W}.

Definition cleanup_function (k : action_kind) : list string → bool → M (cloud W) resp :=
  match k with
  | Stop => stop_instances
  | Start => start_instances
  | Terminate => terminate_instances
  | DeleteVolumes => delete_volumes
  | ReleaseEips => release_eips
  | DeleteSecurityGroups => delete_security_groups
  end.

Definition try_block (k : action_kind) : bool → string → M (frame W) unit :=
  match k with
  | Stop => stop_instances_try
  | Start => start_instances_try
  | Terminate => terminate_instances_try
  | DeleteVolumes => delete_volumes_try
  | ReleaseEips => release_eips_try
  | DeleteSecurityGroups => delete_security_groups_try
  end.

(** The cloud in which a request finds its [n]-th target (counting from
    0): the one the same request restricted to the targets before it
    leaves behind. *)
Definition cloud_at (k : action_kind) (ids : list string) (dry_run : bool)
    (c : cloud W) (n : nat) : cloud W :=
  (cleanup_function k (take n ids) dry_run c).2.

(** The lifecycle state of an instance as [stop_instances] and
    [start_instances] read it:
    [describe_instances(...)["Reservations"][0]["Instances"][0]["State"]["Name"]]. *)
Definition instance_state (w : W) (i : string) : res string :=
  match ec2_describe_instances w i with
  | inl e => inl e
  | inr [] => inl "list index out of range"
  | inr (r :: _) =>
      match Instances r with
      | [] => inl "list index out of range"
      | inst :: _ => inr (State_Name inst)
      end
  end.

(** The state of a volume as [delete_volumes] reads it:
    [describe_volumes(...)["Volumes"][0]["State"]]. *)
Definition volume_state (w : W) (v : string) : res string :=
  match ec2_describe_volumes w v with
  | inl e => inl e
  | inr [] => inl "list index out of range"
  | inr (vol :: _) => inr (State vol)
  end.

(** A target passes the state check of an action: every guard before
    [if dry_run] lets it through. *)
Definition passes_validation (k : action_kind) (w : W) (i : string) : Prop :=
  match k with
  | Stop => ∃ state, instance_state w i = inr state ∧ state ≠ "stopped"
  | Start => ∃ state, instance_state w i = inr state ∧ state ≠ "running"
  | Terminate => True
  | DeleteVolumes => volume_state w i = inr "available"
  | ReleaseEips =>
      ∃ addr0 l, ec2_describe_addresses w i = inr (addr0 :: l) ∧ AssociationId addr0 = None
  | DeleteSecurityGroups =>
      ∃ g0 l, ec2_describe_security_groups w i = inr (g0 :: l) ∧
              GroupName g0 ≠ "default" ∧
              ec2_describe_network_interfaces w i = inr []
  end.

(** What a [try] block does in an account: whether it ends by appending a
    tag or by raising, the calls it issues, and the account it leaves. *)
Definition outcome : Type := res string * list call * W.

Definition write_outcome (pre : list call) (c : call) (f : W → res unit * W)
    (tag : string) (w : W) : outcome :=
  let '(r, w') := f w in
  (match r with inr _ => inr tag | inl e => inl e end, (pre ++ [c])%list, w').

Definition try_outcome (k : action_kind) (dry_run : bool) (i : string) (w : W) : outcome :=
  match k with
  | Stop =>
      match instance_state w i with
      | inl e => (inl e, [DescribeInstances i], w)
      | inr state =>
          if String.eqb state "stopped" then (inr "already stopped", [DescribeInstances i], w)
          else if dry_run then (inr "dry_run_ok", [DescribeInstances i], w)
          else write_outcome [DescribeInstances i] (StopInstances i)
                 (λ w, ec2_stop_instances w i) "stop_requested" w
      end
  | Start =>
      match instance_state w i with
      | inl e => (inl e, [DescribeInstances i], w)
      | inr state =>
          if String.eqb state "running" then (inr "already running", [DescribeInstances i], w)
          else if dry_run then (inr "dry_run_ok", [DescribeInstances i], w)
          else write_outcome [DescribeInstances i] (StartInstances i)
                 (λ w, ec2_start_instances w i) "start_requested" w
      end
  | Terminate =>
      if dry_run then (inr "dry_run_ok", [], w)
      else write_outcome [] (TerminateInstances i)
             (λ w, ec2_terminate_instances w i) "terminate_requested" w
  | DeleteVolumes =>
      match volume_state w i with
      | inl e => (inl e, [DescribeVolumes i], w)
      | inr state =>
          if negb (String.eqb state "available")
          then (inr ("not_available_state:" +:+ state), [DescribeVolumes i], w)
          else if dry_run then (inr "dry_run_ok", [DescribeVolumes i], w)
          else write_outcome [DescribeVolumes i] (DeleteVolume i)
                 (λ w, ec2_delete_volume w i) "deleted" w
      end
  | ReleaseEips =>
      match ec2_describe_addresses w i with
      | inl e => (inl e, [DescribeAddresses i], w)
      | inr [] => (inr "not_found", [DescribeAddresses i], w)
      | inr (addr0 :: _) =>
          if bool_decide (is_Some (AssociationId addr0))
          then (inr "associated", [DescribeAddresses i], w)
          else if dry_run then (inr "dry_run_ok", [DescribeAddresses i], w)
          else write_outcome [DescribeAddresses i] (ReleaseAddress i)
                 (λ w, ec2_release_address w i) "released" w
      end
  | DeleteSecurityGroups =>
      match ec2_describe_security_groups w i with
      | inl e => (inl e, [DescribeSecurityGroups i], w)
      | inr [] => (inr "not_found", [DescribeSecurityGroups i], w)
      | inr (g0 :: _) =>
          if String.eqb (GroupName g0) "default"
          then (inr "default_group_skip", [DescribeSecurityGroups i], w)
          else
            let cs := [DescribeSecurityGroups i; DescribeNetworkInterfaces i] in
            match ec2_describe_network_interfaces w i with
            | inl e => (inl e, cs, w)
            | inr (_ :: _) => (inr "in_use", cs, w)
            | inr [] =>
                if dry_run then (inr "dry_run_ok", cs, w)
                else write_outcome cs (DeleteSecurityGroup i)
                       (λ w, ec2_delete_security_group w i) "deleted" w
            end
      end
  end.

(** The tag one iteration of the loop appends: the one of the [try] block,
    or the one of the [except] clause. *)
Definition tag_of (r : res string) : string :=
  match r with
  | inr tag => tag
  | inl e => "error:" +:+ e
  end.

(** The iterations of a loop, summarised: the entries appended, the calls
    issued and the account left. *)
Fixpoint run (k : action_kind) (dry_run : bool) (ids : list string) (w : W)
    : list (string * string) * list call * W :=
  match ids with
  | [] => ([], [], w)
  | i :: ids' =>
      let '(r, cs, w') := try_outcome k dry_run i w in
      let '(rs, cs', w'') := run k dry_run ids' w' in
      ((i, tag_of r) :: rs, (cs ++ cs')%list, w'')
  end.

End Indexed.

(** *** A simulated account

    A small model of an account, on which the functions can be evaluated. *)
Record account := Account {
  acc_instances : gmap string string;        (* instance id -> state name *)
  acc_volumes : gmap string string;          (* volume id -> state *)
  acc_addresses : gmap string (option string); (* allocation id -> association id *)
  acc_groups : gmap string string;           (* group id -> group name *)
  acc_enis : list (string * string);         (* interface id, group id *)
}.

Definition set_instance_state (w : account) (i st : string) : res unit * account :=
  match acc_instances w !! i with
  | Some _ =>
      (inr tt, Account (<[i := st]> (acc_instances w)) (acc_volumes w)
                       (acc_addresses w) (acc_groups w) (acc_enis w))
  | None => (inl "InvalidInstanceID.NotFound", w)
  end.

#[export] Instance account_client : Ec2Client account := {
  ec2_describe_instances w i :=
    match acc_instances w !! i with
    | Some st => inr [ {| Instances := [ {| State_Name := st |} ] |} ]
    | None => inl "InvalidInstanceID.NotFound"
    end;
  ec2_stop_instances w i := set_instance_state w i "stopped";
  ec2_start_instances w i := set_instance_state w i "running";
  ec2_terminate_instances w i := set_instance_state w i "terminated";
  ec2_describe_volumes w v :=
    match acc_volumes w !! v with
    | Some st => inr [ {| State := st |} ]
    | None => inl "InvalidVolume.NotFound"
    end;
  ec2_delete_volume w v :=
    (inr tt, Account (acc_instances w) (delete v (acc_volumes w))
                     (acc_addresses w) (acc_groups w) (acc_enis w));
  ec2_describe_addresses w a :=
    match acc_addresses w !! a with
    | Some assoc => inr [ {| AssociationId := assoc |} ]
    | None => inr []
    end;
  ec2_release_address w a :=
    (inr tt, Account (acc_instances w) (acc_volumes w)
                     (delete a (acc_addresses w)) (acc_groups w) (acc_enis w));
  ec2_describe_security_groups w g :=
    match acc_groups w !! g with
    | Some name => inr [ {| GroupName := name |} ]
    | None => inr []
    end;
  ec2_describe_network_interfaces w g :=
    inr (map (λ e, {| NetworkInterfaceId := e.1 |})
             (filter (λ e, e.2 = g) (acc_enis w)));
  ec2_delete_security_group w g :=
    (inr tt, Account (acc_instances w) (acc_volumes w)
                     (acc_addresses w) (delete g (acc_groups w)) (acc_enis w));
}.

(** A log table that stores what it is given, and one that always fails. *)
#[export] Instance working_log : LogTable (list log_item) := {
  table_put_item d it := (inr tt, (d ++ [it])%list);
}.

#[export] Instance broken_log : LogTable unit := {
  table_put_item d it := (inl "ProvisionedThroughputExceededException", d);
}.

(** A clock that advances one second per reading. *)

Definition sim_account : account :=
  Account {[ "i-run" := "running"; "i-stop" := "stopped" ]}
          {[ "vol-1" := "in-use"; "vol-2" := "available" ]}
          {[ "eip-used" := Some "eipassoc-1"; "eip-free" := None ]}
          {[ "sg-default" := "default"; "sg-web" := "web"; "sg-old" := "old" ]}
          [("eni-1", "sg-web"); ("eni-2", "sg-default")].

Definition sim_cloud : cloud account := Cloud sim_account [].

Definition sim_sys : sys account (list log_item) := Sys sim_cloud 0 [].

(** A dry-run stop request for a running instance, a stopped one and one
    that does not exist. *)
Definition dry_stop_request : event :=
  Event (Some "stop_instances") (Some true) (Some ["i-run"; "i-stop"; "i-gone"])
        None None None.

(** A request for an action the handler does not know. *)
Definition reboot_request : event :=
  Event (Some "reboot_instances") None (Some ["i-run"]) None None None.

Definition stop_batch : list string := ["i-run"; "i-gone"; "i-stop"].
Definition stop_pair : list string := ["i-run"; "i-stop"].
Definition group_batch : list string := ["sg-web"; "sg-default"; "sg-none"; "sg-old"].
Definition volume_batch : list string := ["vol-2"; "vol-1"].

(** *** What an action does to a target that passes its state check *)

(** The mutating call of each action. *)
Definition mutation (k : action_kind) (i : string) : call :=
  match k with
  | Stop => StopInstances i
  | Start => StartInstances i
  | Terminate => TerminateInstances i
  | DeleteVolumes => DeleteVolume i
  | ReleaseEips => ReleaseAddress i
  | DeleteSecurityGroups => DeleteSecurityGroup i
  end.

(** The tag appended after the mutating call returned. *)
Definition success_tag (k : action_kind) : string :=
  match k with
  | Stop => "stop_requested"
  | Start => "start_requested"
  | Terminate => "terminate_requested"
  | DeleteVolumes => "deleted"
  | ReleaseEips => "released"
  | DeleteSecurityGroups => "deleted"
  end.

(** The resource a call is about. *)
Definition call_target (c : call) : string :=
  match c with
  | DescribeInstances i | StopInstances i | StartInstances i | TerminateInstances i
  | DescribeVolumes i | DeleteVolume i | DescribeAddresses i | ReleaseAddress i
  | DescribeSecurityGroups i | DescribeNetworkInterfaces i | DeleteSecurityGroup i => i
  end.

(** The mutating calls of a trace, in order. *)
Definition mutations (cs : list call) : list call := List.filter mutating cs.

(** The client method behind the mutating call of each action. *)
Definition mutate {W : Type} `{Ec2Client W} (k : action_kind) : W → string → res unit * W :=
  match k with
  | Stop => ec2_stop_instances
  | Start => ec2_start_instances
  | Terminate => ec2_terminate_instances
  | DeleteVolumes => ec2_delete_volume
  | ReleaseEips => ec2_release_address
  | DeleteSecurityGroups => ec2_delete_security_group
  end.

(** An execute request for the unattached volume and the attached one, and a
    delete-volumes request that names its targets under the wrong key. *)
Definition execute_volumes_request : event :=
  Event (Some "delete_volumes") (Some false) None (Some ["vol-2"; "vol-1"]) None None.

Definition misfiled_request : event :=
  Event (Some "delete_volumes") (Some false) (Some ["vol-2"]) None None None.

End Cleanup.

(** ** The detection Lambda ([Detect_idle_ec2_stale_resource.py]) *)

Module Detect.
Import PrimFloat SpecFloat FloatOps.

(** *** Numbers

    The statistics of a CloudWatch datapoint are Python floats, that is
    IEEE 754 binary64 numbers.  They are Rocq's primitive floats here, whose
    operations round as Python's do.  The numbers the handler computes are
    floats or ints: [sum] of an empty sequence is the int [0]. *)
Inductive num :=
  | PyInt (z : Z)
  | PyFloat (x : float).

(** [float(z)]: the binary64 nearest to [z], ties to even.  It is [z]
    itself up to [2^53], so for every int of this handler: [0], the length
    of a list, and the network threshold. *)
Definition float_of_int (z : Z) : float :=
  SF2Prim (binary_normalize prec emax z 0 false).

(** The operand of a float operation: an int is converted first. *)
Definition to_float (a : num) : float :=
  match a with
  | PyInt z => float_of_int z
  | PyFloat x => x
  end.

(** [a + b] *)
Definition py_add (a b : num) : num :=
  match a, b with
  | PyInt x, PyInt y => PyInt (x + y)
  | _, _ => PyFloat (to_float a + to_float b)
  end.

(** [a < b] *)
Definition py_lt (a b : num) : bool :=
  match a, b with
  | PyInt x, PyInt y => (x <? y)%Z
  | _, _ => (to_float a <? to_float b)%float
  end.

(** [sum(l)] for floats: the items are added to the int [0] from left to
    right, each addition rounding its result, as CPython does up to version
    3.11 (later versions carry a correction term along). *)
Definition py_sum (l : list float) : num :=
  fold_left (λ a x, py_add a (PyFloat x)) l (PyInt 0).

(** [a / n] for an int [n] *)
Definition py_truediv {S} (a : num) (n : Z) : M S float :=
  if (n =? 0)%Z
  then raise match a with
             | PyInt _ => "division by zero"
             | PyFloat _ => "float division by zero"
             end
  else ret (to_float a / float_of_int n)%float.

(** [max(l)]: the first item that no later item exceeds. *)
Definition py_max {S} (l : list float) : M S float :=
  match l with
  | [] => raise "max() arg is an empty sequence"
  | x :: l' => ret (fold_left (λ m y, if (m <? y)%float then y else m) l' x)
  end.

(** [int(a)]: truncation towards zero; an infinity or a NaN cannot be
    converted. *)
Definition int_of (a : num) : res Z :=
  match a with
  | PyInt z => inr z
  | PyFloat x =>
      match Prim2SF x with
      | S754_zero _ => inr 0%Z
      | S754_finite s m e => inr (cond_Zopp s (Z.shiftl (Z.pos m) e))
      | S754_infinity _ => inl "cannot convert float infinity to integer"
      | S754_nan => inl "cannot convert float NaN to integer"
      end
  end.

Definition py_int {S} (a : num) : M S Z := lift (int_of a).

(** The integer nearest to [n / 2^k], ties to the even one. *)
Definition half_even (n k : Z) : Z :=
  let d := Z.shiftl 1 k in
  let q := (n / d)%Z in
  let r := (n mod d)%Z in
  if (2 * r <? d)%Z then q
  else if (d <? 2 * r)%Z then (q + 1)%Z
  else if Z.even q then q else (q + 1)%Z.

(** [round(x, 2)]: the float nearest to the multiple of 1/100 that is
    nearest to [x], ties to the even one in both steps; the sign is kept, and
    an infinity or a NaN is returned as it is. *)
Definition round2 (x : float) : float :=
  match Prim2SF x with
  | S754_finite s m e =>
      let hundredths :=
        if (0 <=? e)%Z then Z.shiftl (100 * Z.pos m) e
        else half_even (100 * Z.pos m) (- e) in
      match hundredths with
      | Z.pos p => SF2Prim (SFdiv prec emax (S754_finite s p 0) (S754_finite false 100 0))
      | _ => SF2Prim (S754_zero s)
      end
  | _ => x
  end.

(** [Decimal(str(x))]: the decimal number that the text of [x] spells.
    [str] of a float is the shortest text that reads back as that float, so
    the decimal is determined by [x], which stands for it here. *)
Inductive decimal :=
  | Decimal_str (x : num).

(** *** Data *)

(** A datapoint of [CPUUtilization] with [Statistics=['Average','Maximum']]. *)
Record cpu_datapoint := CpuDatapoint { Average : float; Maximum : float }.

(** A datapoint of [NetworkIn] or [NetworkOut] with [Statistics=['Sum']]. *)
Record net_datapoint := NetDatapoint { Sum : float }.

(** An [ec2.Instance] resource: [launch_time] is kept as its [isoformat()]
    text, [placement_AvailabilityZone] is [placement['AvailabilityZone']],
    and [tags] is [None] or a list of [{'Key': k, 'Value': v}]. *)
Record instance := Instance {
  id : string;
  instance_type : string;
  launch_time : string;
  placement_AvailabilityZone : string;
  tags : option (list (string * string));
}.

(** [{tag['Key']: tag['Value'] for tag in l}]: a later entry overwrites an
    earlier one with the same key. *)
Definition tags_dict (l : list (string * string)) : gmap string string :=
  fold_left (λ m kv, <[kv.1 := kv.2]> m) l ∅.

(** The dict [instance_info]; the keys after [Tags] are absent until set. *)
Record instance_info := InstanceInfo {
  InstanceId : string;
  InstanceType : string;
  LaunchTime : string;
  Region : string;
  Tags : gmap string string;
  AvgCPU : option float;
  MaxCPU : option float;
  NetworkInBytes : option Z;
  NetworkOutBytes : option Z;
  TotalNetworkBytes : option Z;
  EvaluationTimestamp : option string;
  Status : option string;
  Recommendation : option string;
}.

(** [instance_info.update({'Status': s, 'Recommendation': r})], also written
    as two assignments in the source. *)
Definition set_status (i : instance_info) (s r : string) : instance_info :=
  InstanceInfo (InstanceId i) (InstanceType i) (LaunchTime i) (Region i) (Tags i)
    (AvgCPU i) (MaxCPU i) (NetworkInBytes i) (NetworkOutBytes i)
    (TotalNetworkBytes i) (EvaluationTimestamp i) (Some s) (Some r).

(** [instance_info.update({'AvgCPU': ..., ..., 'EvaluationTimestamp': ...})] *)
Definition set_metrics (i : instance_info) (avg max : float) (net_in net_out total : Z)
    (timestamp : string) : instance_info :=
  InstanceInfo (InstanceId i) (InstanceType i) (LaunchTime i) (Region i) (Tags i)
    (Some avg) (Some max) (Some net_in) (Some net_out) (Some total)
    (Some timestamp) (Status i) (Recommendation i).

(** The item written to the DynamoDB table; [item_Tags] is [json.dumps] of
    the tag dict in the source and the dict itself here. *)
Record item := Item {
  item_InstanceId : string;
  item_EvaluationTimestamp : string;
  item_InstanceType : string;
  item_AvgCPU : decimal;
  item_MaxCPU : decimal;
  item_NetworkInBytes : decimal;
  item_NetworkOutBytes : decimal;
  item_TotalNetworkBytes : decimal;
  item_Status : option string;
  item_Recommendation : option string;
  item_Region : string;
  item_Tags : gmap string string;
  item_LaunchTime : string;
}.

(** *** The provider interface

    [W] is the state of the account.  [ec2_instances_running] is the
    iteration over [ec2.instances.filter(...)]: the collection is lazy and
    requests its pages while the loop runs, so the iteration yields some
    instances, in order, and then ends or raises the exception of a failed
    request.  What it yields is read off the account as the scan finds it:
    which instances are running does not depend on what the loop body did
    for the instances before.  Reading metrics does not change the account;
    tagging an instance and writing to the table may; and each of these
    calls may raise. *)
Class Provider (W : Type) := {
  ec2_instances_running : W → list instance * option exn;
  cloudwatch_cpu : W → string → Z → Z → res (list cpu_datapoint);
  cloudwatch_network_in : W → string → Z → Z → res (list net_datapoint);
  cloudwatch_network_out : W → string → Z → Z → res (list net_datapoint);
  instance_create_tags : W → string → list (string * string) → res unit * W;
  dynamodb_put_item : W → item → res unit * W;
}.

Inductive call :=
  | GetMetricStatistics (metric instance_id : string) (start_time end_time : Z)
  | CreateTags (instance_id : string) (tags : list (string * string))
  | PutItem (it : item).

(** The account, the number of clock readings taken, the table (keyed by
    [InstanceId]) and the calls issued so far, oldest first. *)
Record sys (W : Type) := Sys {
  world : W;
  ticks : nat;
  table : gmap string item;
  calls : list call;
}.
Arguments Sys {W} _ _ _ _.
Arguments world {W} _.
Arguments ticks {W} _.
Arguments table {W} _.
Arguments calls {W} _.

(** The state of a scan while it runs: its two local lists and the system. *)
Record scan (W : Type) := Scan {
  idle_instances : list instance_info;
  analyzed_instances : list instance_info;
  env : sys W;
}.
Arguments Scan {W} _ _ _.
Arguments idle_instances {W} _.
Arguments analyzed_instances {W} _.
Arguments env {W} _.

(** The dict [summary]. *)
Record summary := Summary {
  sum_timestamp : string;
  evaluation_period_minutes : Z;
  total_instances_analyzed : nat;
  idle_instances_count : nat;
  active_instances_count : nat;
  sum_idle_instances : list instance_info;
  all_instances : list instance_info;
}.

(** The value returned by the handler: [body] is [json.dumps(summary, ...)]
    in the source and the dict itself here. *)
Record response := Response { statusCode : Z; body : summary }.

(** Settings *)
Definition CPU_THRESHOLD : float := 10.
Definition NETWORK_THRESHOLD : Z := 1048576.
Definition EVALUATION_MINUTES : Z := 5.

(** [timedelta(minutes=m)] in microseconds. *)
Definition timedelta_minutes (m : Z) : Z := (m * 60 * 1000000)%Z.

Section Functions.
Context {W : Type} `{Provider W} `{Clock}.

Definition utcnow : M (scan W) Z :=
  λ f, let e := env f in
       (inr (utcnow_at (ticks e)),
        Scan (idle_instances f) (analyzed_instances f)
             (Sys (world e) (S (ticks e)) (table e) (calls e))).

(** A read-only call on a client. *)
Definition read {A} (c : call) (g : W → res A) : M (scan W) A :=
  λ f, let e := env f in
       (g (world e),
        Scan (idle_instances f) (analyzed_instances f)
             (Sys (world e) (ticks e) (table e) (calls e ++ [c]))).

(** [instance.create_tags(Tags=tags)] *)
Definition create_tags (instance_id : string) (tags : list (string * string))
    : M (scan W) unit :=
  λ f, let e := env f in
       let '(r, w') := instance_create_tags (world e) instance_id tags in
       (r, Scan (idle_instances f) (analyzed_instances f)
                (Sys w' (ticks e) (table e) (calls e ++ [CreateTags instance_id tags]))).

(** [table.put_item(Item=it)]: the item replaces the one stored under the
    same [InstanceId], unless the call raises. *)
Definition put_item (it : item) : M (scan W) unit :=
  λ f, let e := env f in
       let '(r, w') := dynamodb_put_item (world e) it in
       let t' := match r with
                 | inr _ => <[item_InstanceId it := it]> (table e)
                 | inl _ => table e
                 end in
       (r, Scan (idle_instances f) (analyzed_instances f)
                (Sys w' (ticks e) t' (calls e ++ [PutItem it]))).

Definition append_idle (i : instance_info) : M (scan W) unit :=
  λ f, (inr tt, Scan (idle_instances f ++ [i]) (analyzed_instances f) (env f)).

Definition append_analyzed (i : instance_info) : M (scan W) unit :=
  λ f, (inr tt, Scan (idle_instances f) (analyzed_instances f ++ [i]) (env f)).

(** The [try] block of the loop. *)
Definition analyze_try (timestamp : string) (instance : instance)
    (instance_info : instance_info) (start_time end_time : Z) : M (scan W) unit :=
  (* CPU utilization *)
  let! cpu_datapoints :=
    read (GetMetricStatistics "CPUUtilization" (id instance) start_time end_time)
         (λ w, cloudwatch_cpu w (id instance) start_time end_time) in
  (* Network In *)
  let! netin_datapoints :=
    read (GetMetricStatistics "NetworkIn" (id instance) start_time end_time)
         (λ w, cloudwatch_network_in w (id instance) start_time end_time) in
  (* Network Out *)
  let! netout_datapoints :=
    read (GetMetricStatistics "NetworkOut" (id instance) start_time end_time)
         (λ w, cloudwatch_network_out w (id instance) start_time end_time) in
  match cpu_datapoints with
  | [] =>
      append_analyzed (set_status instance_info "NoData" "Enable detailed monitoring")
  | _ :: _ =>
      (* Calculate averages and totals *)
      let! avg_cpu := py_truediv (py_sum (map Average cpu_datapoints))
                                 (Z.of_nat (length cpu_datapoints)) in
      let! max_cpu := py_max (map Maximum cpu_datapoints) in
      let total_net_in := py_sum (map Sum netin_datapoints) in
      let total_net_out := py_sum (map Sum netout_datapoints) in
      let total_network := py_add total_net_in total_net_out in
      let! net_in_bytes := py_int total_net_in in
      let! net_out_bytes := py_int total_net_out in
      let! total_bytes := py_int total_network in
      let instance_info :=
        set_metrics instance_info (round2 avg_cpu) (round2 max_cpu)
          net_in_bytes net_out_bytes total_bytes timestamp in
      (* Determine idle/active *)
      let! instance_info :=
        if (avg_cpu <? CPU_THRESHOLD)%float &&
           py_lt total_network (PyInt NETWORK_THRESHOLD)
        then
          let instance_info := set_status instance_info "Idle" "Consider stopping instance" in
          (append_idle instance_info ;;
           (* Optional tagging *)
           try_except
             (create_tags (id instance)
                [("CostOptimization", "CandidateForStop"); ("IdleDetectedAt", timestamp)])
             (λ tag_err, ret tt) ;;
           ret instance_info)
        else ret (set_status instance_info "Active" "Keep running") in
      (append_analyzed instance_info ;;
       (* Store record in DynamoDB (each instance's current status) *)
       put_item (Item (id instance) timestamp (instance_type instance)
                      (Decimal_str (PyFloat (round2 avg_cpu)))
                      (Decimal_str (PyFloat (round2 max_cpu)))
                      (Decimal_str total_net_in) (Decimal_str total_net_out)
                      (Decimal_str total_network)
                      (Status instance_info) (Recommendation instance_info)
                      (Region instance_info) (Tags instance_info)
                      (launch_time instance)))
  end.

(** The body of the loop over the running instances. *)
Definition scan_instance (timestamp : string) (instance : instance) : M (scan W) unit :=
  let instance_info :=
    InstanceInfo (id instance) (instance_type instance) (launch_time instance)
      (drop_last (placement_AvailabilityZone instance))
      (tags_dict (default [] (tags instance)))
      None None None None None None None None in
  (* Skip if tag AutoStop=false *)
  if bool_decide (Tags instance_info !! "AutoStop" = Some "false") then ret tt
  else
    let! end_time := utcnow in
    let start_time := (end_time - timedelta_minutes EVALUATION_MINUTES)%Z in
    try_except
      (analyze_try timestamp instance instance_info start_time end_time)
      (λ e, ret tt).

(** The handler, for an iteration over the running instances that yields
    [instances] and then ends or raises [failure]. *)
Definition scan_instances (instances : list instance) (failure : option exn)
    : M (sys W) response :=
  λ s,
    let timestamp := isoformat (utcnow_at (ticks s)) in
    let s0 := Sys (world s) (S (ticks s)) (table s) (calls s) in
    match for_each_lazy instances failure (scan_instance timestamp) (Scan [] [] s0) with
    | (inr _, f) =>
        let summary :=
          Summary timestamp EVALUATION_MINUTES
            (length (analyzed_instances f))
            (length (idle_instances f))
            (length (filter (λ i, Status i = Some "Active") (analyzed_instances f)))
            (idle_instances f) (analyzed_instances f) in
        (inr (Response 200 summary), env f)
    | (inl e, f) => (inl e, env f)
    end.

Definition lambda_handler : M (sys W) response :=
  λ s, let running := ec2_instances_running (world s) in
       scan_instances running.1 running.2 s.

End Functions.

(** *** Names for what the loop body computes *)

(** [avg_cpu], as computed from the CPU datapoints when there are some. *)
Definition window_avg_cpu (cpu : list cpu_datapoint) : float :=
  (to_float (py_sum (map Average cpu)) / float_of_int (Z.of_nat (length cpu)))%float.

(** [total_network], as computed from the two lists of network datapoints. *)
Definition window_total_network (netin netout : list net_datapoint) : num :=
  py_add (py_sum (map Sum netin)) (py_sum (map Sum netout)).

(** [int(a)] returns: [a] is an int or a finite float. *)
Definition int_returns (a : num) : bool :=
  match int_of a with
  | inr _ => true
  | inl _ => false
  end.

(** [int()] returns for the three network totals of the window, so that the
    [try] block gets past the conversions of lines 117 to 119. *)
Definition window_is_finite (netin netout : list net_datapoint) : bool :=
  int_returns (py_sum (map Sum netin)) &&
  int_returns (py_sum (map Sum netout)) &&
  int_returns (window_total_network netin netout).

(** The tag dict of an instance says [AutoStop=false]. *)
Definition opted_out (instance : instance) : Prop :=
  tags_dict (default [] (tags instance)) !! "AutoStop" = Some "false".

#[export] Instance opted_out_dec (instance : instance) : Decision (opted_out instance) :=
  decide (tags_dict (default [] (tags instance)) !! "AutoStop" = Some "false").

(** The items that a list of calls writes to the table, in order. *)
Definition put_items (cs : list call) : list item :=
  omap (λ c, match c with PutItem it => Some it | _ => None end) cs.

(** The tags written on an idle instance. *)
Definition idle_tags (timestamp : string) : list (string * string) :=
  [("CostOptimization", "CandidateForStop"); ("IdleDetectedAt", timestamp)].

(** The sentence of the specification on detection records, as it is
    written: after a scan, every instance with a verdict has a record under
    its id in the table. *)
Definition every_verdict_is_recorded {W : Type} `{Provider W} `{Clock} (s : sys W) : Prop :=
  ∀ response s', lambda_handler s = (inr response, s') →
    ∀ info, info ∈ all_instances (body response) →
      is_Some (table s' !! InstanceId info).

(** *** A simulated account

    The running instances, the exception that ends their listing if any,
    their metrics, and whether the table accepts writes. *)
Record monitored := Monitored {
  acc_running : list instance;
  acc_listing_failure : option exn;
  acc_cpu : gmap string (list cpu_datapoint);
  acc_network_in : gmap string (list net_datapoint);
  acc_network_out : gmap string (list net_datapoint);
  acc_table_up : bool;
}.

#[export] Instance monitored_provider : Provider monitored := {
  ec2_instances_running w := (acc_running w, acc_listing_failure w);
  cloudwatch_cpu w i _ _ :=
    match acc_cpu w !! i with
    | Some l => inr l
    | None => inl "Throttling"
    end;
  cloudwatch_network_in w i _ _ := inr (default [] (acc_network_in w !! i));
  cloudwatch_network_out w i _ _ := inr (default [] (acc_network_out w !! i));
  instance_create_tags w i tags := (inr tt, w);
  dynamodb_put_item w it :=
    (if acc_table_up w then inr tt else inl "ResourceNotFoundException", w);
}.

(** An instance at 3.25% CPU and 500000 bytes, a busy one, one whose
    average CPU is the threshold itself, one without datapoints, and one
    that opted out. *)
Definition i_idle : instance :=
  Instance "i-idle" "t3.micro" "2025-01-01T00:00:00" "us-east-1a" (Some [("Name", "web")]).
Definition i_busy : instance :=
  Instance "i-busy" "t3.large" "2025-01-01T00:00:00" "us-east-1b" None.
Definition i_edge : instance :=
  Instance "i-edge" "t3.micro" "2025-01-01T00:00:00" "us-east-1a" (Some []).
Definition i_quiet : instance :=
  Instance "i-quiet" "t3.micro" "2025-01-01T00:00:00" "eu-west-1c" (Some [("AutoStop", "true")]).
Definition i_kept : instance :=
  Instance "i-kept" "t3.micro" "2025-01-01T00:00:00" "eu-west-1c" (Some [("AutoStop", "false")]).

(** The datapoints of [i_idle] and [i_busy], and those of [i_edge]: 10 and
    the float just below 10, whose sum rounds to 20 and whose average is
    therefore 10. *)
Definition idle_cpu : list cpu_datapoint :=
  [CpuDatapoint 3 5; CpuDatapoint 3.5 4.125].
Definition idle_network_in : list net_datapoint :=
  [NetDatapoint 200000; NetDatapoint 100000].
Definition idle_network_out : list net_datapoint := [NetDatapoint 200000].

Definition busy_cpu : list cpu_datapoint := [CpuDatapoint 80 95].
Definition busy_network_in : list net_datapoint := [NetDatapoint 5000000].

Definition edge_cpu : list cpu_datapoint :=
  [CpuDatapoint 10 10; CpuDatapoint 0x1.3ffffffffffffp+3 10].

Definition sim_monitored : monitored :=
  Monitored [i_idle; i_kept; i_busy; i_edge; i_quiet] None
    {[ "i-idle" := idle_cpu;
       "i-kept" := [CpuDatapoint 1 1];
       "i-busy" := busy_cpu;
       "i-edge" := edge_cpu;
       "i-quiet" := [] ]}
    {[ "i-idle" := idle_network_in;
       "i-busy" := busy_network_in ]}
    {[ "i-idle" := idle_network_out ]}
    true.

Definition sim_scan_sys : sys monitored := Sys sim_monitored 0 ∅ [].

(** An account whose only running instance has no CPU datapoints. *)
Definition quiet_monitored : monitored :=
  Monitored [i_quiet] None {[ "i-quiet" := [] ]} ∅ ∅ true.

Definition quiet_sys : sys monitored := Sys quiet_monitored 0 ∅ [].

(** The state of a scan of [sim_monitored] when it enters its loop. *)
Definition sim_scan : scan monitored := Scan [] [] (Sys sim_monitored 1 ∅ []).

(** *** The loop body, summarised

    What the loop body leaves behind for an instance whose three metric
    queries are answered, written as one expression. *)

(** [instance_info] as it is created at the top of the loop. *)
Definition initial_info (instance : instance) : instance_info :=
  InstanceInfo (id instance) (instance_type instance) (launch_time instance)
    (drop_last (placement_AvailabilityZone instance))
    (tags_dict (default [] (tags instance)))
    None None None None None None None None.

(** [max_cpu], as computed from the CPU datapoints (0 stands for the case
    without datapoints, in which the code does not compute it). *)
Definition window_max_cpu (cpu : list cpu_datapoint) : float :=
  match map Maximum cpu with
  | [] => 0
  | x :: l => fold_left (λ m y, if (m <? y)%float then y else m) l x
  end.

(** The value of [int(a)] when it returns (and 0 when it raises, in which
    case the code has no use for it). *)
Definition int_value (a : num) : Z :=
  match int_of a with
  | inr z => z
  | inl _ => 0%Z
  end.

(** The condition of the [if] that decides between idle and active. *)
Definition is_idle (cpu : list cpu_datapoint) (netin netout : list net_datapoint) : bool :=
  (window_avg_cpu cpu <? CPU_THRESHOLD)%float &&
  py_lt (window_total_network netin netout) (PyInt NETWORK_THRESHOLD).

(** The entry appended to [analyzed_instances], when one is. *)
Definition entry_of (timestamp : string) (instance : instance)
    (cpu : list cpu_datapoint) (netin netout : list net_datapoint) : instance_info :=
  match cpu with
  | [] => set_status (initial_info instance) "NoData" "Enable detailed monitoring"
  | _ :: _ =>
      let with_metrics :=
        set_metrics (initial_info instance)
          (round2 (window_avg_cpu cpu)) (round2 (window_max_cpu cpu))
          (int_value (py_sum (map Sum netin))) (int_value (py_sum (map Sum netout)))
          (int_value (window_total_network netin netout)) timestamp in
      if is_idle cpu netin netout
      then set_status with_metrics "Idle" "Consider stopping instance"
      else set_status with_metrics "Active" "Keep running"
  end.

(** The item passed to [put_item], when one is. *)
Definition record_of (timestamp : string) (instance : instance)
    (cpu : list cpu_datapoint) (netin netout : list net_datapoint) : item :=
  let info := entry_of timestamp instance cpu netin netout in
  Item (id instance) timestamp (instance_type instance)
       (Decimal_str (PyFloat (round2 (window_avg_cpu cpu))))
       (Decimal_str (PyFloat (round2 (window_max_cpu cpu))))
       (Decimal_str (py_sum (map Sum netin))) (Decimal_str (py_sum (map Sum netout)))
       (Decimal_str (window_total_network netin netout))
       (Status info) (Recommendation info) (Region info) (Tags info)
       (launch_time instance).

(** The three metric queries of an instance over the window ending at
    [end_time]. *)
Definition metric_queries (instance : instance) (end_time : Z) : list call :=
  let start_time := (end_time - timedelta_minutes EVALUATION_MINUTES)%Z in
  [GetMetricStatistics "CPUUtilization" (id instance) start_time end_time;
   GetMetricStatistics "NetworkIn" (id instance) start_time end_time;
   GetMetricStatistics "NetworkOut" (id instance) start_time end_time].

(** The state of the scan after the loop body, for an instance that did not
    opt out and whose queries returned [cpu], [netin] and [netout]. *)
Definition analyzed_state {W : Type} `{Provider W} `{Clock} (timestamp : string)
    (instance : instance) (f : scan W)
    (cpu : list cpu_datapoint) (netin netout : list net_datapoint) : scan W :=
  let e := env f in
  let queries := metric_queries instance (utcnow_at (ticks e)) in
  let info := entry_of timestamp instance cpu netin netout in
  let it := record_of timestamp instance cpu netin netout in
  match cpu with
  | [] =>
      Scan (idle_instances f) (analyzed_instances f ++ [info])
           (Sys (world e) (S (ticks e)) (table e) (calls e ++ queries))
  | _ :: _ =>
      if window_is_finite netin netout then
        let idle := is_idle cpu netin netout in
        let wt := if idle
                  then (instance_create_tags (world e) (id instance) (idle_tags timestamp)).2
                  else world e in
        let put := dynamodb_put_item wt it in
        Scan (if idle then idle_instances f ++ [info] else idle_instances f)
             (analyzed_instances f ++ [info])
             (Sys put.2 (S (ticks e))
                  (match put.1 with
                   | inr _ => <[id instance := it]> (table e)
                   | inl _ => table e
                   end)
                  (calls e ++ queries ++
                   (if idle then [CreateTags (id instance) (idle_tags timestamp)] else []) ++
                   [PutItem it]))
      else
        Scan (idle_instances f) (analyzed_instances f)
             (Sys (world e) (S (ticks e)) (table e) (calls e ++ queries))
  end.

(** The tagging calls of a trace, in order. *)
Definition created_tags (cs : list call) : list (string * list (string * string)) :=
  omap (λ c, match c with CreateTags i tags => Some (i, tags) | _ => None end) cs.

(** An entry has one of the three statuses. *)
Definition status_ok (info : instance_info) : Prop :=
  Status info = Some "Idle" ∨ Status info = Some "Active" ∨ Status info = Some "NoData".

(** A call that the loop body may issue for an instance in a scan stamped
    [timestamp]. *)
Definition call_ok (timestamp : string) (instance : instance) (c : call) : Prop :=
  match c with
  | GetMetricStatistics metric i start_time end_time =>
      i = id instance ∧
      (metric = "CPUUtilization" ∨ metric = "NetworkIn" ∨ metric = "NetworkOut") ∧
      (end_time - start_time)%Z = timedelta_minutes EVALUATION_MINUTES
  | CreateTags i tags => i = id instance ∧ tags = idle_tags timestamp
  | PutItem it =>
      item_InstanceId it = id instance ∧
      item_EvaluationTimestamp it = timestamp ∧
      (item_Status it = Some "Idle" ∨ item_Status it = Some "Active")
  end.

(** The exception a call raised, if it raised. *)
Definition raised {A : Type} (r : res A) : option exn :=
  match r with
  | inl e => Some e
  | inr _ => None
  end.

(** Whether each of the three metric queries of an instance raises, in the
    order in which the loop body issues them. *)
Definition query_failures {W : Type} `{Provider W} (w : W) (instance : instance)
    (end_time : Z) : list (option exn) :=
  let start_time := (end_time - timedelta_minutes EVALUATION_MINUTES)%Z in
  [raised (cloudwatch_cpu w (id instance) start_time end_time);
   raised (cloudwatch_network_in w (id instance) start_time end_time);
   raised (cloudwatch_network_out w (id instance) start_time end_time)].

(** An account in which the CPU query of the only instance is throttled. *)
Definition throttled_monitored : monitored :=
  Monitored [i_busy] None ∅ ∅ ∅ true.

Definition throttled_scan : scan monitored := Scan [] [] (Sys throttled_monitored 1 ∅ []).

(** The simulated account with a table that rejects every write. *)
Definition down_monitored : monitored :=
  Monitored (acc_running sim_monitored) None (acc_cpu sim_monitored)
            (acc_network_in sim_monitored) (acc_network_out sim_monitored) false.

Definition down_scan : scan monitored := Scan [] [] (Sys down_monitored 1 ∅ []).

Definition i_twice : instance :=
  Instance "i-twice" "t3.micro" "2025-01-01T00:00:00" "eu-west-1c"
           (Some [("AutoStop", "true"); ("Name", "db"); ("AutoStop", "false")]).

(** An account whose listing yields [i_idle] and then fails on the request
    for the next page. *)
Definition paged_monitored : monitored :=
  Monitored [i_idle] (Some "RequestLimitExceeded") (acc_cpu sim_monitored)
            (acc_network_in sim_monitored) (acc_network_out sim_monitored) true.

Definition paged_sys : sys monitored := Sys paged_monitored 0 ∅ [].

(** An account whose only instance reports an infinite [NetworkIn] sum. *)
Definition i_flood : instance :=
  Instance "i-flood" "t3.micro" "2025-01-01T00:00:00" "us-east-1a" None.

Definition flood_network_in : list net_datapoint := [NetDatapoint infinity].

Definition flood_monitored : monitored :=
  Monitored [i_flood] None {[ "i-flood" := [CpuDatapoint 1 1] ]}
            {[ "i-flood" := flood_network_in ]} ∅ true.

Definition flood_scan : scan monitored := Scan [] [] (Sys flood_monitored 1 ∅ []).

End Detect.

(** ** Properties of the cleanup Lambda *)

Module CleanupProofs.
Import Cleanup.
Local Open Scope list_scope.

(** Simplifies one step of a computation in the monad. *)
Ltac step :=
  cbn -[String.eqb String.append]; rewrite <- ?app_assoc;
  cbn -[String.eqb String.append]; try reflexivity.

Section Loops.
Context {W : Type} `{Ec2Client W}.

(** A [try] block does what [try_outcome] says. *)
Lemma try_block_outcome (k : action_kind) (dry_run : bool) (i : string) (fr : frame W) :
  try_block k dry_run i fr =
    let '(r, cs, w') := try_outcome k dry_run i (world (env fr)) in
    let c' := Cloud w' (calls (env fr) ++ cs) in
    match r with
    | inr tag => (inr tt, Frame (results fr ++ [(i, tag)]) c')
    | inl e => (inl e, Frame (results fr) c')
    end.
Proof.
  destruct fr as [rs [w cs]].
  destruct k; cbn -[String.eqb String.append];
    unfold stop_instances_try, start_instances_try, terminate_instances_try,
      delete_volumes_try, release_eips_try, delete_security_groups_try,
      instance_state, volume_state, write_outcome, bind, ec2_read, ec2_write,
      index0, append_result, ret, raise; cbn -[String.eqb String.append].
  - destruct (ec2_describe_instances w i) as [e|[|r l]]; step.
    destruct (Instances r) as [|inst l']; step.
    destruct (State_Name inst =? "stopped")%string; step.
    destruct dry_run; step.
    destruct (ec2_stop_instances w i) as [[e|[]] w']; step.
  - destruct (ec2_describe_instances w i) as [e|[|r l]]; step.
    destruct (Instances r) as [|inst l']; step.
    destruct (State_Name inst =? "running")%string; step.
    destruct dry_run; step.
    destruct (ec2_start_instances w i) as [[e|[]] w']; step.
  - destruct dry_run; step; [now rewrite app_nil_r|].
    destruct (ec2_terminate_instances w i) as [[e|[]] w']; step.
  - destruct (ec2_describe_volumes w i) as [e|[|vol l]]; step.
    destruct (State vol =? "available")%string; step.
    destruct dry_run; step.
    destruct (ec2_delete_volume w i) as [[e|[]] w']; step.
  - destruct (ec2_describe_addresses w i) as [e|[|addr0 l]]; step.
    destruct (bool_decide (is_Some (AssociationId addr0))); step.
    destruct dry_run; step.
    destruct (ec2_release_address w i) as [[e|[]] w']; step.
  - destruct (ec2_describe_security_groups w i) as [e|[|g0 l]]; step.
    destruct (GroupName g0 =? "default")%string; step.
    destruct (ec2_describe_network_interfaces w i) as [e|[|eni l']]; step.
    destruct dry_run; step.
    destruct (ec2_delete_security_group w i) as [[e|[]] w']; step.
Qed.

(** One iteration never raises and appends exactly one entry. *)
Lemma iteration_outcome (k : action_kind) (dry_run : bool) (i : string) (fr : frame W) :
  try_except (try_block k dry_run i) (λ e, append_result i ("error:" +:+ e)) fr =
    let '(r, cs, w') := try_outcome k dry_run i (world (env fr)) in
    (inr tt, Frame (results fr ++ [(i, tag_of r)]) (Cloud w' (calls (env fr) ++ cs))).
Proof.
  unfold try_except. rewrite try_block_outcome.
  destruct (try_outcome k dry_run i (world (env fr))) as [[[e|tag] cs] w']; reflexivity.
Qed.

Lemma loop_run (k : action_kind) (dry_run : bool) (ids : list string) (fr : frame W) :
  for_each ids (λ i, try_except (try_block k dry_run i)
                                (λ e, append_result i ("error:" +:+ e))) fr =
    let '(rs, cs, w') := run k dry_run ids (world (env fr)) in
    (inr tt, Frame (results fr ++ rs) (Cloud w' (calls (env fr) ++ cs))).
Proof.
  revert fr. induction ids as [|i ids IH]; intros [rs [w cs]].
  - cbn. now rewrite !app_nil_r.
  - cbn [for_each run]. unfold bind at 1. rewrite iteration_outcome. cbn [env world results calls].
    destruct (try_outcome k dry_run i w) as [[r cs1] w1].
    rewrite IH. cbn [env world results calls].
    destruct (run k dry_run ids w1) as [[rs2 cs2] w2].
    now rewrite <- !app_assoc.
Qed.

(** Each cleanup function returns the dict that [run] summarises. *)
Lemma cleanup_function_run (k : action_kind) (ids : list string) (dry_run : bool) (c : cloud W) :
  cleanup_function k ids dry_run c =
    let '(rs, cs, w') := run k dry_run ids (world c) in
    (inr (Resp (action_name k) ids rs), Cloud w' (calls c ++ cs)).
Proof.
  assert (Hloop := loop_run k dry_run ids (Frame [] c)).
  cbn [env world results calls] in Hloop.
  destruct (run k dry_run ids (world c)) as [[rs cs] w'] eqn:Hrun.
  destruct k; cbn [cleanup_function action_name];
    unfold stop_instances, start_instances, terminate_instances, delete_volumes,
      release_eips, delete_security_groups, with_resp;
    cbn [try_block] in Hloop; rewrite Hloop; reflexivity.
Qed.

Lemma run_app (k : action_kind) (dry_run : bool) (l1 l2 : list string) (w : W) :
  run k dry_run (l1 ++ l2) w =
    let '(rs1, cs1, w1) := run k dry_run l1 w in
    let '(rs2, cs2, w2) := run k dry_run l2 w1 in
    (rs1 ++ rs2, cs1 ++ cs2, w2).
Proof.
  revert w. induction l1 as [|i l1 IH]; intros w; cbn [run app].
  - destruct (run k dry_run l2 w) as [[rs2 cs2] w2]. reflexivity.
  - destruct (try_outcome k dry_run i w) as [[r cs] w'].
    rewrite IH.
    destruct (run k dry_run l1 w') as [[rs1 cs1] w1].
    destruct (run k dry_run l2 w1) as [[rs2 cs2] w2].
    now rewrite <- app_assoc.
Qed.

Lemma run_keys (k : action_kind) (dry_run : bool) (ids : list string) (w : W) :
  map fst (run k dry_run ids w).1.1 = ids.
Proof.
  revert w. induction ids as [|i ids IH]; intros w; cbn [run]; [reflexivity|].
  destruct (try_outcome k dry_run i w) as [[r cs] w'].
  specialize (IH w'). destruct (run k dry_run ids w') as [[rs cs'] w''].
  cbn in *. now rewrite IH.
Qed.

(** The [n]-th target of a request, seen from the whole request: its entry
    is the [n]-th entry, and it takes the cloud from [cloud_at n] to
    [cloud_at (S n)]. *)
Lemma cleanup_function_at (k : action_kind) (ids : list string) (dry_run : bool)
    (c : cloud W) (n : nat) (i : string) :
  ids !! n = Some i →
  ∃ rs c',
    cleanup_function k ids dry_run c = (inr (Resp (action_name k) ids rs), c') ∧
    map fst rs = ids ∧
    let cn := cloud_at k ids dry_run c n in
    let '(r, cs, w') := try_outcome k dry_run i (world cn) in
    rs !! n = Some (i, tag_of r) ∧
    cloud_at k ids dry_run c (S n) = Cloud w' (calls cn ++ cs).
Proof.
  intros Hn.
  assert (Hsplit : ids = take n ids ++ i :: drop (S n) ids)
    by (symmetry; now apply take_drop_middle).
  assert (Hlen : length (take n ids) = n).
  { apply length_take_le. apply lookup_lt_Some in Hn. lia. }
  assert (HS : take (S n) ids = take n ids ++ [i]) by (now apply take_S_r).
  assert (Hrun : run k dry_run ids (world c) =
            let '(rs1, cs1, w1) := run k dry_run (take n ids) (world c) in
            let '(r, cs, w') := try_outcome k dry_run i w1 in
            let '(rs2, cs2, w2) := run k dry_run (drop (S n) ids) w' in
            (rs1 ++ (i, tag_of r) :: rs2, cs1 ++ cs ++ cs2, w2)).
  { rewrite Hsplit at 1. rewrite run_app. cbn [run].
    destruct (run k dry_run (take n ids) (world c)) as [[rs1 cs1] w1].
    destruct (try_outcome k dry_run i w1) as [[r cs] w'].
    now destruct (run k dry_run (drop (S n) ids) w') as [[rs2 cs2] w2]. }
  assert (Hkeys := run_keys k dry_run ids (world c)).
  assert (Hk1 := run_keys k dry_run (take n ids) (world c)).
  unfold cloud_at. rewrite HS, !cleanup_function_run, run_app. cbn [run].
  rewrite Hrun in *.
  destruct (run k dry_run (take n ids) (world c)) as [[rs1 cs1] w1].
  cbn [snd fst world calls] in *.
  destruct (try_outcome k dry_run i w1) as [[r cs] w'].
  destruct (run k dry_run (drop (S n) ids) w') as [[rs2 cs2] w2].
  cbn [snd fst world calls] in *.
  eexists _, _. split; [reflexivity|].
  split; [exact Hkeys|].
  split.
  - assert (Hl1 : length rs1 = n)
      by (rewrite <- Hlen, <- Hk1; now rewrite length_map).
    rewrite lookup_app_r by lia. rewrite Hl1, Nat.sub_diag. reflexivity.
  - now rewrite app_nil_r, app_assoc.
Qed.

(** In a dry run a [try] block leaves the account as it is, issues only
    [describe_*] calls, and ends with [dry_run_ok], a refusal or an error. *)
Lemma try_outcome_dry (k : action_kind) (i : string) (w : W) :
  ∃ r cs, try_outcome k true i w = (r, cs, w) ∧
          Forall (λ c, mutating c = false) cs ∧
          (tag_of r = "dry_run_ok" ∨ refusal_tag k (tag_of r) ∨ error_tag (tag_of r)).
Proof.
  unfold error_tag.
  destruct k; cbn -[String.eqb String.append]; unfold instance_state, volume_state.
  - destruct (ec2_describe_instances w i) as [e|[|r l]];
      [| |destruct (Instances r) as [|inst l'];
          [|destruct (String.eqb_spec (State_Name inst) "stopped")]];
      eexists _, _; (split; [reflexivity|]); (split; [repeat constructor|]);
      cbn -[String.append]; eauto.
  - destruct (ec2_describe_instances w i) as [e|[|r l]];
      [| |destruct (Instances r) as [|inst l'];
          [|destruct (String.eqb_spec (State_Name inst) "running")]];
      eexists _, _; (split; [reflexivity|]); (split; [repeat constructor|]);
      cbn -[String.append]; eauto.
  - eexists _, _; (split; [reflexivity|]); (split; [repeat constructor|]); eauto.
  - destruct (ec2_describe_volumes w i) as [e|[|vol l]];
      [| |destruct (String.eqb_spec (State vol) "available")];
      eexists _, _; (split; [reflexivity|]); (split; [repeat constructor|]);
      cbn -[String.append]; eauto 6.
  - destruct (ec2_describe_addresses w i) as [e|[|addr0 l]];
      [| |destruct (bool_decide (is_Some (AssociationId addr0)))];
      eexists _, _; (split; [reflexivity|]); (split; [repeat constructor|]);
      cbn -[String.append]; eauto.
  - destruct (ec2_describe_security_groups w i) as [e|[|g0 l]];
      [| |destruct (String.eqb_spec (GroupName g0) "default");
          [|destruct (ec2_describe_network_interfaces w i) as [e|[|eni l']]]];
      eexists _, _; (split; [reflexivity|]); (split; [repeat constructor|]);
      cbn -[String.append]; eauto 6.
Qed.

Lemma run_dry (k : action_kind) (ids : list string) (w : W) :
  ∃ rs cs, run k true ids w = (rs, cs, w) ∧
           map fst rs = ids ∧
           Forall (λ c, mutating c = false) cs ∧
           Forall (λ it, it.2 = "dry_run_ok" ∨ refusal_tag k it.2 ∨ error_tag it.2) rs.
Proof.
  induction ids as [|i ids (rs & cs & Hrun & Hkeys & Hcs & Hrs)]; cbn [run].
  - eexists [], []. repeat split; constructor.
  - destruct (try_outcome_dry k i w) as (r & cs1 & -> & Hcs1 & Hr).
    rewrite Hrun. eexists _, _. split; [reflexivity|]. cbn [map fst]. rewrite Hkeys.
    split; [reflexivity|]. split; [now apply Forall_app|]. now constructor.
Qed.

(** In a dry run a target gets [dry_run_ok] exactly when it passes the state
    check of the action. *)
Lemma try_outcome_dry_passes (k : action_kind) (i : string) (w : W) :
  passes_validation k w i ↔ tag_of (try_outcome k true i w).1.1 = "dry_run_ok".
Proof.
  destruct k; cbn -[String.eqb String.append].
  - destruct (instance_state w i) as [e|state];
      [|destruct (String.eqb_spec state "stopped") as [->|Hne]];
      cbn -[String.append]; split; try discriminate;
      try (intros (state' & Heq & Hne'); simplify_eq; done);
      try (intros _; eauto; fail).
  - destruct (instance_state w i) as [e|state];
      [|destruct (String.eqb_spec state "running") as [->|Hne]];
      cbn -[String.append]; split; try discriminate;
      try (intros (state' & Heq & Hne'); simplify_eq; done);
      try (intros _; eauto; fail).
  - split; auto.
  - destruct (volume_state w i) as [e|state];
      [|destruct (String.eqb_spec state "available") as [->|Hne]];
      cbn -[String.append]; split; try discriminate; try congruence; auto.
  - destruct (ec2_describe_addresses w i) as [e|[|addr0 l]];
      [| |destruct (AssociationId addr0) as [assoc|] eqn:Hassoc];
      cbn -[String.append]; split; try discriminate;
      try (intros (a & l0 & Heq & Hnone); simplify_eq; done);
      try (intros _; eauto; fail).
  - destruct (ec2_describe_security_groups w i) as [e|[|g0 l]];
      [| |destruct (String.eqb_spec (GroupName g0) "default") as [Hdef|Hdef];
          [|destruct (ec2_describe_network_interfaces w i) as [e|[|eni l']]]];
      cbn -[String.append]; split; try discriminate;
      try (intros (g & l0 & Hg & Hname & Hif); simplify_eq; done);
      try (intros _; eauto 10; fail).
Qed.

Lemma run_dry_passes (k : action_kind) (ids : list string) (w : W) :
  ∃ rs cs, run k true ids w = (rs, cs, w) ∧
           map fst rs = ids ∧
           Forall (λ c, mutating c = false) cs ∧
           Forall (λ it, (it.2 = "dry_run_ok" ∨ refusal_tag k it.2 ∨ error_tag it.2) ∧
                         (passes_validation k w it.1 ↔ it.2 = "dry_run_ok")) rs.
Proof.
  induction ids as [|i ids (rs & cs & Hrun & Hkeys & Hcs & Hrs)]; cbn [run].
  - eexists [], []. repeat split; constructor.
  - assert (Hpass := try_outcome_dry_passes k i w).
    destruct (try_outcome_dry k i w) as (r & cs1 & Hout & Hcs1 & Hr).
    rewrite Hout in Hpass |- *. cbn [fst] in Hpass.
    rewrite Hrun. eexists _, _. split; [reflexivity|]. cbn [map fst]. rewrite Hkeys.
    split; [reflexivity|]. split; [now apply Forall_app|]. now constructor.
Qed.

(** The result of a [try] block run on its own, from [try_outcome]. *)
Lemma try_block_alone (k : action_kind) (dry_run : bool) (i : string) (c : cloud W) :
  let '(r, cs, w') := try_outcome k dry_run i (world c) in
  (try_block k dry_run i (Frame [] c)).1 = match r with inr _ => inr tt | inl e => inl e end ∧
  results (try_block k dry_run i (Frame [] c)).2 =
    match r with inr tag => [(i, tag)] | inl _ => [] end.
Proof.
  rewrite try_block_outcome. cbn [env results].
  destruct (try_outcome k dry_run i (world c)) as [[[e|tag] cs] w']; split; reflexivity.
Qed.

(** C3.  When the [try] block of the [n]-th target of a request raises [e]
    (in the cloud the request has reached by then), the cleanup function
    still returns normally; its result has one entry per target, in the
    order of the request; the [n]-th entry is [error:e]; and every target,
    before or after the failing one, has the entry that its own [try] block
    produces: the tag it appends, or [error:] and the message it raises. *)
Theorem failing_target_does_not_stop_the_batch (k : action_kind) (ids : list string)
    (dry_run : bool) (c : cloud W) (n : nat) (i : string) (e : exn) :
  ids !! n = Some i →
  (try_block k dry_run i (Frame [] (cloud_at k ids dry_run c n))).1 = inl e →
  ∃ rs c',
    cleanup_function k ids dry_run c = (inr (Resp (action_name k) ids rs), c') ∧
    map fst rs = ids ∧
    rs !! n = Some (i, "error:" +:+ e) ∧
    ∀ m j, ids !! m = Some j →
      ∃ tag, rs !! m = Some (j, tag) ∧
        let '(r, f) := try_block k dry_run j (Frame [] (cloud_at k ids dry_run c m)) in
        match r with
        | inr _ => results f = [(j, tag)]
        | inl e' => tag = "error:" +:+ e'
        end.
Proof.
  intros Hn Hfail.
  assert (Hall : ∀ m j, ids !! m = Some j →
    ∃ rs c', cleanup_function k ids dry_run c = (inr (Resp (action_name k) ids rs), c') ∧
      map fst rs = ids ∧
      ∃ tag, rs !! m = Some (j, tag) ∧
        let '(r, f) := try_block k dry_run j (Frame [] (cloud_at k ids dry_run c m)) in
        match r with
        | inr _ => results f = [(j, tag)]
        | inl e' => tag = "error:" +:+ e'
        end).
  { intros m j Hm.
    destruct (cleanup_function_at k ids dry_run c m j Hm) as (rs & c' & Hf & Hkeys & Hat).
    cbn zeta in Hat.
    assert (Halone := try_block_alone k dry_run j (cloud_at k ids dry_run c m)).
    destruct (try_outcome k dry_run j (world (cloud_at k ids dry_run c m)))
      as [[r cs] w'].
    destruct Hat as [Hat _]. destruct Halone as [Hr Hres].
    exists rs, c'. repeat split; try assumption.
    exists (tag_of r). split; [assumption|].
    destruct (try_block k dry_run j (Frame [] (cloud_at k ids dry_run c m))) as [r' f].
    cbn [fst snd] in Hr, Hres. subst r'. destruct r as [e'|tag]; [reflexivity|exact Hres]. }
  destruct (Hall n i Hn) as (rs & c' & Hf & Hkeys & tag & Htag & Hblock).
  exists rs, c'. repeat split; try assumption.
  - destruct (try_block k dry_run i (Frame [] (cloud_at k ids dry_run c n))) as [r f].
    cbn [fst] in Hfail. subst r. now subst tag.
  - intros m j Hm. destruct (Hall m j Hm) as (rs' & c'' & Hf' & _ & Hm').
    rewrite Hf in Hf'. now injection Hf' as <- <-.
Qed.

(** C6.  For [stop_instances] (and for [start_instances]): when the [n]-th
    target of a request is found in the state [stopped] ([running]), its
    entry is [already stopped] ([already running]); handling it issues one
    [describe_instances] call and nothing else, and leaves the account as it
    was; and a request for that target repeated right after gets the same
    entry, again with one [describe_instances] call and no mutating one. *)
Theorem satisfied_target_is_a_no_op (k : action_kind) (ids : list string)
    (dry_run dry_run' : bool) (c : cloud W) (n : nat) (i : string) :
  k = Stop ∨ k = Start →
  ids !! n = Some i →
  let cn := cloud_at k ids dry_run c n in
  let state := match k with Stop => "stopped" | _ => "running" end in
  let tag := match k with Stop => "already stopped" | _ => "already running" end in
  instance_state (world cn) i = inr state →
  ∃ rs c',
    cleanup_function k ids dry_run c = (inr (Resp (action_name k) ids rs), c') ∧
    rs !! n = Some (i, tag) ∧
    cloud_at k ids dry_run c (S n) = Cloud (world cn) (calls cn ++ [DescribeInstances i]) ∧
    cleanup_function k [i] dry_run' (cloud_at k ids dry_run c (S n)) =
      (inr (Resp (action_name k) [i] [(i, tag)]),
       Cloud (world cn) (calls cn ++ [DescribeInstances i; DescribeInstances i])).
Proof.
  intros Hk Hn cn state tag Hstate.
  destruct (cleanup_function_at k ids dry_run c n i Hn) as (rs & c' & Hf & Hkeys & Hat).
  fold cn in Hat. cbn zeta in Hat.
  assert (Hout : ∀ d, try_outcome k d i (world cn) =
                      (inr tag, [DescribeInstances i], world cn)).
  { intros d. destruct Hk as [-> | ->]; cbn -[String.eqb]; subst state tag;
      now rewrite Hstate. }
  rewrite Hout in Hat. destruct Hat as [Htag Hnext].
  exists rs, c'. repeat split; try assumption.
  rewrite Hnext, cleanup_function_run. cbn [run world calls].
  rewrite Hout. cbn [tag_of]. now rewrite <- app_assoc.
Qed.

(** C5.  For the [n]-th target [g] of a [delete_security_groups] request, in
    the cloud the request has reached by then:
    - if the first group that [describe_security_groups] returns is named
      [default], the entry is [default_group_skip], whatever
      [describe_network_interfaces] would say;
    - if it has another name and a network interface refers to the group,
      the entry is [in_use];
    - if no group is returned, the entry is [not_found];
    and in these three cases no mutating call is issued and the account is
    unchanged.  The group goes on to the dry-run check (entry [dry_run_ok])
    or to the deletion (entry [deleted], or a [delete_security_group] call)
    only if it was found, is not named [default] and has no interface. *)
Theorem security_group_checks (ids : list string) (dry_run : bool) (c : cloud W)
    (n : nat) (g : string) :
  ids !! n = Some g →
  let cn := cloud_at DeleteSecurityGroups ids dry_run c n in
  let w := world cn in
  ∃ rs c' tag cs w',
    delete_security_groups ids dry_run c =
      (inr (Resp "delete_security_groups" ids rs), c') ∧
    rs !! n = Some (g, tag) ∧
    cloud_at DeleteSecurityGroups ids dry_run c (S n) = Cloud w' (calls cn ++ cs) ∧
    (∀ g0 l, ec2_describe_security_groups w g = inr (g0 :: l) →
             GroupName g0 = "default" →
             tag = "default_group_skip" ∧ w' = w ∧ Forall (λ c, mutating c = false) cs) ∧
    (∀ g0 l eni l', ec2_describe_security_groups w g = inr (g0 :: l) →
             GroupName g0 ≠ "default" →
             ec2_describe_network_interfaces w g = inr (eni :: l') →
             tag = "in_use" ∧ w' = w ∧ Forall (λ c, mutating c = false) cs) ∧
    (ec2_describe_security_groups w g = inr [] →
             tag = "not_found" ∧ w' = w ∧ Forall (λ c, mutating c = false) cs) ∧
    (tag = "dry_run_ok" ∨ tag = "deleted" ∨ DeleteSecurityGroup g ∈ cs →
       ∃ g0 l, ec2_describe_security_groups w g = inr (g0 :: l) ∧
               GroupName g0 ≠ "default" ∧
               ec2_describe_network_interfaces w g = inr []).
Proof.
  intros Hn cn w.
  destruct (cleanup_function_at DeleteSecurityGroups ids dry_run c n g Hn)
    as (rs & c' & Hf & Hkeys & Hat).
  fold cn in Hat. cbn zeta in Hat. fold w in Hat.
  destruct (try_outcome DeleteSecurityGroups dry_run g w) as [[r cs] w'] eqn:Hout.
  destruct Hat as [Htag Hnext].
  exists rs, c', (tag_of r), cs, w'.
  split; [exact Hf|]. split; [exact Htag|]. split; [exact Hnext|].
  cbn -[String.eqb String.append] in Hout. unfold write_outcome in Hout.
  assert (Hno : ∀ cs0 : list call,
            Forall (λ c, mutating c = false) cs0 → DeleteSecurityGroup g ∈ cs0 → False).
  { intros cs0 Hall Hin. rewrite Forall_forall in Hall.
    apply Hall in Hin. discriminate Hin. }
  destruct (ec2_describe_security_groups w g) as [e|[|g0 l]];
    [| |destruct (String.eqb_spec (GroupName g0) "default") as [Hd|Hd];
        [|destruct (ec2_describe_network_interfaces w g) as [e|[|eni l']];
          [|destruct dry_run;
             [|destruct (ec2_delete_security_group w g) as [[e|[]] w'']]|]]];
    injection Hout as <- <- <-;
    (split; [|split; [|split]]);
    try (intros; simplify_eq; done);
    try (intros; repeat split; repeat constructor; done);
    try (intros _; eauto; done);
    try (intros [Ht|[Ht|Hc]]; [cbn in Ht; discriminate Ht|cbn in Ht; discriminate Ht|];
         exfalso; eapply Hno; [|exact Hc]; repeat constructor).
Qed.

(** C10.  In each cleanup function the state check of a target comes before
    the dry-run check.  For the [n]-th target of a request, whatever the
    dry-run flag: a stopped instance (for a stop) gets [already stopped], a
    running one (for a start) [already running], a volume in a state other
    than [available] gets [not_available_state:] and the state, an address
    that is not returned gets [not_found] and one with an association
    [associated], a group that is not returned gets [not_found], one named
    [default] gets [default_group_skip], and another one with an interface
    gets [in_use].  The entry is [dry_run_ok] only when the flag is set and
    the target passes the state check. *)
Theorem validation_precedes_dry_run (k : action_kind) (ids : list string)
    (dry_run : bool) (c : cloud W) (n : nat) (i : string) :
  ids !! n = Some i →
  let w := world (cloud_at k ids dry_run c n) in
  ∃ rs c' tag,
    cleanup_function k ids dry_run c = (inr (Resp (action_name k) ids rs), c') ∧
    rs !! n = Some (i, tag) ∧
    (k = Stop → instance_state w i = inr "stopped" → tag = "already stopped") ∧
    (k = Start → instance_state w i = inr "running" → tag = "already running") ∧
    (k = DeleteVolumes → ∀ state, volume_state w i = inr state → state ≠ "available" →
       tag = "not_available_state:" +:+ state) ∧
    (k = ReleaseEips → ec2_describe_addresses w i = inr [] → tag = "not_found") ∧
    (k = ReleaseEips → ∀ addr0 l, ec2_describe_addresses w i = inr (addr0 :: l) →
       is_Some (AssociationId addr0) → tag = "associated") ∧
    (k = DeleteSecurityGroups → ec2_describe_security_groups w i = inr [] →
       tag = "not_found") ∧
    (k = DeleteSecurityGroups → ∀ g0 l, ec2_describe_security_groups w i = inr (g0 :: l) →
       GroupName g0 = "default" → tag = "default_group_skip") ∧
    (k = DeleteSecurityGroups → ∀ g0 l eni l',
       ec2_describe_security_groups w i = inr (g0 :: l) → GroupName g0 ≠ "default" →
       ec2_describe_network_interfaces w i = inr (eni :: l') → tag = "in_use") ∧
    (tag = "dry_run_ok" → dry_run = true ∧ passes_validation k w i).
Proof.
  intros Hn w.
  destruct (cleanup_function_at k ids dry_run c n i Hn) as (rs & c' & Hf & Hkeys & Hat).
  cbn zeta in Hat. fold w in Hat.
  destruct (try_outcome k dry_run i w) as [[r cs] w'] eqn:Hout.
  destruct Hat as [Htag _].
  exists rs, c', (tag_of r).
  split; [exact Hf|]. split; [exact Htag|]. clear Hf Htag Hkeys.
  destruct k; cbn -[String.eqb String.append] in Hout; unfold write_outcome in Hout.
  - destruct (instance_state w i) as [e|state] eqn:Hst;
      [|destruct (String.eqb_spec state "stopped") as [->|Hne];
        [|destruct dry_run; [|destruct (ec2_stop_instances w i) as [[e|[]] w'']]]];
      injection Hout as <- <- <-; repeat split; try discriminate; try congruence; try (intros; simplify_eq; done);
      cbn [passes_validation]; eauto 8.
  - destruct (instance_state w i) as [e|state] eqn:Hst;
      [|destruct (String.eqb_spec state "running") as [->|Hne];
        [|destruct dry_run; [|destruct (ec2_start_instances w i) as [[e|[]] w'']]]];
      injection Hout as <- <- <-; repeat split; try discriminate; try congruence; try (intros; simplify_eq; done);
      cbn [passes_validation]; eauto 8.
  - destruct dry_run; [|destruct (ec2_terminate_instances w i) as [[e|[]] w'']];
      injection Hout as <- <- <-; repeat split; try discriminate.
  - destruct (volume_state w i) as [e|state] eqn:Hst;
      [|destruct (String.eqb_spec state "available") as [->|Hne];
        [destruct dry_run; [|destruct (ec2_delete_volume w i) as [[e|[]] w'']]|]];
      injection Hout as <- <- <-; repeat split; try discriminate; try congruence;
      try (intros; simplify_eq; done);
      cbn [passes_validation]; eauto 8.
  - destruct (ec2_describe_addresses w i) as [e|[|addr0 l]] eqn:Hd;
      [| |destruct (AssociationId addr0) as [assoc|] eqn:Hassoc; cbn in Hout;
          [|destruct dry_run; [|destruct (ec2_release_address w i) as [[e|[]] w'']]]];
      injection Hout as <- <- <-; repeat split; try discriminate; try congruence;
      try (intros _ a l' [= <- <-] [x Hx]; congruence); try (intros; simplify_eq; done);
      cbn [passes_validation]; eauto 8.
  - destruct (ec2_describe_security_groups w i) as [e|[|g0 l]] eqn:Hd;
      [| |destruct (String.eqb_spec (GroupName g0) "default") as [Hdef|Hdef];
          [|destruct (ec2_describe_network_interfaces w i) as [e|[|eni l']] eqn:He;
            [|destruct dry_run;
               [|destruct (ec2_delete_security_group w i) as [[e|[]] w'']]|]]];
      injection Hout as <- <- <-; repeat split; try discriminate; try congruence;
      try (intros; simplify_eq; done); try (intros; simplify_eq; done);
      cbn [passes_validation]; eauto 8.
Qed.

End Loops.

Section HandlerFacts.
Context {W D : Type} `{Ec2Client W} `{LogTable D} `{Clock}.

Lemma log_action_total (item : log_item) (s : sys W D) :
  log_action item s = (inr tt, Sys (ec2 s) (ticks s) (table_put_item (logdb s) item).2).
Proof.
  unfold log_action, try_except, ret.
  destruct (table_put_item (logdb s) item) as [[e|[]] d]; reflexivity.
Qed.

(** The handler, in closed form: it always returns a response with status
    200, and what the response carries is decided before the log is
    written. *)
Lemma lambda_handler_eq (event : event) (s : sys W D) :
  let action := ev_action event in
  let dry_run := default true (ev_dry_run event) in
  let result0 := MkResult action (isoformat (utcnow_at (ticks s))) dry_run None None in
  let '(result, c') :=
    match kind_of_action action with
    | Some k =>
        let '(rs, cs, w') := run k dry_run (target_ids k event) (world (ec2 s)) in
        (set_details result0 (Resp (action_name k) (target_ids k event) rs),
         Cloud w' (calls (ec2 s) ++ cs))
    | None => (set_error result0 ("Unknown action: " +:+ py_str action), ec2 s)
    end in
  let item := LogItem (py_str action +:+ "-" +:+ isoformat (utcnow_at (S (ticks s))))
                      action (isoformat (utcnow_at (S (S (ticks s))))) dry_run result in
  lambda_handler event s =
    (inr (Response 200 result),
     Sys c' (S (S (S (ticks s)))) (table_put_item (logdb s) item).2).
Proof.
  destruct s as [c n d]. cbn zeta. unfold kind_of_action, lambda_handler.
  set (dry_run := default true (ev_dry_run event)).
  set (action := ev_action event).
  assert (Hf : ∀ k, on_ec2 (cleanup_function k (target_ids k event) dry_run)
                      (Sys c (S n) d) =
                    let '(rs, cs, w') := run k dry_run (target_ids k event) (world c) in
                    (inr (Resp (action_name k) (target_ids k event) rs),
                     Sys (Cloud w' (calls c ++ cs)) (S n) d)).
  { intros k. unfold on_ec2. cbn [ec2 ticks logdb]. rewrite cleanup_function_run.
    now destruct (run k dry_run (target_ids k event) (world c)) as [[rs cs] w']. }
  assert (Hlog : ∀ (result : result) (c' : cloud W),
    bind (try_except
            (bind utcnow (λ t1, bind utcnow (λ t2,
               log_action (LogItem (py_str action +:+ "-" +:+ isoformat t1) action
                                   (isoformat t2) dry_run result))))
            (λ _, ret tt))
         (λ _, ret (Response 200 result)) (Sys c' (S n) d) =
    (inr (Response 200 result),
     Sys c' (S (S (S n)))
       (table_put_item d
          (LogItem (py_str action +:+ "-" +:+ isoformat (utcnow_at (S n))) action
                   (isoformat (utcnow_at (S (S n)))) dry_run result)).2)).
  { intros result c'. unfold bind at 1. unfold try_except, bind, utcnow.
    cbn [ec2 ticks logdb]. rewrite log_action_total. reflexivity. }
  unfold bind at 1. unfold utcnow at 1. cbn [ec2 ticks logdb].
  unfold bind at 1. unfold try_except at 1.
  destruct (py_eq action "stop_instances");
    [|destruct (py_eq action "start_instances");
      [|destruct (py_eq action "terminate_instances");
        [|destruct (py_eq action "delete_volumes");
          [|destruct (py_eq action "release_eips");
            [|destruct (py_eq action "delete_security_groups")]]]]].
  1: specialize (Hf Stop). 2: specialize (Hf Start). 3: specialize (Hf Terminate).
  4: specialize (Hf DeleteVolumes). 5: specialize (Hf ReleaseEips).
  6: specialize (Hf DeleteSecurityGroups).
  1-6: cbn [cleanup_function target_ids action_name] in Hf |- *;
    unfold bind at 1; rewrite Hf;
    match goal with |- context [run ?k ?d ?l ?w] => destruct (run k d l w) as [[rs cs] w'] end;
    unfold ret at 1; apply Hlog.
  unfold ret at 1. apply Hlog.
Qed.

Lemma kind_of_action_name (k : action_kind) : kind_of_action (Some (action_name k)) = Some k.
Proof. destruct k; reflexivity. Qed.

Lemma kind_of_action_unknown (action : option string) :
  (∀ k, action ≠ Some (action_name k)) → kind_of_action action = None.
Proof.
  intros Hne. destruct action as [a|]; [|reflexivity].
  unfold kind_of_action, py_eq.
  repeat match goal with
         | |- context [String.eqb a ?s] => destruct (String.eqb_spec a s) as [->|_]
         end; try reflexivity.
  - now destruct (Hne Stop).
  - now destruct (Hne Start).
  - now destruct (Hne Terminate).
  - now destruct (Hne DeleteVolumes).
  - now destruct (Hne ReleaseEips).
  - now destruct (Hne DeleteSecurityGroups).
Qed.

(** C2.  A request whose dry-run flag is true (given as [true], or left out)
    gets a response with status 200; the account is unchanged and every call
    the request issued is a non-mutating one; and when the action is one of
    the six, there is one entry per target, in order.  A target that passes
    the state check of the action (its reads return, and none of the guards
    before [if dry_run] refuses it) is tagged [dry_run_ok], and only such a
    target is; every other entry carries a refusal of the state check or an
    error. *)
Theorem dry_run_issues_no_mutation (event : event) (s : sys W D) :
  default true (ev_dry_run event) = true →
  ∃ result s' cs,
    lambda_handler event s = (inr (Response 200 result), s') ∧
    world (ec2 s') = world (ec2 s) ∧
    calls (ec2 s') = calls (ec2 s) ++ cs ∧
    Forall (λ c, mutating c = false) cs ∧
    ∀ k, kind_of_action (ev_action event) = Some k →
      ∃ rs, r_details result = Some (Resp (action_name k) (target_ids k event) rs) ∧
            map fst rs = target_ids k event ∧
            Forall (λ it,
                      (it.2 = "dry_run_ok" ∨ refusal_tag k it.2 ∨ error_tag it.2) ∧
                      (passes_validation k (world (ec2 s)) it.1 ↔ it.2 = "dry_run_ok"))
                   rs.
Proof.
  intros Hdry. assert (Heq := lambda_handler_eq event s). cbn zeta in Heq.
  rewrite Hdry in Heq.
  destruct (kind_of_action (ev_action event)) as [k|].
  - destruct (run_dry_passes k (target_ids k event) (world (ec2 s)))
      as (rs & cs & Hrun & Hkeys & Hcs & Hrs).
    rewrite Hrun in Heq. eexists _, _, cs. split; [exact Heq|].
    cbn [ec2 world calls]. repeat split; try assumption.
    intros k' [= <-]. exists rs. cbn. auto.
  - eexists _, _, []. split; [exact Heq|]. cbn [ec2].
    rewrite app_nil_r. repeat split; [constructor|]. intros k [=].
Qed.

(** C7.  When the action of a request is none of the six known ones, the
    handler returns normally, with status 200 and a result whose [error]
    field names the unknown action; no cleanup function runs, so the result
    has no [details] and the cloud is untouched. *)
Theorem unknown_action_is_reported (event : event) (s : sys W D) :
  (∀ k, ev_action event ≠ Some (action_name k)) →
  ∃ result s',
    lambda_handler event s = (inr (Response 200 result), s') ∧
    r_error result = Some ("Unknown action: " +:+ py_str (ev_action event)) ∧
    r_details result = None ∧
    r_action result = ev_action event ∧
    ec2 s' = ec2 s.
Proof.
  intros Hne. assert (Heq := lambda_handler_eq event s). cbn zeta in Heq.
  rewrite (kind_of_action_unknown _ Hne) in Heq.
  eexists _, _. split; [exact Heq|]. repeat split.
Qed.

End HandlerFacts.

(** C9.  The response of the handler and the cloud it leaves behind do not
    depend on the log table: with any two tables, in any two states, whether
    their [put_item] raises or not, the handler returns the same response,
    normally, after the same calls on the same account. *)
Theorem audit_failure_is_swallowed {W D1 D2 : Type} `{Ec2Client W} `{Clock}
    (L1 : LogTable D1) (L2 : LogTable D2)
    (event : event) (c : cloud W) (n : nat) (d1 : D1) (d2 : D2) :
  ∃ response s1 s2,
    lambda_handler (H0 := L1) event (Sys c n d1) = (inr response, s1) ∧
    lambda_handler (H0 := L2) event (Sys c n d2) = (inr response, s2) ∧
    ec2 s1 = ec2 s2.
Proof.
  assert (Heq1 := lambda_handler_eq (H0 := L1) event (Sys c n d1)).
  assert (Heq2 := lambda_handler_eq (H0 := L2) event (Sys c n d2)).
  cbn zeta in Heq1, Heq2. cbn [ec2 ticks logdb] in Heq1, Heq2.
  destruct (kind_of_action (ev_action event)) as [k|].
  - destruct (run k (default true (ev_dry_run event)) (target_ids k event) (world c))
      as [[rs cs] w'].
    eexists _, _, _. split; [exact Heq1|]. split; [exact Heq2|]. reflexivity.
  - eexists _, _, _. split; [exact Heq1|]. split; [exact Heq2|]. reflexivity.
Qed.

(** *** The theorems on the simulated account *)

Example dry_stop_request_response :
  (lambda_handler dry_stop_request sim_sys).1 =
    inr (Response 200
           (MkResult (Some "stop_instances") "1970-01-01T00:00:0" true
              (Some (Resp "stop_instances" ["i-run"; "i-stop"; "i-gone"]
                       [("i-run", "dry_run_ok"); ("i-stop", "already stopped");
                        ("i-gone", "error:InvalidInstanceID.NotFound")]))
              None)).
Proof. vm_compute. reflexivity. Qed.

Lemma dry_run_issues_no_mutation_witness :
  default true (ev_dry_run dry_stop_request) = true ∧
  ∃ result s' cs,
    lambda_handler dry_stop_request sim_sys = (inr (Response 200 result), s') ∧
    world (ec2 s') = world (ec2 sim_sys) ∧
    calls (ec2 s') = calls (ec2 sim_sys) ++ cs ∧
    Forall (λ c, mutating c = false) cs ∧
    ∀ k, kind_of_action (ev_action dry_stop_request) = Some k →
      ∃ rs, r_details result =
              Some (Resp (action_name k) (target_ids k dry_stop_request) rs) ∧
            map fst rs = target_ids k dry_stop_request ∧
            Forall (λ it,
                      (it.2 = "dry_run_ok" ∨ refusal_tag k it.2 ∨ error_tag it.2) ∧
                      (passes_validation k (world (ec2 sim_sys)) it.1 ↔
                       it.2 = "dry_run_ok"))
                   rs.
Proof.
  split; [reflexivity|].
  apply (dry_run_issues_no_mutation dry_stop_request sim_sys). reflexivity.
Defined.

Lemma failing_target_does_not_stop_the_batch_witness :
  stop_batch !! 1%nat = Some "i-gone" ∧
  (try_block Stop false "i-gone" (Frame [] (cloud_at Stop stop_batch false sim_cloud 1))).1 =
    inl "InvalidInstanceID.NotFound" ∧
  ∃ rs c',
    stop_instances stop_batch false sim_cloud = (inr (Resp "stop_instances" stop_batch rs), c') ∧
    map fst rs = stop_batch ∧
    rs !! 1%nat = Some ("i-gone", "error:InvalidInstanceID.NotFound").
Proof.
  assert (H1 : stop_batch !! 1%nat = Some "i-gone") by reflexivity.
  assert (H2 : (try_block Stop false "i-gone"
                  (Frame [] (cloud_at Stop stop_batch false sim_cloud 1))).1 =
               inl "InvalidInstanceID.NotFound") by (vm_compute; reflexivity).
  split; [exact H1|]. split; [exact H2|].
  destruct (failing_target_does_not_stop_the_batch Stop stop_batch false sim_cloud 1
              "i-gone" "InvalidInstanceID.NotFound" H1 H2)
    as (rs & c' & Hf & Hkeys & Hn & _).
  exists rs, c'. auto.
Defined.

Lemma satisfied_target_is_a_no_op_witness :
  (Stop = Stop ∨ Stop = Start) ∧
  stop_pair !! 1%nat = Some "i-stop" ∧
  instance_state (world (cloud_at Stop stop_pair false sim_cloud 1)) "i-stop" =
    inr "stopped" ∧
  ∃ rs c',
    stop_instances stop_pair false sim_cloud =
      (inr (Resp "stop_instances" stop_pair rs), c') ∧
    rs !! 1%nat = Some ("i-stop", "already stopped") ∧
    cloud_at Stop stop_pair false sim_cloud 2 =
      Cloud (world (cloud_at Stop stop_pair false sim_cloud 1))
            (calls (cloud_at Stop stop_pair false sim_cloud 1) ++
             [DescribeInstances "i-stop"]) ∧
    stop_instances ["i-stop"] false (cloud_at Stop stop_pair false sim_cloud 2) =
      (inr (Resp "stop_instances" ["i-stop"] [("i-stop", "already stopped")]),
       Cloud (world (cloud_at Stop stop_pair false sim_cloud 1))
             (calls (cloud_at Stop stop_pair false sim_cloud 1) ++
              [DescribeInstances "i-stop"; DescribeInstances "i-stop"])).
Proof.
  assert (H1 : stop_pair !! 1%nat = Some "i-stop") by reflexivity.
  assert (H2 : instance_state (world (cloud_at Stop stop_pair false sim_cloud 1))
                 "i-stop" = inr "stopped")
    by (vm_compute; reflexivity).
  split; [now left|]. split; [exact H1|]. split; [exact H2|].
  exact (satisfied_target_is_a_no_op Stop stop_pair false false sim_cloud 1 "i-stop"
           (or_introl eq_refl) H1 H2).
Defined.

Lemma security_group_checks_witness :
  group_batch !! 1%nat = Some "sg-default" ∧
  ∃ rs c',
    delete_security_groups group_batch false sim_cloud =
      (inr (Resp "delete_security_groups" group_batch rs), c') ∧
    rs !! 1%nat = Some ("sg-default", "default_group_skip").
Proof.
  assert (H1 : group_batch !! 1%nat = Some "sg-default") by reflexivity.
  split; [exact H1|].
  destruct (security_group_checks group_batch false sim_cloud 1 "sg-default" H1)
    as (rs & c' & tag & cs & w' & Hf & Hn & _ & Hdefault & _).
  exists rs, c'. split; [exact Hf|].
  destruct (Hdefault {| GroupName := "default" |} []) as [-> _];
    [vm_compute; reflexivity|reflexivity|exact Hn].
Defined.

Example security_groups_on_sim_account :
  (delete_security_groups group_batch false sim_cloud).1 =
    inr (Resp "delete_security_groups" group_batch
           [("sg-web", "in_use"); ("sg-default", "default_group_skip");
            ("sg-none", "not_found"); ("sg-old", "deleted")]).
Proof. vm_compute. reflexivity. Qed.

Lemma unknown_action_is_reported_witness :
  (∀ k, ev_action reboot_request ≠ Some (action_name k)) ∧
  ∃ result s',
    lambda_handler reboot_request sim_sys = (inr (Response 200 result), s') ∧
    r_error result = Some "Unknown action: reboot_instances" ∧
    r_details result = None ∧
    r_action result = Some "reboot_instances" ∧
    ec2 s' = ec2 sim_sys.
Proof.
  assert (H1 : ∀ k, ev_action reboot_request ≠ Some (action_name k))
    by (intros k; destruct k; discriminate).
  split; [exact H1|].
  exact (unknown_action_is_reported reboot_request sim_sys H1).
Defined.

Lemma validation_precedes_dry_run_witness :
  volume_batch !! 1%nat = Some "vol-1" ∧
  ∃ rs c',
    delete_volumes volume_batch true sim_cloud =
      (inr (Resp "delete_volumes" volume_batch rs), c') ∧
    rs !! 1%nat = Some ("vol-1", "not_available_state:in-use").
Proof.
  assert (H1 : volume_batch !! 1%nat = Some "vol-1") by reflexivity.
  split; [exact H1|].
  destruct (validation_precedes_dry_run DeleteVolumes volume_batch true
              sim_cloud 1 "vol-1" H1)
    as (rs & c' & tag & Hf & Hn & _ & _ & Hvol & _).
  exists rs, c'. split; [exact Hf|].
  rewrite (Hvol eq_refl "in-use") in Hn;
    [exact Hn|vm_compute; reflexivity|discriminate].
Defined.

(** The same stop request against a log table that stores the item and
    against one whose [put_item] always raises. *)
Example audit_failure_on_sim_account :
  (lambda_handler dry_stop_request (Sys sim_cloud 0 [])).1 =
  (lambda_handler (H0 := broken_log) dry_stop_request (Sys sim_cloud 0 tt)).1.
Proof. vm_compute. reflexivity. Qed.

End CleanupProofs.

(** ** Properties of the detection Lambda *)

Module DetectProofs.
Import Detect.
Import PrimFloat.
Local Open Scope list_scope.

Lemma int_of_returns (a : num) : int_returns a = true → int_of a = inr (int_value a).
Proof. unfold int_returns, int_value. now destruct (int_of a). Qed.

(** The length of a list that is not empty is not zero. *)
Lemma py_truediv_length {S A : Type} (a : num) (l : list A) (s : S) :
  l ≠ [] →
  py_truediv a (Z.of_nat (length l)) s =
    (inr (to_float a / float_of_int (Z.of_nat (length l)))%float, s).
Proof.
  intros Hl. unfold py_truediv.
  destruct (Z.eqb_spec (Z.of_nat (length l)) 0) as [Hz|Hz]; [|reflexivity].
  destruct l; [done|cbn [length] in Hz; lia].
Qed.

Section Scan.
Context {W : Type} `{Provider W} `{Clock}.

(** An instance that opted out goes through the loop body without a trace. *)
Lemma scan_instance_opted_out (timestamp : string) (inst : instance) (f : scan W) :
  opted_out inst → scan_instance timestamp inst f = (inr tt, f).
Proof.
  intros Hout. unfold scan_instance. cbn [Tags].
  rewrite bool_decide_eq_true_2 by exact Hout. reflexivity.
Qed.

(** The loop body ends in [analyzed_state]. *)
Lemma scan_instance_run (timestamp : string) (inst : instance) (f : scan W)
    (cpu : list cpu_datapoint) (netin netout : list net_datapoint) :
  ¬ opted_out inst →
  let end_time := utcnow_at (ticks (env f)) in
  let start_time := (end_time - timedelta_minutes EVALUATION_MINUTES)%Z in
  cloudwatch_cpu (world (env f)) (id inst) start_time end_time = inr cpu →
  cloudwatch_network_in (world (env f)) (id inst) start_time end_time = inr netin →
  cloudwatch_network_out (world (env f)) (id inst) start_time end_time = inr netout →
  scan_instance timestamp inst f =
    (inr tt, analyzed_state timestamp inst f cpu netin netout).
Proof.
  intros Hin end_time start_time Hcpu Hnetin Hnetout.
  unfold scan_instance. cbn [Tags].
  rewrite bool_decide_eq_false_2 by exact Hin.
  destruct f as [idle analyzed [w n t cs0]].
  subst start_time end_time. cbn [env world ticks table calls] in *.
  unfold bind at 1. unfold utcnow at 1.
  cbn [env world ticks table calls idle_instances analyzed_instances].
  unfold analyze_try, try_except, bind, read.
  cbn [env world ticks table calls idle_instances analyzed_instances id].
  rewrite Hcpu, Hnetin, Hnetout.
  unfold analyzed_state, metric_queries.
  cbn [env world ticks table calls idle_instances analyzed_instances].
  destruct cpu as [|dp cpu].
  - cbn [append_analyzed entry_of]. unfold append_analyzed.
    cbn [env world ticks table calls idle_instances analyzed_instances].
    rewrite <- !app_assoc. reflexivity.
  - rewrite py_truediv_length by discriminate.
    unfold record_of, entry_of, is_idle, window_is_finite, int_returns, int_value.
    change (to_float (py_sum (map Average (dp :: cpu))) /
            float_of_int (Z.of_nat (length (dp :: cpu))))%float
      with (window_avg_cpu (dp :: cpu)).
    change (py_add (py_sum (map Sum netin)) (py_sum (map Sum netout)))
      with (window_total_network netin netout).
    change [("CostOptimization", "CandidateForStop"); ("IdleDetectedAt", timestamp)]
      with (idle_tags timestamp).
    unfold py_max, py_int, lift, ret, append_idle, append_analyzed, create_tags, put_item.
    cbn [map env world ticks table calls idle_instances analyzed_instances].
    change (fold_left (λ m y, if (m <? y)%float then y else m)
                      (map Maximum cpu) (Maximum dp))
      with (window_max_cpu (dp :: cpu)).
    destruct (int_of (py_sum (map Sum netin))) as [e1|net_in_bytes];
      [rewrite <- !app_assoc; reflexivity|].
    destruct (int_of (py_sum (map Sum netout))) as [e2|net_out_bytes];
      [rewrite <- !app_assoc; reflexivity|].
    destruct (int_of (window_total_network netin netout)) as [e3|total_bytes];
      [rewrite <- !app_assoc; reflexivity|].
    cbn [andb].
    destruct ((window_avg_cpu (dp :: cpu) <? CPU_THRESHOLD)%float &&
              py_lt (window_total_network netin netout) (PyInt NETWORK_THRESHOLD)).
    + cbn [env world ticks table calls idle_instances analyzed_instances].
      destruct (instance_create_tags w (id inst) (idle_tags timestamp)) as [rt wt].
      destruct rt as [et|[]];
        cbn [env world ticks table calls idle_instances analyzed_instances
             Status Recommendation Region Tags set_status set_metrics initial_info snd];
        match goal with
        | |- context [dynamodb_put_item wt ?it] =>
            destruct (dynamodb_put_item wt it) as [rp wp]
        end;
        destruct rp as [ep|[]];
        cbn [env world ticks table calls idle_instances analyzed_instances fst snd];
        rewrite <- !app_assoc; reflexivity.
    + cbn [env world ticks table calls idle_instances analyzed_instances
           Status Recommendation Region Tags set_status set_metrics initial_info].
      match goal with
      | |- context [dynamodb_put_item w ?it] =>
          destruct (dynamodb_put_item w it) as [rp wp]
      end.
      destruct rp as [ep|[]];
        cbn [env world ticks table calls idle_instances analyzed_instances fst snd];
        rewrite <- !app_assoc; reflexivity.
Qed.


(** When a metric query raises, the loop body stops there: the clock was
    read and the queries up to the failing one were issued, and nothing else
    has changed. *)
Lemma scan_instance_unanswered (timestamp : string) (inst : instance) (f : scan W)
    (m : nat) (e : exn) :
  ¬ opted_out inst →
  let end_time := utcnow_at (ticks (env f)) in
  query_failures (world (env f)) inst end_time !! m = Some (Some e) →
  (∀ j, (j < m)%nat → query_failures (world (env f)) inst end_time !! j = Some None) →
  scan_instance timestamp inst f =
    (inr tt,
     Scan (idle_instances f) (analyzed_instances f)
          (Sys (world (env f)) (S (ticks (env f))) (table (env f))
               (calls (env f) ++ take (S m) (metric_queries inst end_time)))).
Proof.
  intros Hin end_time Hm Hbefore.
  unfold scan_instance. cbn [Tags].
  rewrite bool_decide_eq_false_2 by exact Hin.
  destruct f as [idle analyzed [w n t cs0]].
  subst end_time. cbn [env world ticks table calls] in *.
  unfold bind at 1. unfold utcnow at 1.
  cbn [env world ticks table calls idle_instances analyzed_instances].
  unfold analyze_try, try_except, bind, read.
  cbn [env world ticks table calls idle_instances analyzed_instances id].
  unfold query_failures, metric_queries in *.
  destruct m as [|[|[|m]]].
  - cbn in Hm.
    destruct (cloudwatch_cpu w (id inst) _ _) as [e1|cpu]; [|discriminate].
    reflexivity.
  - assert (H0' := Hbefore 0%nat ltac:(lia)). cbn in Hm, H0'.
    destruct (cloudwatch_cpu w (id inst) _ _) as [e1|cpu]; [discriminate|].
    destruct (cloudwatch_network_in w (id inst) _ _) as [e2|netin]; [|discriminate].
    cbn. now rewrite <- app_assoc.
  - assert (H0' := Hbefore 0%nat ltac:(lia)).
    assert (H1' := Hbefore 1%nat ltac:(lia)). cbn in Hm, H0', H1'.
    destruct (cloudwatch_cpu w (id inst) _ _) as [e1|cpu]; [discriminate|].
    destruct (cloudwatch_network_in w (id inst) _ _) as [e2|netin]; [discriminate|].
    destruct (cloudwatch_network_out w (id inst) _ _) as [e3|netout]; [|discriminate].
    cbn. now rewrite <- !app_assoc.
  - discriminate Hm.
Qed.

Lemma entry_of_id (timestamp : string) (inst : instance)
    (cpu : list cpu_datapoint) (netin netout : list net_datapoint) :
  InstanceId (entry_of timestamp inst cpu netin netout) = id inst.
Proof.
  unfold entry_of. destruct cpu; [reflexivity|].
  now destruct (is_idle _ netin netout).
Qed.

Lemma entry_of_status (timestamp : string) (inst : instance)
    (cpu : list cpu_datapoint) (netin netout : list net_datapoint) :
  Status (entry_of timestamp inst cpu netin netout) =
    Some match cpu with
         | [] => "NoData"
         | _ :: _ => if is_idle cpu netin netout then "Idle" else "Active"
         end.
Proof.
  unfold entry_of. destruct cpu; [reflexivity|].
  now destruct (is_idle _ netin netout).
Qed.

(** The loop body for a window that reaches a verdict: there is no CPU
    datapoint, or [int()] returns for the network totals. *)
Lemma analyzed_state_verdict (timestamp : string) (inst : instance) (f : scan W)
    (cpu : list cpu_datapoint) (netin netout : list net_datapoint) :
  (cpu ≠ [] → window_is_finite netin netout = true) →
  let info := entry_of timestamp inst cpu netin netout in
  let it := record_of timestamp inst cpu netin netout in
  let f' := analyzed_state timestamp inst f cpu netin netout in
  let idle := match cpu with [] => false | _ :: _ => is_idle cpu netin netout end in
  analyzed_instances f' = analyzed_instances f ++ [info] ∧
  idle_instances f' = (if idle then idle_instances f ++ [info] else idle_instances f) ∧
  ticks (env f') = S (ticks (env f)) ∧
  calls (env f') =
    calls (env f) ++ metric_queries inst (utcnow_at (ticks (env f))) ++
    match cpu with
    | [] => []
    | _ :: _ => (if idle then [CreateTags (id inst) (idle_tags timestamp)] else []) ++
                [PutItem it]
    end.
Proof.
  intros Hfin info it f' idle. subst f'. unfold analyzed_state.
  destruct cpu as [|dp cpu].
  - cbn [analyzed_instances idle_instances env ticks calls]. now rewrite app_nil_r.
  - rewrite Hfin by discriminate.
    cbn [analyzed_instances idle_instances env ticks calls]. done.
Qed.

Lemma call_ok_queries (timestamp : string) (inst : instance) (end_time : Z) (m : nat) :
  Forall (call_ok timestamp inst) (take m (metric_queries inst end_time)).
Proof.
  apply Forall_take. unfold metric_queries.
  repeat constructor; cbn; auto; lia.
Qed.

(** Everything the loop body may do, for any instance in any state. *)
Lemma scan_instance_step (timestamp : string) (inst : instance) (f : scan W) :
  ∃ f' extra cs,
    scan_instance timestamp inst f = (inr tt, f') ∧
    analyzed_instances f' = analyzed_instances f ++ extra ∧
    idle_instances f' =
      idle_instances f ++ filter (λ i, Status i = Some "Idle") extra ∧
    calls (env f') = calls (env f) ++ cs ∧
    ticks (env f') = (ticks (env f) + (if decide (opted_out inst) then 0 else 1))%nat ∧
    (length extra ≤ (if decide (opted_out inst) then 0 else 1))%nat ∧
    Forall (λ info, InstanceId info = id inst ∧ status_ok info) extra ∧
    Forall (call_ok timestamp inst) cs ∧
    (opted_out inst → f' = f ∧ cs = []) ∧
    (∀ key, key ≠ id inst → table (env f') !! key = table (env f) !! key) ∧
    (table (env f') !! id inst = table (env f) !! id inst ∨
     ∃ it, table (env f') !! id inst = Some it ∧ call_ok timestamp inst (PutItem it)).
Proof.
  destruct (decide (opted_out inst)) as [Hout|Hin].
  - exists f, [], []. rewrite scan_instance_opted_out by exact Hout.
    rewrite !app_nil_r, Nat.add_0_r. repeat split; auto.
  - set (end_time := utcnow_at (ticks (env f))).
    set (start_time := (end_time - timedelta_minutes EVALUATION_MINUTES)%Z).
    assert (Hquiet : ∀ m,
      ∃ f' extra cs,
        (inr tt : res unit,
         Scan (idle_instances f) (analyzed_instances f)
              (Sys (world (env f)) (S (ticks (env f))) (table (env f))
                   (calls (env f) ++ take m (metric_queries inst end_time)))) =
          (inr tt, f') ∧
        analyzed_instances f' = analyzed_instances f ++ extra ∧
        idle_instances f' =
          idle_instances f ++ filter (λ i, Status i = Some "Idle") extra ∧
        calls (env f') = calls (env f) ++ cs ∧
        ticks (env f') = (ticks (env f) + 1)%nat ∧
        (length extra ≤ 1)%nat ∧
        Forall (λ info, InstanceId info = id inst ∧ status_ok info) extra ∧
        Forall (call_ok timestamp inst) cs ∧
        (opted_out inst → f' = f ∧ cs = []) ∧
        (∀ key, key ≠ id inst → table (env f') !! key = table (env f) !! key) ∧
        (table (env f') !! id inst = table (env f) !! id inst ∨
         ∃ it, table (env f') !! id inst = Some it ∧ call_ok timestamp inst (PutItem it))).
    { intros m.
      eexists _, [], (take m (metric_queries inst end_time)).
      split; [reflexivity|].
      cbn [idle_instances analyzed_instances env calls ticks table].
      rewrite !app_nil_r. do 3 (split; [reflexivity|]).
      split; [lia|]. split; [cbn; lia|]. split; [constructor|].
      split; [apply call_ok_queries|]. split; [intros Hout; now destruct Hin|].
      split; [reflexivity|now left]. }
    assert (Hfail : ∀ m e,
      query_failures (world (env f)) inst end_time !! m = Some (Some e) →
      (∀ j, (j < m)%nat → query_failures (world (env f)) inst end_time !! j = Some None) →
      scan_instance timestamp inst f =
        (inr tt,
         Scan (idle_instances f) (analyzed_instances f)
              (Sys (world (env f)) (S (ticks (env f))) (table (env f))
                   (calls (env f) ++ take (S m) (metric_queries inst end_time))))).
    { intros m e Hm Hbefore.
      apply (scan_instance_unanswered timestamp inst f m e Hin Hm Hbefore). }
    destruct (cloudwatch_cpu (world (env f)) (id inst) start_time end_time)
      as [e1|cpu] eqn:Hcpu.
    { rewrite (Hfail 0%nat e1); [apply Hquiet| |].
      - unfold query_failures. fold start_time. now rewrite Hcpu.
      - intros j Hj. lia. }
    destruct (cloudwatch_network_in (world (env f)) (id inst) start_time end_time)
      as [e2|netin] eqn:Hnetin.
    { rewrite (Hfail 1%nat e2); [apply Hquiet| |].
      - unfold query_failures. fold start_time. now rewrite Hnetin.
      - intros j Hj. assert (j = 0%nat) as -> by lia.
        unfold query_failures. fold start_time. now rewrite Hcpu. }
    destruct (cloudwatch_network_out (world (env f)) (id inst) start_time end_time)
      as [e3|netout] eqn:Hnetout.
    { rewrite (Hfail 2%nat e3); [apply Hquiet| |].
      - unfold query_failures. fold start_time. now rewrite Hnetout.
      - intros j Hj. assert (j = 0%nat ∨ j = 1%nat) as [-> | ->] by lia;
          unfold query_failures; fold start_time; now rewrite ?Hcpu, ?Hnetin. }
    clear Hfail.
    rewrite (scan_instance_run timestamp inst f cpu netin netout Hin Hcpu Hnetin Hnetout).
    unfold analyzed_state. fold end_time.
    destruct cpu as [|dp cpu].
    + eexists _, [_], _. split; [reflexivity|].
      cbn [idle_instances analyzed_instances env calls ticks table].
      split; [reflexivity|]. split.
      { rewrite filter_cons_False, filter_nil, app_nil_r by (cbn; discriminate).
        reflexivity. }
      split; [reflexivity|]. split; [lia|]. split; [cbn; lia|]. split.
      { constructor; [|constructor]. split; [reflexivity|]. right; right. reflexivity. }
      split; [apply (call_ok_queries timestamp inst end_time 3)|].
      split; [intros Hout; now destruct Hin|]. split; [reflexivity|now left].
    + destruct (window_is_finite netin netout); [|apply (Hquiet 3%nat)].
      set (info := entry_of timestamp inst (dp :: cpu) netin netout).
      set (it := record_of timestamp inst (dp :: cpu) netin netout).
      assert (Hst : Status info = Some (if is_idle (dp :: cpu) netin netout
                                        then "Idle" else "Active"))
        by apply entry_of_status.
      assert (Hit : call_ok timestamp inst (PutItem it)).
      { assert (Hist : item_Status it = Status info) by reflexivity.
        unfold call_ok. split; [reflexivity|]. split; [reflexivity|].
        rewrite Hist, Hst. destruct (is_idle (dp :: cpu) netin netout); auto. }
      eexists _, [info], _. split; [reflexivity|].
      cbn [idle_instances analyzed_instances env calls ticks table].
      split; [reflexivity|]. split.
      { destruct (is_idle (dp :: cpu) netin netout).
        - now rewrite filter_cons_True by exact Hst.
        - rewrite filter_cons_False, filter_nil, app_nil_r by (rewrite Hst; discriminate).
          reflexivity. }
      split; [reflexivity|]. split; [lia|]. split; [cbn; lia|]. split.
      { constructor; [|constructor]. split; [apply entry_of_id|].
        unfold status_ok. rewrite Hst.
        destruct (is_idle (dp :: cpu) netin netout); auto. }
      split.
      { apply Forall_app. split; [apply (call_ok_queries timestamp inst end_time 3)|].
        apply Forall_app. split.
        - destruct (is_idle (dp :: cpu) netin netout); repeat constructor.
        - constructor; [exact Hit|constructor]. }
      split; [intros Hout; now destruct Hin|].
      match goal with
      | |- context [dynamodb_put_item ?w0 it] =>
          destruct (dynamodb_put_item w0 it) as [[ep|[]] wp]
      end; cbn [fst snd].
      * split; [reflexivity|now left].
      * split.
        -- intros key Hkey. now rewrite lookup_insert_ne.
        -- right. exists it. split; [apply lookup_insert_eq|exact Hit].
Qed.

(** The loop as a whole, from the loop body: it never raises. *)
Lemma scan_loop_step (timestamp : string) (l : list instance) (f : scan W) :
  ∃ f' extra cs,
    for_each l (scan_instance timestamp) f = (inr tt, f') ∧
    analyzed_instances f' = analyzed_instances f ++ extra ∧
    idle_instances f' =
      idle_instances f ++ filter (λ i, Status i = Some "Idle") extra ∧
    Forall status_ok extra ∧
    map InstanceId extra `sublist_of` map id (filter (λ i, ¬ opted_out i) l) ∧
    calls (env f') = calls (env f) ++ cs ∧
    Forall (λ c, ∃ inst, inst ∈ l ∧ ¬ opted_out inst ∧ call_ok timestamp inst c) cs ∧
    ticks (env f') = (ticks (env f) + length (filter (λ i, ¬ opted_out i) l))%nat ∧
    (∀ key, (∀ inst, inst ∈ l → ¬ opted_out inst → id inst ≠ key) →
            table (env f') !! key = table (env f) !! key) ∧
    (∀ key, table (env f') !! key = table (env f) !! key ∨
            ∃ it inst, table (env f') !! key = Some it ∧ inst ∈ l ∧
                       ¬ opted_out inst ∧ id inst = key ∧
                       call_ok timestamp inst (PutItem it)).
Proof.
  revert f. induction l as [|inst l IH]; intros f.
  - exists f, [], []. cbn. rewrite !app_nil_r, Nat.add_0_r.
    repeat split; auto; constructor.
  - destruct (scan_instance_step timestamp inst f)
      as (f1 & ex1 & cs1 & Hrun & Han1 & Hidle1 & Hcalls1 & Hticks1 & Hlen1 & Hex1 &
          Hcs1 & Hopt1 & Hother1 & Hown1).
    destruct (IH f1)
      as (f' & ex2 & cs2 & Hloop & Han2 & Hidle2 & Hst2 & Hsub2 & Hcalls2 & Hcs2 &
          Hticks2 & Hother2 & Hkeys2).
    exists f', (ex1 ++ ex2), (cs1 ++ cs2).
    split; [cbn [for_each]; unfold bind; now rewrite Hrun|].
    split; [rewrite Han2, Han1; now rewrite app_assoc|].
    split; [rewrite Hidle2, Hidle1, filter_app; now rewrite app_assoc|].
    split.
    { apply Forall_app. split; [|exact Hst2].
      eapply Forall_impl; [exact Hex1|]. now intros info [_ ?]. }
    split.
    { rewrite map_app. destruct (decide (opted_out inst)) as [Hout|Hin].
      - rewrite filter_cons_False by (intros Hn; now apply Hn).
        destruct ex1; [exact Hsub2|cbn in Hlen1; lia].
      - rewrite filter_cons_True by exact Hin. cbn [map].
        destruct ex1 as [|info [|info' ex1]]; [| |cbn in Hlen1; lia].
        + cbn. now apply sublist_cons.
        + cbn. apply Forall_cons in Hex1 as [[-> _] _]. now apply sublist_skip. }
    split; [rewrite Hcalls2, Hcalls1; now rewrite app_assoc|].
    split.
    { apply Forall_app. split.
      - apply Forall_forall. intros c Hc. exists inst.
        split; [apply elem_of_cons; now left|]. split.
        + intros Hout. destruct (Hopt1 Hout) as [_ ->]. now apply elem_of_nil in Hc.
        + rewrite Forall_forall in Hcs1. now apply Hcs1.
      - eapply Forall_impl; [exact Hcs2|]. intros c (inst' & Hin' & Hno & Hok).
        exists inst'. split; [apply elem_of_cons; now right|]. now split. }
    split.
    { rewrite Hticks2, Hticks1. destruct (decide (opted_out inst)) as [Hout|Hin].
      - rewrite filter_cons_False by (intros Hn; now apply Hn). lia.
      - rewrite filter_cons_True by exact Hin. cbn [length]. lia. }
    split.
    { intros key Hkey. rewrite Hother2.
      - destruct (decide (opted_out inst)) as [Hout|Hin].
        + now destruct (Hopt1 Hout) as [-> _].
        + apply Hother1. intros Heq.
          apply (Hkey inst); [apply elem_of_cons; now left|exact Hin|now symmetry].
      - intros inst' Hin'. apply Hkey. apply elem_of_cons. now right. }
    intros key. destruct (Hkeys2 key) as [Hsame|(it & inst' & Hit & Hin' & Hno & Hid & Hok)].
    + rewrite Hsame. destruct (decide (opted_out inst)) as [Hout|Hin].
      * left. now destruct (Hopt1 Hout) as [-> _].
      * destruct (decide (key = id inst)) as [->|Hne]; [|left; now apply Hother1].
        destruct Hown1 as [Hsame1|(it & Hit & Hok)]; [now left|].
        right. exists it, inst. split; [exact Hit|].
        split; [apply elem_of_cons; now left|]. auto.
    + right. exists it, inst'. split; [exact Hit|].
      split; [apply elem_of_cons; now right|]. auto.
Qed.

(** The handler, from the loop: it raises exactly when the listing of the
    instances fails, after the loop over the instances that were yielded. *)
Lemma scan_instances_run (l : list instance) (failure : option exn) (s : sys W) :
  let timestamp := isoformat (utcnow_at (ticks s)) in
  let s0 := Sys (world s) (S (ticks s)) (table s) (calls s) in
  ∃ f',
    for_each l (scan_instance timestamp) (Scan [] [] s0) = (inr tt, f') ∧
    scan_instances l failure s =
      (match failure with
       | Some e => inl e
       | None =>
           inr (Response 200
                  (Summary timestamp EVALUATION_MINUTES
                     (length (analyzed_instances f'))
                     (length (idle_instances f'))
                     (length (filter (λ i, Status i = Some "Active")
                                     (analyzed_instances f')))
                     (idle_instances f') (analyzed_instances f')))
       end, env f').
Proof.
  intros timestamp s0.
  destruct (scan_loop_step timestamp l (Scan [] [] s0)) as (f' & _ & _ & Hloop & _).
  exists f'. split; [exact Hloop|].
  unfold scan_instances, for_each_lazy, bind. fold timestamp. fold s0. rewrite Hloop.
  now destruct failure.
Qed.



(** C1.  For an instance that is analysed (it did not opt out), whose three
    metric queries return the datapoints [cpu], [netin] and [netout], and
    whose network totals are numbers that [int()] converts, the loop body
    adds exactly one entry for it to [analyzed_instances], and its status
    follows the decision table.  It is [NoData] when there is no CPU
    datapoint.  Otherwise it is [Idle] when [avg_cpu < CPU_THRESHOLD] and
    [total_network < NETWORK_THRESHOLD] both hold, for the average and the
    total as the code computes them in floating point, and [Active] when
    either comparison fails; in particular an average or a total that is
    exactly its threshold gives [Active].  Only an idle entry is added to
    [idle_instances]. *)
Theorem classifier_follows_decision_table (timestamp : string) (inst : instance)
    (f : scan W) (cpu : list cpu_datapoint) (netin netout : list net_datapoint) :
  ¬ opted_out inst →
  let end_time := utcnow_at (ticks (env f)) in
  let start_time := (end_time - timedelta_minutes EVALUATION_MINUTES)%Z in
  cloudwatch_cpu (world (env f)) (id inst) start_time end_time = inr cpu →
  cloudwatch_network_in (world (env f)) (id inst) start_time end_time = inr netin →
  cloudwatch_network_out (world (env f)) (id inst) start_time end_time = inr netout →
  (cpu ≠ [] → window_is_finite netin netout = true) →
  ∃ info f',
    scan_instance timestamp inst f = (inr tt, f') ∧
    analyzed_instances f' = analyzed_instances f ++ [info] ∧
    InstanceId info = id inst ∧
    (cpu = [] →
       Status info = Some "NoData" ∧ idle_instances f' = idle_instances f) ∧
    (cpu ≠ [] →
       (window_avg_cpu cpu <? CPU_THRESHOLD)%float = true →
       py_lt (window_total_network netin netout) (PyInt NETWORK_THRESHOLD) = true →
       Status info = Some "Idle" ∧ idle_instances f' = idle_instances f ++ [info]) ∧
    (cpu ≠ [] →
       (window_avg_cpu cpu <? CPU_THRESHOLD)%float = false ∨
       py_lt (window_total_network netin netout) (PyInt NETWORK_THRESHOLD) = false →
       Status info = Some "Active" ∧ idle_instances f' = idle_instances f) ∧
    (cpu ≠ [] →
       window_avg_cpu cpu = CPU_THRESHOLD ∨
       window_total_network netin netout = PyInt NETWORK_THRESHOLD ∨
       window_total_network netin netout = PyFloat (float_of_int NETWORK_THRESHOLD) →
       Status info = Some "Active" ∧ idle_instances f' = idle_instances f).
Proof.
  intros Hin end_time start_time Hcpu Hnetin Hnetout Hfin.
  rewrite (scan_instance_run timestamp inst f cpu netin netout Hin Hcpu Hnetin Hnetout).
  destruct (analyzed_state_verdict timestamp inst f cpu netin netout Hfin)
    as (Han & Hidle & _).
  exists (entry_of timestamp inst cpu netin netout). eexists.
  split; [reflexivity|]. split; [exact Han|]. split; [apply entry_of_id|].
  rewrite entry_of_status, Hidle.
  assert (Hactive : cpu ≠ [] → is_idle cpu netin netout = false →
            Some (match cpu with
                  | [] => "NoData"
                  | _ :: _ => if is_idle cpu netin netout then "Idle" else "Active"
                  end) = Some "Active" ∧
            (if match cpu with
                | [] => false
                | _ :: _ => is_idle cpu netin netout
                end
             then idle_instances f ++ [entry_of timestamp inst cpu netin netout]
             else idle_instances f) = idle_instances f).
  { intros Hne Hb. destruct cpu; [now destruct Hne|]. now rewrite Hb. }
  split; [|split; [|split]].
  - intros ->. now split.
  - intros Hne Hc Hn. destruct cpu; [now destruct Hne|].
    unfold is_idle. rewrite Hc, Hn. now split.
  - intros Hne Hor. apply (Hactive Hne). unfold is_idle.
    apply andb_false_iff. exact Hor.
  - intros Hne Hat. apply (Hactive Hne). unfold is_idle.
    apply andb_false_iff.
    destruct Hat as [-> | [-> | ->]]; [left|right|right]; reflexivity.
Qed.

(** C4, as amended.  For an instance that is analysed, whose metric queries
    are answered and whose network totals [int()] converts, the loop body
    adds one entry to [analyzed_instances].  When its status is [Idle] or
    [Active], exactly one [put_item] is issued, of an item keyed by the id
    of the instance and carrying that status, and unless that call raises
    the item is stored under that key, replacing what was there.  When its
    status is [NoData], no [put_item] is issued and the table is left as it
    was. *)
Theorem verdict_with_metrics_is_recorded (timestamp : string) (inst : instance)
    (f : scan W) (cpu : list cpu_datapoint) (netin netout : list net_datapoint) :
  ¬ opted_out inst →
  let end_time := utcnow_at (ticks (env f)) in
  let start_time := (end_time - timedelta_minutes EVALUATION_MINUTES)%Z in
  cloudwatch_cpu (world (env f)) (id inst) start_time end_time = inr cpu →
  cloudwatch_network_in (world (env f)) (id inst) start_time end_time = inr netin →
  cloudwatch_network_out (world (env f)) (id inst) start_time end_time = inr netout →
  (cpu ≠ [] → window_is_finite netin netout = true) →
  ∃ info f' cs,
    scan_instance timestamp inst f = (inr tt, f') ∧
    analyzed_instances f' = analyzed_instances f ++ [info] ∧
    InstanceId info = id inst ∧
    calls (env f') = calls (env f) ++ cs ∧
    (Status info = Some "Idle" ∨ Status info = Some "Active" ∨
     Status info = Some "NoData") ∧
    (Status info = Some "NoData" →
       table (env f') = table (env f) ∧ put_items cs = []) ∧
    (Status info = Some "Idle" ∨ Status info = Some "Active" →
       ∃ it wp,
         put_items cs = [it] ∧
         item_InstanceId it = id inst ∧
         item_Status it = Status info ∧
         (Status info = Some "Active" → wp = world (env f)) ∧
         (Status info = Some "Idle" →
            wp = (instance_create_tags (world (env f)) (id inst) (idle_tags timestamp)).2) ∧
         ((dynamodb_put_item wp it).1 = inr tt →
            table (env f') = <[id inst := it]> (table (env f))) ∧
         (∀ e, (dynamodb_put_item wp it).1 = inl e → table (env f') = table (env f))).
Proof.
  intros Hin end_time start_time Hcpu Hnetin Hnetout Hfin.
  rewrite (scan_instance_run timestamp inst f cpu netin netout Hin Hcpu Hnetin Hnetout).
  pose proof (entry_of_status timestamp inst cpu netin netout) as Hst.
  unfold analyzed_state. fold end_time.
  destruct cpu as [|dp cpu].
  - exists (entry_of timestamp inst [] netin netout). eexists.
    exists (metric_queries inst end_time). split; [reflexivity|].
    cbn [analyzed_instances idle_instances env calls table].
    split; [reflexivity|]. split; [reflexivity|]. split; [reflexivity|].
    split; [auto|]. split; [now intros _|].
    rewrite Hst. intros [[=]|[=]].
  - rewrite Hfin by discriminate.
    set (info := entry_of timestamp inst (dp :: cpu) netin netout) in *.
    set (it := record_of timestamp inst (dp :: cpu) netin netout).
    exists info. eexists. eexists. split; [reflexivity|].
    cbn [analyzed_instances idle_instances env calls table world].
    split; [reflexivity|]. split; [apply entry_of_id|]. split; [reflexivity|].
    assert (Hist : item_Status it = Status info) by reflexivity.
    rewrite Hst.
    destruct (is_idle (dp :: cpu) netin netout).
    all: (split; [auto|]).
    all: (split; [intros [=]|]).
    all: intros _; eexists it, _.
    all: (split; [reflexivity|]).
    all: (split; [reflexivity|]).
    all: (split; [now rewrite Hist, Hst|]).
    all: (split; [intros Hs; first [discriminate Hs|reflexivity]|]).
    all: (split; [intros Hs; first [discriminate Hs|reflexivity]|]).
    all: (split; [intros Hok; now rewrite Hok|intros e He; now rewrite He]).
Qed.


End Scan.

(** *** The theorems on the simulated account *)

(** The scan of the simulated account: 3.25% CPU and 500000 bytes is idle,
    an instance whose average CPU is the threshold is active, one without
    datapoints has no data, and the instance that opted out is not there. *)
Example scan_of_sim_monitored :
  match lambda_handler sim_scan_sys with
  | (inr response, s') =>
      map (λ i, (InstanceId i, Status i, Recommendation i))
          (all_instances (body response)) =
        [("i-idle", Some "Idle", Some "Consider stopping instance");
         ("i-busy", Some "Active", Some "Keep running");
         ("i-edge", Some "Active", Some "Keep running");
         ("i-quiet", Some "NoData", Some "Enable detailed monitoring")] ∧
      map InstanceId (sum_idle_instances (body response)) = ["i-idle"] ∧
      total_instances_analyzed (body response) = 4%nat ∧
      idle_instances_count (body response) = 1%nat ∧
      active_instances_count (body response) = 2%nat ∧
      statusCode response = 200%Z
  | _ => False
  end.
Proof. vm_compute. repeat split; reflexivity. Qed.

(** The average of 10 and the float just below 10 is 10 in floating point,
    which is not below the threshold. *)
Example average_at_the_threshold :
  window_avg_cpu edge_cpu = CPU_THRESHOLD ∧
  (window_avg_cpu edge_cpu <? CPU_THRESHOLD)%float = false.
Proof. split; reflexivity. Qed.

(** Sums and rounding are those of binary64: 0.1 + 0.2 is not 0.3, and 2.675
    rounds to 2.67 because the float nearest to it is below it. *)
Example numbers_are_floats :
  py_sum [0x1.999999999999ap-4; 0x1.999999999999ap-3]%float =
    PyFloat 0x1.3333333333334p-2 ∧
  round2 0x1.5666666666666p+1 = 0x1.55c28f5c28f5cp+1%float ∧
  round2 0.125 = 0x1.eb851eb851eb8p-4%float ∧
  int_of (PyFloat (-2.5)) = inr (-2)%Z ∧
  int_of (PyFloat infinity) = inl "cannot convert float infinity to integer".
Proof. repeat split; reflexivity. Qed.

Lemma classifier_follows_decision_table_witness :
  ¬ opted_out i_idle ∧
  cloudwatch_cpu sim_monitored "i-idle" (-299000000) 1000000 = inr idle_cpu ∧
  cloudwatch_network_in sim_monitored "i-idle" (-299000000) 1000000 = inr idle_network_in ∧
  cloudwatch_network_out sim_monitored "i-idle" (-299000000) 1000000 = inr idle_network_out ∧
  (idle_cpu ≠ [] → window_is_finite idle_network_in idle_network_out = true) ∧
  ∃ info f',
    scan_instance "1970-01-01T00:00:0" i_idle sim_scan = (inr tt, f') ∧
    analyzed_instances f' = [info] ∧
    idle_instances f' = [info] ∧
    InstanceId info = "i-idle" ∧
    Status info = Some "Idle".
Proof.
  assert (H1 : ¬ opted_out i_idle) by (unfold opted_out; vm_compute; discriminate).
  assert (H2 : cloudwatch_cpu sim_monitored "i-idle" (-299000000) 1000000 = inr idle_cpu)
    by reflexivity.
  assert (H3 : cloudwatch_network_in sim_monitored "i-idle" (-299000000) 1000000 =
               inr idle_network_in) by reflexivity.
  assert (H4 : cloudwatch_network_out sim_monitored "i-idle" (-299000000) 1000000 =
               inr idle_network_out) by reflexivity.
  assert (H5 : idle_cpu ≠ [] → window_is_finite idle_network_in idle_network_out = true)
    by (intros _; reflexivity).
  do 5 (split; [assumption|]).
  destruct (classifier_follows_decision_table (H0 := sim_clock)
              "1970-01-01T00:00:0" i_idle sim_scan
              idle_cpu idle_network_in idle_network_out H1 H2 H3 H4 H5)
    as (info & f' & Hrun & Han & Hid & _ & Hidle & _).
  destruct Hidle as [Hst Hlist]; [discriminate|reflexivity|reflexivity|].
  exists info, f'. auto.
Defined.

(** The sentence on detection records fails on an account whose only
    instance has no CPU datapoints: the instance has its verdict, [NoData],
    and the table has nothing under its id. *)
Lemma nodata_verdict_is_not_recorded : ¬ every_verdict_is_recorded quiet_sys.
Proof.
  unfold every_verdict_is_recorded. intros Hclaim.
  destruct (lambda_handler quiet_sys) as [[e|response] s'] eqn:Hrun;
    vm_compute in Hrun; [discriminate|].
  injection Hrun as <- <-.
  specialize (Hclaim _ _ eq_refl).
  match type of Hclaim with
  | ∀ info, info ∈ ?l → _ =>
      match eval cbn in l with
      | ?i :: _ => specialize (Hclaim i ltac:(apply elem_of_cons; now left))
      end
  end.
  vm_compute in Hclaim. destruct Hclaim as [it Hit]. discriminate Hit.
Qed.

Lemma verdict_with_metrics_is_recorded_witness :
  ¬ opted_out i_busy ∧
  cloudwatch_cpu sim_monitored "i-busy" (-299000000) 1000000 = inr busy_cpu ∧
  cloudwatch_network_in sim_monitored "i-busy" (-299000000) 1000000 = inr busy_network_in ∧
  cloudwatch_network_out sim_monitored "i-busy" (-299000000) 1000000 = inr [] ∧
  (busy_cpu ≠ [] → window_is_finite busy_network_in [] = true) ∧
  ∃ info f' it,
    scan_instance "1970-01-01T00:00:0" i_busy sim_scan = (inr tt, f') ∧
    analyzed_instances f' = [info] ∧
    Status info = Some "Active" ∧
    put_items (calls (env f')) = [it] ∧
    item_InstanceId it = "i-busy" ∧
    item_Status it = Some "Active" ∧
    table (env f') = {[ "i-busy" := it ]}.
Proof.
  assert (H1 : ¬ opted_out i_busy) by (unfold opted_out; vm_compute; discriminate).
  assert (H2 : cloudwatch_cpu sim_monitored "i-busy" (-299000000) 1000000 = inr busy_cpu)
    by reflexivity.
  assert (H3 : cloudwatch_network_in sim_monitored "i-busy" (-299000000) 1000000 =
               inr busy_network_in) by reflexivity.
  assert (H4 : cloudwatch_network_out sim_monitored "i-busy" (-299000000) 1000000 = inr [])
    by reflexivity.
  assert (H5 : busy_cpu ≠ [] → window_is_finite busy_network_in [] = true)
    by (intros _; reflexivity).
  do 5 (split; [assumption|]).
  destruct (verdict_with_metrics_is_recorded (H0 := sim_clock)
              "1970-01-01T00:00:0" i_busy sim_scan
              busy_cpu busy_network_in [] H1 H2 H3 H4 H5)
    as (info & f' & cs & Hrun & Han & Hid & Hcalls & Hst & _ & Hput).
  assert (Hactive : Status info = Some "Active").
  { assert (Hf : f' = (scan_instance "1970-01-01T00:00:0" i_busy sim_scan).2)
      by now rewrite Hrun.
    rewrite Hf in Han. vm_compute in Han. injection Han as <-. reflexivity. }
  destruct Hput as (it & wp & Hits & Hkey & Hist & Hwp & _ & Hok & _); [now right|].
  exists info, f', it. rewrite Hcalls. cbn [calls env sim_scan app].
  rewrite Hactive in Hist. rewrite (Hwp Hactive) in Hok.
  repeat split; try assumption.
  rewrite Hok; reflexivity.
Defined.

End DetectProofs.

(** ** Further properties of the cleanup Lambda *)

Module CleanupExtras.
Import Cleanup CleanupProofs.
Local Open Scope list_scope.

Section Outcomes.
Context {W : Type} `{Ec2Client W}.

(** A target that passes the state check of its action, in execute mode:
    the [try] block issues the mutating call of the action after its reads,
    and ends with the tag of success or with what the call raised. *)
Lemma try_outcome_execute (k : action_kind) (i : string) (w : W) :
  passes_validation k w i →
  ∃ reads,
    try_outcome k false i w =
      (match (mutate k w i).1 with inr _ => inr (success_tag k) | inl e => inl e end,
       reads ++ [mutation k i], (mutate k w i).2) ∧
    Forall (λ c, mutating c = false ∧ call_target c = i) reads.
Proof.
  destruct k; cbn -[String.eqb String.append]; unfold write_outcome.
  - intros (state & -> & Hne). apply String.eqb_neq in Hne. rewrite Hne.
    exists [DescribeInstances i]. destruct (ec2_stop_instances w i) as [[e|[]] w'];
      split; try reflexivity; repeat constructor.
  - intros (state & -> & Hne). apply String.eqb_neq in Hne. rewrite Hne.
    exists [DescribeInstances i]. destruct (ec2_start_instances w i) as [[e|[]] w'];
      split; try reflexivity; repeat constructor.
  - intros _. exists []. destruct (ec2_terminate_instances w i) as [[e|[]] w'];
      split; try reflexivity; constructor.
  - intros ->. cbn. exists [DescribeVolumes i].
    destruct (ec2_delete_volume w i) as [[e|[]] w'];
      split; try reflexivity; repeat constructor.
  - intros (addr0 & l & -> & Hnone). rewrite Hnone. cbn.
    exists [DescribeAddresses i]. destruct (ec2_release_address w i) as [[e|[]] w'];
      split; try reflexivity; repeat constructor.
  - intros (g0 & l & -> & Hne & ->). apply String.eqb_neq in Hne. rewrite Hne.
    exists [DescribeSecurityGroups i; DescribeNetworkInterfaces i].
    destruct (ec2_delete_security_group w i) as [[e|[]] w'];
      split; try reflexivity; repeat constructor.
Qed.

(** A [try] block either stops at its state check (with a refusal, an error
    or, in a dry run, [dry_run_ok]) after reads only, or the target passes
    the check in execute mode. *)
Lemma try_outcome_stops_or_passes (k : action_kind) (dry_run : bool) (i : string) (w : W) :
  (∃ r reads,
     try_outcome k dry_run i w = (r, reads, w) ∧
     Forall (λ c, mutating c = false ∧ call_target c = i) reads ∧
     ((∃ e, r = inl e) ∨ (∃ tag, r = inr tag ∧ refusal_tag k tag) ∨
      (dry_run = true ∧ r = inr "dry_run_ok" ∧ passes_validation k w i))) ∨
  (dry_run = false ∧ passes_validation k w i).
Proof.
  destruct k; cbn -[String.eqb String.append]; unfold instance_state, volume_state.
  - destruct (ec2_describe_instances w i) as [e|[|r l]];
      [| |destruct (Instances r) as [|inst l'];
          [|destruct (String.eqb_spec (State_Name inst) "stopped");
            [|destruct dry_run]]];
      try (left; eexists _, _; split; [reflexivity|]; split; [repeat constructor|];
           eauto 10; fail).
    right. eauto.
  - destruct (ec2_describe_instances w i) as [e|[|r l]];
      [| |destruct (Instances r) as [|inst l'];
          [|destruct (String.eqb_spec (State_Name inst) "running");
            [|destruct dry_run]]];
      try (left; eexists _, _; split; [reflexivity|]; split; [repeat constructor|];
           eauto 10; fail).
    right. eauto.
  - destruct dry_run; [left|right; auto].
    eexists _, _; split; [reflexivity|]; split; [constructor|]. auto.
  - destruct (ec2_describe_volumes w i) as [e|[|vol l]];
      [| |destruct (String.eqb_spec (State vol) "available") as [Heq|Hne];
          [destruct dry_run|]];
      try (left; eexists _, _; split; [reflexivity|]; split; [repeat constructor|];
           cbn [refusal_tag]; rewrite ?Heq; eauto 10; fail).
    right. rewrite Heq. auto.
  - destruct (ec2_describe_addresses w i) as [e|[|addr0 l]];
      [| |destruct (AssociationId addr0) as [assoc|] eqn:Hassoc; cbn;
          [|destruct dry_run]];
      try (left; eexists _, _; split; [reflexivity|]; split; [repeat constructor|];
           cbn [refusal_tag]; eauto 10; fail).
    right. eauto.
  - destruct (ec2_describe_security_groups w i) as [e|[|g0 l]];
      [| |destruct (String.eqb_spec (GroupName g0) "default");
          [|destruct (ec2_describe_network_interfaces w i) as [e|[|eni l']];
            [|destruct dry_run|]]];
      try (left; eexists _, _; split; [reflexivity|]; split; [repeat constructor|];
           cbn [refusal_tag]; eauto 10; fail).
    right. eauto 10.
Qed.

(** What one iteration may append and call, whatever the flag. *)
Lemma try_outcome_shape (k : action_kind) (dry_run : bool) (i : string) (w : W) :
  ∃ r cs w',
    try_outcome k dry_run i w = (r, cs, w') ∧
    (tag_of r = "dry_run_ok" ∧ dry_run = true ∨
     tag_of r = success_tag k ∧ dry_run = false ∨
     refusal_tag k (tag_of r) ∨ error_tag (tag_of r)) ∧
    Forall (λ c, call_target c = i ∧
                 (mutating c = true → dry_run = false ∧ c = mutation k i)) cs ∧
    (length (mutations cs) ≤ 1)%nat.
Proof.
  destruct (try_outcome_stops_or_passes k dry_run i w)
    as [(r & reads & Hout & Hreads & Hr)|[-> Hpass]].
  - exists r, reads, w. split; [exact Hout|]. split; [|split].
    + destruct Hr as [[e ->]|[(tag & -> & Href)|(-> & -> & _)]]; cbn [tag_of]; auto.
      right; right; right. now exists e.
    + eapply Forall_impl; [exact Hreads|]. intros c [Hc ->]. split; [reflexivity|].
      rewrite Hc. discriminate.
    + assert (Hnone : mutations reads = []).
      { clear Hout Hr. induction Hreads as [|c l [Hc _] _ IH]; [reflexivity|].
        unfold mutations in *. cbn. now rewrite Hc. }
      rewrite Hnone. cbn. lia.
  - destruct (try_outcome_execute k i w Hpass) as (reads & Hout & Hreads).
    eexists _, _, _. split; [exact Hout|]. split; [|split].
    + destruct (mutate k w i).1 as [e|[]]; cbn [tag_of]; auto.
      right; right; right. now exists e.
    + apply Forall_app. split.
      * eapply Forall_impl; [exact Hreads|]. intros c [Hc ->]. split; [reflexivity|].
        rewrite Hc. discriminate.
      * constructor; [|constructor]. split; [now destruct k|auto].
    + assert (Hnone : mutations reads = []).
      { clear Hout. induction Hreads as [|c l [Hc _] _ IH]; [reflexivity|].
        unfold mutations in *. cbn. now rewrite Hc. }
      unfold mutations in *. rewrite List.filter_app, Hnone. cbn.
      destruct (mutating (mutation k i)); cbn; lia.
Qed.

Lemma run_shape (k : action_kind) (dry_run : bool) (ids : list string) (w : W) :
  ∃ rs cs w',
    run k dry_run ids w = (rs, cs, w') ∧
    map fst rs = ids ∧
    Forall (λ it, it.2 = "dry_run_ok" ∧ dry_run = true ∨
                  it.2 = success_tag k ∧ dry_run = false ∨
                  refusal_tag k it.2 ∨ error_tag it.2) rs ∧
    Forall (λ c, call_target c ∈ ids ∧
                 (mutating c = true → dry_run = false ∧ c = mutation k (call_target c))) cs ∧
    (length (mutations cs) ≤ length ids)%nat.
Proof.
  revert w. induction ids as [|i ids IH]; intros w; cbn [run].
  - exists [], [], w. repeat split; try constructor.
  - destruct (try_outcome_shape k dry_run i w) as (r & cs1 & w1 & -> & Hr & Hcs1 & Hm1).
    destruct (IH w1) as (rs & cs2 & w2 & -> & Hkeys & Hrs & Hcs2 & Hm2).
    eexists _, _, _. split; [reflexivity|]. cbn [map fst]. rewrite Hkeys.
    split; [reflexivity|]. split; [now constructor|]. split.
    + apply Forall_app. split.
      * eapply Forall_impl; [exact Hcs1|]. intros c [Hc Hm]. split.
        -- rewrite Hc. apply elem_of_cons. now left.
        -- rewrite Hc. exact Hm.
      * eapply Forall_impl; [exact Hcs2|]. intros c [Hc Hm]. split; [|exact Hm].
        apply elem_of_cons. now right.
    + unfold mutations in *. rewrite List.filter_app, length_app. cbn [length]. lia.
Qed.

(** X1.  In execute mode, when the [n]-th target of a request passes the
    state check of the action (in the cloud the request has reached by
    then), the mutating call of the action is issued for it, once, after
    the reads of the check; the entry is the tag of success when the call
    returns and [error:] with its message when it raises; and the account
    is the one that call leaves. *)
Theorem passing_target_is_executed (k : action_kind) (ids : list string) (c : cloud W)
    (n : nat) (i : string) :
  ids !! n = Some i →
  let cn := cloud_at k ids false c n in
  passes_validation k (world cn) i →
  ∃ rs c' reads,
    cleanup_function k ids false c = (inr (Resp (action_name k) ids rs), c') ∧
    rs !! n = Some (i, match (mutate k (world cn) i).1 with
                       | inr _ => success_tag k
                       | inl e => "error:" +:+ e
                       end) ∧
    Forall (λ c, mutating c = false ∧ call_target c = i) reads ∧
    cloud_at k ids false c (S n) =
      Cloud (mutate k (world cn) i).2 (calls cn ++ reads ++ [mutation k i]).
Proof.
  intros Hn cn Hpass.
  destruct (cleanup_function_at k ids false c n i Hn) as (rs & c' & Hf & _ & Hat).
  fold cn in Hat. cbn zeta in Hat.
  destruct (try_outcome_execute k i (world cn) Hpass) as (reads & Hout & Hreads).
  rewrite Hout in Hat. destruct Hat as [Htag Hnext].
  exists rs, c', reads. split; [exact Hf|]. split; [|split; [exact Hreads|exact Hnext]].
  rewrite Htag. now destruct (mutate k (world cn) i).1 as [e|[]].
Qed.

(** X2.  Whatever the request and the flag, a cleanup function returns
    normally, echoes its name and the requested ids, and has one entry per
    target, in order, whose tag is [dry_run_ok] (in a dry run only), the tag
    of success of the action (in execute mode only), a refusal of the state
    check of the action, or [error:] and a message. *)
Theorem results_stay_in_vocabulary (k : action_kind) (ids : list string)
    (dry_run : bool) (c : cloud W) :
  ∃ rs c',
    cleanup_function k ids dry_run c = (inr (Resp (action_name k) ids rs), c') ∧
    map fst rs = ids ∧
    Forall (λ it, it.2 = "dry_run_ok" ∧ dry_run = true ∨
                  it.2 = success_tag k ∧ dry_run = false ∨
                  refusal_tag k it.2 ∨ error_tag it.2) rs.
Proof.
  rewrite cleanup_function_run.
  destruct (run_shape k dry_run ids (world c)) as (rs & cs & w' & -> & Hkeys & Hrs & _).
  eexists _, _. split; [reflexivity|]. now split.
Qed.

(** X3.  Every call a cleanup function issues is about a target of the
    request; a mutating call is only issued in execute mode and is the
    mutating call of the action itself; and there are at most as many
    mutating calls as targets. *)
Theorem calls_stay_within_the_request (k : action_kind) (ids : list string)
    (dry_run : bool) (c : cloud W) :
  ∃ resp c' cs,
    cleanup_function k ids dry_run c = (inr resp, c') ∧
    calls c' = calls c ++ cs ∧
    Forall (λ call, call_target call ∈ ids ∧
                    (mutating call = true →
                       dry_run = false ∧ call = mutation k (call_target call))) cs ∧
    (length (mutations cs) ≤ length ids)%nat.
Proof.
  rewrite cleanup_function_run.
  destruct (run_shape k dry_run ids (world c)) as (rs & cs & w' & -> & _ & _ & Hcs & Hm).
  eexists _, _, cs. split; [reflexivity|]. now split.
Qed.

Lemma run_terminate_dry (ids : list string) (w : W) :
  run Terminate true ids w = (map (λ i, (i, "dry_run_ok")) ids, [], w).
Proof.
  induction ids as [|i ids IH]; [reflexivity|]. cbn [run try_outcome]. now rewrite IH.
Qed.

Lemma run_terminate_execute (ids : list string) (w : W) :
  ∃ rs w',
    run Terminate false ids w = (rs, map TerminateInstances ids, w') ∧
    map fst rs = ids ∧
    Forall (λ it, it.2 = "terminate_requested" ∨ error_tag it.2) rs.
Proof.
  revert w. induction ids as [|i ids IH]; intros w.
  - exists [], w. repeat split; constructor.
  - cbn [run try_outcome]. unfold write_outcome.
    destruct (ec2_terminate_instances w i) as [r w1].
    destruct (IH w1) as (rs & w' & -> & Hkeys & Hrs).
    eexists _, _. split; [reflexivity|]. cbn [map fst]. rewrite Hkeys.
    split; [reflexivity|]. constructor; [|exact Hrs].
    destruct r as [e|[]]; cbn; [right; now exists e|now left].
Qed.

(** X4.  [terminate_instances] has no state check.  In a dry run every
    target gets [dry_run_ok] and the client is not called at all, not even
    to read; in execute mode the calls are one [terminate_instances] per
    target, in order, and nothing else, whatever the state of the
    instances, and each entry is [terminate_requested] or an error. *)
Theorem terminate_checks_no_state (ids : list string) (c : cloud W) :
  terminate_instances ids true c =
    (inr (Resp "terminate_instances" ids (map (λ i, (i, "dry_run_ok")) ids)), c) ∧
  ∃ rs c',
    terminate_instances ids false c = (inr (Resp "terminate_instances" ids rs), c') ∧
    calls c' = calls c ++ map TerminateInstances ids ∧
    map fst rs = ids ∧
    Forall (λ it, it.2 = "terminate_requested" ∨ error_tag it.2) rs.
Proof.
  split.
  - change (terminate_instances ids true c) with (cleanup_function Terminate ids true c).
    rewrite cleanup_function_run, run_terminate_dry. destruct c as [w cs].
    cbn [world calls action_name]. now rewrite app_nil_r.
  - change (terminate_instances ids false c) with (cleanup_function Terminate ids false c).
    rewrite cleanup_function_run.
    destruct (run_terminate_execute ids (world c)) as (rs & w' & -> & Hkeys & Hrs).
    eexists _, _. split; [reflexivity|]. now split.
Qed.

(** X5.  A request for the targets [l1 ++ l2] does what a request for [l1]
    followed by a request for [l2] does: the same entries, in the same
    order, the same calls and the same account at the end. *)
Theorem batch_splits_into_requests (k : action_kind) (l1 l2 : list string)
    (dry_run : bool) (c : cloud W) :
  ∃ rs1 c1 rs2 c2,
    cleanup_function k l1 dry_run c = (inr (Resp (action_name k) l1 rs1), c1) ∧
    cleanup_function k l2 dry_run c1 = (inr (Resp (action_name k) l2 rs2), c2) ∧
    cleanup_function k (l1 ++ l2) dry_run c =
      (inr (Resp (action_name k) (l1 ++ l2) (rs1 ++ rs2)), c2).
Proof.
  rewrite !cleanup_function_run, run_app.
  destruct (run k dry_run l1 (world c)) as [[rs1 cs1] w1].
  destruct (run k dry_run l2 w1) as [[rs2 cs2] w2] eqn:Hrun2.
  exists rs1, (Cloud w1 (calls c ++ cs1)), rs2, (Cloud w2 ((calls c ++ cs1) ++ cs2)).
  split; [reflexivity|].
  rewrite cleanup_function_run. cbn [world calls]. rewrite Hrun2.
  split; [reflexivity|]. now rewrite app_assoc.
Qed.

(** What a dry run of one target says about its execution. *)
Lemma try_outcome_preview (k : action_kind) (i : string) (w : W) :
  ∃ r reads,
    try_outcome k true i w = (r, reads, w) ∧
    (tag_of r ≠ "dry_run_ok" → try_outcome k false i w = (r, reads, w)) ∧
    (tag_of r = "dry_run_ok" →
       try_outcome k false i w =
         (match (mutate k w i).1 with inr _ => inr (success_tag k) | inl e => inl e end,
          reads ++ [mutation k i], (mutate k w i).2)).
Proof.
  destruct k; cbn -[String.eqb String.append]; unfold instance_state, volume_state,
    write_outcome.
  - destruct (ec2_describe_instances w i) as [e|[|r l]];
      [| |destruct (Instances r) as [|inst l'];
          [|destruct (State_Name inst =? "stopped")%string]];
      eexists _, _; (split; [reflexivity|]); cbn -[mutate];
      (split; [try reflexivity; try (intros Hne; now destruct Hne)
              |try discriminate]).
    intros _. cbn. now destruct (ec2_stop_instances w i) as [[e|[]] w'].
  - destruct (ec2_describe_instances w i) as [e|[|r l]];
      [| |destruct (Instances r) as [|inst l'];
          [|destruct (State_Name inst =? "running")%string]];
      eexists _, _; (split; [reflexivity|]); cbn -[mutate];
      (split; [try reflexivity; try (intros Hne; now destruct Hne)
              |try discriminate]).
    intros _. cbn. now destruct (ec2_start_instances w i) as [[e|[]] w'].
  - eexists _, _; (split; [reflexivity|]); cbn -[mutate];
      (split; [intros Hne; now destruct Hne|]).
    intros _. cbn. now destruct (ec2_terminate_instances w i) as [[e|[]] w'].
  - destruct (ec2_describe_volumes w i) as [e|[|vol l]];
      [| |destruct (State vol =? "available")%string];
      eexists _, _; (split; [reflexivity|]); cbn -[mutate];
      (split; [try reflexivity; try (intros Hne; now destruct Hne)
              |try discriminate]).
    intros _. cbn. now destruct (ec2_delete_volume w i) as [[e|[]] w'].
  - destruct (ec2_describe_addresses w i) as [e|[|addr0 l]];
      [| |destruct (bool_decide (is_Some (AssociationId addr0)))];
      eexists _, _; (split; [reflexivity|]); cbn -[mutate];
      (split; [try reflexivity; try (intros Hne; now destruct Hne)
              |try discriminate]).
    intros _. cbn. now destruct (ec2_release_address w i) as [[e|[]] w'].
  - destruct (ec2_describe_security_groups w i) as [e|[|g0 l]];
      [| |destruct (GroupName g0 =? "default")%string;
          [|destruct (ec2_describe_network_interfaces w i) as [e|[|eni l']]]];
      eexists _, _; (split; [reflexivity|]); cbn -[mutate];
      (split; [try reflexivity; try (intros Hne; now destruct Hne)
              |try discriminate]).
    intros _. cbn. now destruct (ec2_delete_security_group w i) as [[e|[]] w'].
Qed.

(** X6.  A dry run of one target predicts its execution in the same
    account.  The dry run changes nothing and issues reads only.  When its
    entry is not [dry_run_ok], the execution has the same entry after the
    same reads and mutates nothing; when it is [dry_run_ok], the execution
    does the same reads, then issues the mutating call of the action, and
    its entry is the tag of success or the error of that call. *)
Theorem dry_run_previews_execution (k : action_kind) (i : string) (c : cloud W) :
  ∃ tag reads,
    cleanup_function k [i] true c =
      (inr (Resp (action_name k) [i] [(i, tag)]), Cloud (world c) (calls c ++ reads)) ∧
    Forall (λ c, mutating c = false) reads ∧
    (tag ≠ "dry_run_ok" →
       cleanup_function k [i] false c =
         (inr (Resp (action_name k) [i] [(i, tag)]), Cloud (world c) (calls c ++ reads))) ∧
    (tag = "dry_run_ok" →
       cleanup_function k [i] false c =
         (inr (Resp (action_name k) [i]
                 [(i, match (mutate k (world c) i).1 with
                      | inr _ => success_tag k
                      | inl e => "error:" +:+ e
                      end)]),
          Cloud (mutate k (world c) i).2 (calls c ++ reads ++ [mutation k i]))).
Proof.
  destruct (try_outcome_preview k i (world c)) as (r & reads & Hdry & Hsame & Hok).
  assert (Hreads : Forall (λ c, mutating c = false) reads).
  { destruct (try_outcome_dry k i (world c)) as (r' & cs' & Hdry' & Hcs' & _).
    rewrite Hdry in Hdry'. now injection Hdry' as <- <-. }
  exists (tag_of r), reads. rewrite !cleanup_function_run. cbn [run].
  rewrite Hdry, app_nil_r. split; [reflexivity|]. split; [exact Hreads|]. split.
  - intros Hne. rewrite (Hsame Hne). now rewrite app_nil_r.
  - intros Heq. rewrite (Hok Heq). rewrite app_nil_r.
    now destruct (mutate k (world c) i).1 as [e|[]].
Qed.

(** X7.  A dry run can be repeated: run again on the cloud it left, the same
    request gets the same entries, and the account is still the one before
    the first run.  Each entry of the batch is the entry that a dry run of
    its target alone gets in that account. *)
Theorem dry_run_report_is_repeatable (k : action_kind) (ids : list string) (c : cloud W) :
  ∃ rs c1 c2,
    cleanup_function k ids true c = (inr (Resp (action_name k) ids rs), c1) ∧
    cleanup_function k ids true c1 = (inr (Resp (action_name k) ids rs), c2) ∧
    world c1 = world c ∧ world c2 = world c ∧
    ∀ n i, ids !! n = Some i →
      ∃ tag c3,
        rs !! n = Some (i, tag) ∧
        cleanup_function k [i] true c = (inr (Resp (action_name k) [i] [(i, tag)]), c3).
Proof.
  destruct (run_dry k ids (world c)) as (rs & cs & Hrun & Hkeys & _).
  exists rs, (Cloud (world c) (calls c ++ cs)), (Cloud (world c) ((calls c ++ cs) ++ cs)).
  rewrite !cleanup_function_run. cbn [world calls]. rewrite Hrun.
  do 4 (split; [reflexivity|]).
  intros n i Hn.
  destruct (cleanup_function_at k ids true c n i Hn) as (rs' & c' & Hf & _ & Hat).
  rewrite cleanup_function_run, Hrun in Hf. injection Hf as <- _.
  cbn zeta in Hat.
  assert (Hw : world (cloud_at k ids true c n) = world c).
  { unfold cloud_at. rewrite cleanup_function_run.
    destruct (run_dry k (take n ids) (world c)) as (rs1 & cs1 & -> & _). reflexivity. }
  rewrite Hw in Hat.
  destruct (try_outcome k true i (world c)) as [[r cs1] w1] eqn:Hout.
  destruct Hat as [Htag _].
  exists (tag_of r). eexists. split; [exact Htag|].
  rewrite cleanup_function_run. cbn [run]. now rewrite Hout.
Qed.

End Outcomes.

Section HandlerExtras.
Context {W D : Type} `{Ec2Client W} `{LogTable D} `{Clock}.

(** X8.  When the action of a request is the name of one of the six
    functions, the handler calls that function on the id list found under
    the key of the action ([instance_ids], [volume_ids], [allocation_ids] or
    [group_ids], an absent key counting as the empty list) with the dry-run
    flag of the request (true when absent); the [details] of the result are
    what the function returned, the cloud is the one it left, and the
    [error] field is not set, whatever the entries of the targets are. *)
Theorem known_action_is_dispatched (k : action_kind) (event : event) (s : sys W D) :
  ev_action event = Some (action_name k) →
  ∃ resp c' s',
    cleanup_function k (target_ids k event) (default true (ev_dry_run event)) (ec2 s) =
      (inr resp, c') ∧
    lambda_handler event s =
      (inr (Response 200
              (MkResult (ev_action event) (isoformat (utcnow_at (ticks s)))
                        (default true (ev_dry_run event)) (Some resp) None)),
       s') ∧
    ec2 s' = c'.
Proof.
  intros Hact. assert (Heq := lambda_handler_eq event s). cbn zeta in Heq.
  rewrite Hact, kind_of_action_name in Heq. rewrite <- Hact in Heq.
  rewrite cleanup_function_run.
  destruct (run k (default true (ev_dry_run event)) (target_ids k event) (world (ec2 s)))
    as [[rs cs] w'].
  eexists _, _, _. split; [reflexivity|]. split; [exact Heq|]. reflexivity.
Qed.

(** X9.  Every request, known action or not, is logged once: the handler
    reads the clock three times and calls [put_item] on the log table once,
    with an item that holds the action, the dry-run flag and the very result
    that is returned to the caller; its [ActionId] is the action, a dash and
    the second reading of the clock, and its [Timestamp] is the third
    reading, while the timestamp of the result is the first. *)
Theorem every_request_is_logged_once (event : event) (s : sys W D) :
  ∃ response s' item,
    lambda_handler event s = (inr response, s') ∧
    logdb s' = (table_put_item (logdb s) item).2 ∧
    Result item = body response ∧
    Action item = ev_action event ∧
    DryRun item = default true (ev_dry_run event) ∧
    ActionId item =
      py_str (ev_action event) +:+ "-" +:+ isoformat (utcnow_at (S (ticks s))) ∧
    Timestamp item = isoformat (utcnow_at (S (S (ticks s)))) ∧
    r_timestamp (body response) = isoformat (utcnow_at (ticks s)) ∧
    ticks s' = (3 + ticks s)%nat.
Proof.
  assert (Heq := lambda_handler_eq event s). cbn zeta in Heq.
  destruct (kind_of_action (ev_action event)) as [k|].
  - destruct (run k (default true (ev_dry_run event)) (target_ids k event) (world (ec2 s)))
      as [[rs cs] w'].
    eexists _, _, _. split; [exact Heq|]. repeat split.
  - eexists _, _, _. split; [exact Heq|]. repeat split.
Qed.

(** X10.  A request for a known action whose own id list is absent or empty
    succeeds with an empty list of results and calls the client not at all,
    also when ids are given under the key of another action. *)
Theorem request_without_targets (k : action_kind) (event : event) (s : sys W D) :
  ev_action event = Some (action_name k) →
  target_ids k event = [] →
  ∃ result s',
    lambda_handler event s = (inr (Response 200 result), s') ∧
    r_details result = Some (Resp (action_name k) [] []) ∧
    r_error result = None ∧
    ec2 s' = ec2 s.
Proof.
  intros Hact Hids. assert (Heq := lambda_handler_eq event s). cbn zeta in Heq.
  rewrite Hact, kind_of_action_name, Hids in Heq. cbn [run] in Heq.
  eexists _, _. split; [exact Heq|]. cbn. repeat split.
  destruct (ec2 s) as [w cs]. cbn. now rewrite app_nil_r.
Qed.

End HandlerExtras.

(** *** The theorems on the simulated account *)

Lemma passing_target_is_executed_witness :
  volume_batch !! 0%nat = Some "vol-2" ∧
  passes_validation DeleteVolumes
    (world (cloud_at DeleteVolumes volume_batch false sim_cloud 0)) "vol-2" ∧
  ∃ rs c',
    delete_volumes volume_batch false sim_cloud =
      (inr (Resp "delete_volumes" volume_batch rs), c') ∧
    rs !! 0%nat = Some ("vol-2", "deleted") ∧
    cloud_at DeleteVolumes volume_batch false sim_cloud 1 =
      Cloud (ec2_delete_volume sim_account "vol-2").2
            [DescribeVolumes "vol-2"; DeleteVolume "vol-2"].
Proof.
  assert (H1 : volume_batch !! 0%nat = Some "vol-2") by reflexivity.
  assert (H2 : passes_validation DeleteVolumes
                 (world (cloud_at DeleteVolumes volume_batch false sim_cloud 0)) "vol-2")
    by (vm_compute; reflexivity).
  split; [exact H1|]. split; [exact H2|].
  destruct (passing_target_is_executed DeleteVolumes volume_batch sim_cloud 0 "vol-2"
              H1 H2) as (rs & c' & reads & Hf & Hn & _ & _).
  exists rs, c'. split; [exact Hf|]. split; [exact Hn|]. vm_compute. reflexivity.
Defined.

Example execute_volumes_on_sim_account :
  (lambda_handler execute_volumes_request sim_sys).1 =
    inr (Response 200
           (MkResult (Some "delete_volumes") "1970-01-01T00:00:0" false
              (Some (Resp "delete_volumes" ["vol-2"; "vol-1"]
                       [("vol-2", "deleted"); ("vol-1", "not_available_state:in-use")]))
              None)).
Proof. vm_compute. reflexivity. Qed.

Lemma known_action_is_dispatched_witness :
  ev_action execute_volumes_request = Some (action_name DeleteVolumes) ∧
  ∃ resp c' s',
    delete_volumes ["vol-2"; "vol-1"] false sim_cloud = (inr resp, c') ∧
    lambda_handler execute_volumes_request sim_sys =
      (inr (Response 200
              (MkResult (Some "delete_volumes") "1970-01-01T00:00:0" false
                        (Some resp) None)),
       s') ∧
    ec2 s' = c'.
Proof.
  split; [reflexivity|].
  exact (known_action_is_dispatched DeleteVolumes execute_volumes_request sim_sys
           eq_refl).
Defined.

Lemma request_without_targets_witness :
  ev_action misfiled_request = Some (action_name DeleteVolumes) ∧
  target_ids DeleteVolumes misfiled_request = [] ∧
  ∃ result s',
    lambda_handler misfiled_request sim_sys = (inr (Response 200 result), s') ∧
    r_details result = Some (Resp "delete_volumes" [] []) ∧
    r_error result = None ∧
    ec2 s' = ec2 sim_sys.
Proof.
  split; [reflexivity|]. split; [reflexivity|].
  exact (request_without_targets DeleteVolumes misfiled_request sim_sys
           eq_refl eq_refl).
Defined.

End CleanupExtras.

(** ** Further properties of the detection Lambda *)

Module DetectExtras.
Import Detect DetectProofs.
Import PrimFloat SpecFloat FloatOps.
Local Open Scope list_scope.

Section Body.
Context {W : Type} `{Provider W} `{Clock}.

(** X11.  When one of the three metric queries of an instance raises, the
    instance gets no verdict and the scan goes on: the loop body returns
    normally, both lists, the table and the account are as before, the
    queries after the failing one are not issued, and nothing is tagged or
    written. *)
Theorem failed_query_gives_no_verdict (timestamp : string) (inst : instance)
    (f : scan W) (m : nat) (e : exn) :
  ¬ opted_out inst →
  let end_time := utcnow_at (ticks (env f)) in
  query_failures (world (env f)) inst end_time !! m = Some (Some e) →
  (∀ j, (j < m)%nat → query_failures (world (env f)) inst end_time !! j = Some None) →
  ∃ f',
    scan_instance timestamp inst f = (inr tt, f') ∧
    analyzed_instances f' = analyzed_instances f ∧
    idle_instances f' = idle_instances f ∧
    table (env f') = table (env f) ∧
    world (env f') = world (env f) ∧
    ticks (env f') = S (ticks (env f)) ∧
    calls (env f') = calls (env f) ++ take (S m) (metric_queries inst end_time).
Proof.
  intros Hin end_time Hm Hbefore.
  rewrite (scan_instance_unanswered timestamp inst f m e Hin Hm Hbefore).
  eexists. split; [reflexivity|]. repeat split.
Qed.

(** X12.  Only an idle instance is tagged.  For an instance whose queries
    are answered, with network totals that [int()] converts: when its
    status is [Idle], [create_tags] is called once, on that instance, with
    the tags [CostOptimization=CandidateForStop] and
    [IdleDetectedAt=timestamp], before the write to the table, and whether
    that call returns or raises the entry is in both lists and its item is
    written; when its status is not [Idle], nothing is tagged and the entry
    is not added to [idle_instances]. *)
Theorem only_idle_instances_are_tagged (timestamp : string) (inst : instance)
    (f : scan W) (cpu : list cpu_datapoint) (netin netout : list net_datapoint) :
  ¬ opted_out inst →
  let end_time := utcnow_at (ticks (env f)) in
  let start_time := (end_time - timedelta_minutes EVALUATION_MINUTES)%Z in
  cloudwatch_cpu (world (env f)) (id inst) start_time end_time = inr cpu →
  cloudwatch_network_in (world (env f)) (id inst) start_time end_time = inr netin →
  cloudwatch_network_out (world (env f)) (id inst) start_time end_time = inr netout →
  (cpu ≠ [] → window_is_finite netin netout = true) →
  ∃ info f' cs,
    scan_instance timestamp inst f = (inr tt, f') ∧
    analyzed_instances f' = analyzed_instances f ++ [info] ∧
    calls (env f') = calls (env f) ++ metric_queries inst end_time ++ cs ∧
    (Status info = Some "Idle" →
       ∃ it,
         cs = [CreateTags (id inst)
                 [("CostOptimization", "CandidateForStop"); ("IdleDetectedAt", timestamp)];
               PutItem it] ∧
         item_Status it = Some "Idle" ∧
         idle_instances f' = idle_instances f ++ [info]) ∧
    (Status info ≠ Some "Idle" →
       created_tags cs = [] ∧ idle_instances f' = idle_instances f).
Proof.
  intros Hin end_time start_time Hcpu Hnetin Hnetout Hfin.
  rewrite (scan_instance_run timestamp inst f cpu netin netout Hin Hcpu Hnetin Hnetout).
  unfold analyzed_state. fold end_time.
  destruct cpu as [|dp cpu].
  - eexists _, _, []. split; [reflexivity|].
    cbn [idle_instances analyzed_instances env calls]. rewrite app_nil_r.
    do 2 (split; [reflexivity|]). split; [discriminate|]. now intros _.
  - rewrite Hfin by discriminate.
    set (info := entry_of timestamp inst (dp :: cpu) netin netout).
    set (it := record_of timestamp inst (dp :: cpu) netin netout).
    assert (Hst : Status info = Some (if is_idle (dp :: cpu) netin netout
                                      then "Idle" else "Active"))
      by apply entry_of_status.
    assert (Hist : item_Status it = Status info) by reflexivity.
    eexists info, _, _. split; [reflexivity|].
    cbn [idle_instances analyzed_instances env calls].
    do 2 (split; [reflexivity|]). rewrite Hst.
    destruct (is_idle (dp :: cpu) netin netout); split.
    + intros _. exists it. rewrite Hist, Hst. now repeat split.
    + intros Hne. now destruct Hne.
    + discriminate.
    + intros _. now split.
Qed.

(** X13.  The record agrees with the entry.  For an instance with CPU
    datapoints and network totals that [int()] converts, the item written
    to the table and the entry returned in the summary have the same id,
    type, launch time, region, tags, status, recommendation and timestamp
    (the one of the scan).  The CPU figures of the item are the decimals
    spelled by the text of the floats that the entry holds, which are the
    average and the maximum rounded to two places.  The network figures of
    the item are the decimals spelled by the text of the three totals as the
    code computed them, the third being the Python sum of the first two, and
    the entry holds [int()] of these same three numbers.  The recommendation
    is the one of the status. *)
Theorem record_agrees_with_entry (timestamp : string) (inst : instance)
    (f : scan W) (cpu : list cpu_datapoint) (netin netout : list net_datapoint) :
  ¬ opted_out inst →
  let end_time := utcnow_at (ticks (env f)) in
  let start_time := (end_time - timedelta_minutes EVALUATION_MINUTES)%Z in
  cloudwatch_cpu (world (env f)) (id inst) start_time end_time = inr cpu →
  cloudwatch_network_in (world (env f)) (id inst) start_time end_time = inr netin →
  cloudwatch_network_out (world (env f)) (id inst) start_time end_time = inr netout →
  cpu ≠ [] →
  window_is_finite netin netout = true →
  ∃ info it f' cs avg max total_in total_out bytes_in bytes_out bytes_total,
    scan_instance timestamp inst f = (inr tt, f') ∧
    analyzed_instances f' = analyzed_instances f ++ [info] ∧
    calls (env f') = calls (env f) ++ cs ∧
    put_items cs = [it] ∧
    item_InstanceId it = InstanceId info ∧
    item_InstanceType it = InstanceType info ∧
    item_LaunchTime it = LaunchTime info ∧
    item_Region it = Region info ∧
    item_Tags it = Tags info ∧
    item_Status it = Status info ∧
    item_Recommendation it = Recommendation info ∧
    EvaluationTimestamp info = Some (item_EvaluationTimestamp it) ∧
    item_EvaluationTimestamp it = timestamp ∧
    avg = round2 (window_avg_cpu cpu) ∧
    AvgCPU info = Some avg ∧ item_AvgCPU it = Decimal_str (PyFloat avg) ∧
    MaxCPU info = Some max ∧ item_MaxCPU it = Decimal_str (PyFloat max) ∧
    total_in = py_sum (map Sum netin) ∧
    total_out = py_sum (map Sum netout) ∧
    item_NetworkInBytes it = Decimal_str total_in ∧
    item_NetworkOutBytes it = Decimal_str total_out ∧
    item_TotalNetworkBytes it = Decimal_str (py_add total_in total_out) ∧
    int_of total_in = inr bytes_in ∧ NetworkInBytes info = Some bytes_in ∧
    int_of total_out = inr bytes_out ∧ NetworkOutBytes info = Some bytes_out ∧
    int_of (py_add total_in total_out) = inr bytes_total ∧
    TotalNetworkBytes info = Some bytes_total ∧
    (Status info = Some "Idle" ∧ Recommendation info = Some "Consider stopping instance" ∨
     Status info = Some "Active" ∧ Recommendation info = Some "Keep running").
Proof.
  intros Hin end_time start_time Hcpu Hnetin Hnetout Hne Hfin.
  rewrite (scan_instance_run timestamp inst f cpu netin netout Hin Hcpu Hnetin Hnetout).
  unfold analyzed_state. fold end_time.
  destruct cpu as [|dp cpu]; [now destruct Hne|].
  rewrite Hfin.
  unfold window_is_finite in Hfin.
  apply andb_true_iff in Hfin as [Hfin Htotal].
  apply andb_true_iff in Hfin as [Hnin Hnout].
  apply int_of_returns in Hnin, Hnout, Htotal.
  exists (entry_of timestamp inst (dp :: cpu) netin netout),
         (record_of timestamp inst (dp :: cpu) netin netout).
  eexists _, _.
  exists (round2 (window_avg_cpu (dp :: cpu))), (round2 (window_max_cpu (dp :: cpu))),
         (py_sum (map Sum netin)), (py_sum (map Sum netout)),
         (int_value (py_sum (map Sum netin))), (int_value (py_sum (map Sum netout))),
         (int_value (window_total_network netin netout)).
  split; [reflexivity|].
  cbn [idle_instances analyzed_instances env calls].
  do 2 (split; [reflexivity|]).
  split.
  { unfold put_items, metric_queries. rewrite !omap_app. cbn [omap app].
    now destruct (is_idle (dp :: cpu) netin netout). }
  unfold record_of, entry_of.
  cbn [item_InstanceId item_InstanceType item_LaunchTime item_Region item_Tags
       item_Status item_Recommendation item_EvaluationTimestamp item_AvgCPU item_MaxCPU
       item_NetworkInBytes item_NetworkOutBytes item_TotalNetworkBytes].
  destruct (is_idle (dp :: cpu) netin netout);
    cbn [InstanceId InstanceType LaunchTime Region Tags Status Recommendation
         EvaluationTimestamp AvgCPU MaxCPU NetworkInBytes NetworkOutBytes
         TotalNetworkBytes set_status set_metrics initial_info];
    repeat (split; [first [reflexivity | assumption]|]); auto.
Qed.

(** X14.  What an entry says about its instance.  The entry has the id, the
    type and the launch time of the instance, its tags as a dict, and as
    region the availability zone without its last character, so the zone
    [r] followed by one letter gives the region [r].  An entry with the
    status [NoData] has none of the metric keys, and its recommendation is
    [Enable detailed monitoring]. *)
Theorem entry_describes_instance (timestamp : string) (inst : instance)
    (f : scan W) (cpu : list cpu_datapoint) (netin netout : list net_datapoint) :
  ¬ opted_out inst →
  let end_time := utcnow_at (ticks (env f)) in
  let start_time := (end_time - timedelta_minutes EVALUATION_MINUTES)%Z in
  cloudwatch_cpu (world (env f)) (id inst) start_time end_time = inr cpu →
  cloudwatch_network_in (world (env f)) (id inst) start_time end_time = inr netin →
  cloudwatch_network_out (world (env f)) (id inst) start_time end_time = inr netout →
  (cpu ≠ [] → window_is_finite netin netout = true) →
  ∃ info f',
    scan_instance timestamp inst f = (inr tt, f') ∧
    analyzed_instances f' = analyzed_instances f ++ [info] ∧
    InstanceId info = id inst ∧
    InstanceType info = instance_type inst ∧
    LaunchTime info = launch_time inst ∧
    Tags info = tags_dict (default [] (tags inst)) ∧
    (∀ r c, placement_AvailabilityZone inst = r +:+ String c EmptyString →
            Region info = r) ∧
    (placement_AvailabilityZone inst = EmptyString → Region info = EmptyString) ∧
    (Status info = Some "NoData" →
       cpu = [] ∧
       Recommendation info = Some "Enable detailed monitoring" ∧
       AvgCPU info = None ∧ MaxCPU info = None ∧ NetworkInBytes info = None ∧
       NetworkOutBytes info = None ∧ TotalNetworkBytes info = None ∧
       EvaluationTimestamp info = None).
Proof.
  intros Hin end_time start_time Hcpu Hnetin Hnetout Hfin.
  rewrite (scan_instance_run timestamp inst f cpu netin netout Hin Hcpu Hnetin Hnetout).
  exists (entry_of timestamp inst cpu netin netout). eexists.
  split; [reflexivity|]. split.
  { now destruct (analyzed_state_verdict timestamp inst f cpu netin netout Hfin). }
  assert (Hdrop : ∀ r c, drop_last (r +:+ String c EmptyString) = r).
  { induction r as [|a r IH]; intros c; [reflexivity|].
    change (String a r +:+ String c EmptyString)
      with (String a (r +:+ String c EmptyString)).
    specialize (IH c).
    destruct (r +:+ String c EmptyString) eqn:Hr.
    - destruct r; discriminate Hr.
    - cbn [drop_last] in *. now rewrite IH. }
  unfold entry_of. destruct cpu as [|dp cpu];
    [|destruct (is_idle (dp :: cpu) netin netout)];
    cbn [InstanceId InstanceType LaunchTime Region Tags Status Recommendation
         EvaluationTimestamp AvgCPU MaxCPU NetworkInBytes NetworkOutBytes
         TotalNetworkBytes set_status set_metrics initial_info];
    (repeat split; try reflexivity; try discriminate;
     try (intros r c ->; apply Hdrop); try (now intros ->)).
Qed.

(** X20.  A window whose network totals [int()] cannot convert gives no
    verdict.  [int()] raises exactly for a float that is an infinity or a
    NaN; when that is the case for the incoming total, the outgoing total or
    their sum, and there are CPU datapoints, the loop body returns normally
    after its three queries, and both lists, the table and the account are
    as before: nothing is tagged and nothing is written. *)
Theorem unconvertible_totals_give_no_verdict (timestamp : string) (inst : instance)
    (f : scan W) (cpu : list cpu_datapoint) (netin netout : list net_datapoint) :
  ¬ opted_out inst →
  let end_time := utcnow_at (ticks (env f)) in
  let start_time := (end_time - timedelta_minutes EVALUATION_MINUTES)%Z in
  cloudwatch_cpu (world (env f)) (id inst) start_time end_time = inr cpu →
  cloudwatch_network_in (world (env f)) (id inst) start_time end_time = inr netin →
  cloudwatch_network_out (world (env f)) (id inst) start_time end_time = inr netout →
  cpu ≠ [] →
  window_is_finite netin netout = false →
  (∃ a x, a ∈ [py_sum (map Sum netin); py_sum (map Sum netout);
               window_total_network netin netout] ∧
          a = PyFloat x ∧
          (Prim2SF x = S754_nan ∨ ∃ s, Prim2SF x = S754_infinity s)) ∧
  ∃ f',
    scan_instance timestamp inst f = (inr tt, f') ∧
    analyzed_instances f' = analyzed_instances f ∧
    idle_instances f' = idle_instances f ∧
    table (env f') = table (env f) ∧
    world (env f') = world (env f) ∧
    ticks (env f') = S (ticks (env f)) ∧
    calls (env f') = calls (env f) ++ metric_queries inst end_time.
Proof.
  intros Hin end_time start_time Hcpu Hnetin Hnetout Hne Hfin.
  split.
  - assert (Hwhy : ∀ a, int_returns a = false →
              ∃ x, a = PyFloat x ∧
                   (Prim2SF x = S754_nan ∨ ∃ s, Prim2SF x = S754_infinity s)).
    { intros [z|x]; unfold int_returns, int_of; [discriminate|].
      destruct (Prim2SF x) as [s|s| |s m e] eqn:Hx; try discriminate; intros _;
        exists x; (split; [reflexivity|]); [right; now exists s|now left]. }
    unfold window_is_finite in Hfin.
    apply andb_false_iff in Hfin as [Hfin|Hfin];
      [apply andb_false_iff in Hfin as [Hfin|Hfin]|];
      destruct (Hwhy _ Hfin) as (x & Hx & Hbad); eexists _, x;
      (split; [|split; [exact Hx|exact Hbad]]).
    + apply elem_of_cons. now left.
    + apply elem_of_cons. right. apply elem_of_cons. now left.
    + apply elem_of_cons. right. apply elem_of_cons. right. apply elem_of_cons. now left.
  - rewrite (scan_instance_run timestamp inst f cpu netin netout Hin Hcpu Hnetin Hnetout).
    unfold analyzed_state. fold end_time.
    destruct cpu as [|dp cpu]; [now destruct Hne|].
    rewrite Hfin. eexists. split; [reflexivity|]. repeat split.
Qed.

End Body.

(** X15.  What the loop body appends and writes depends on the instance, the
    timestamp and the answers to the three metric queries only: with two
    providers, accounts, clocks and tables that return the same datapoints,
    whatever tagging and the write to the table do in each, the entries
    added to [analyzed_instances], the growth of [idle_instances] and the
    items passed to the table are the same; and there is exactly one entry
    when the window reaches a verdict. *)
Theorem verdict_depends_on_metrics_only {W1 W2 : Type}
    (P1 : Provider W1) (P2 : Provider W2) (C1 C2 : Clock)
    (timestamp : string) (inst : instance) (f1 : scan W1) (f2 : scan W2)
    (cpu : list cpu_datapoint) (netin netout : list net_datapoint) :
  ¬ opted_out inst →
  let end1 := utcnow_at (Clock := C1) (ticks (env f1)) in
  let start1 := (end1 - timedelta_minutes EVALUATION_MINUTES)%Z in
  let end2 := utcnow_at (Clock := C2) (ticks (env f2)) in
  let start2 := (end2 - timedelta_minutes EVALUATION_MINUTES)%Z in
  cloudwatch_cpu (Provider := P1) (world (env f1)) (id inst) start1 end1 = inr cpu →
  cloudwatch_network_in (Provider := P1) (world (env f1)) (id inst) start1 end1 = inr netin →
  cloudwatch_network_out (Provider := P1) (world (env f1)) (id inst) start1 end1 = inr netout →
  cloudwatch_cpu (Provider := P2) (world (env f2)) (id inst) start2 end2 = inr cpu →
  cloudwatch_network_in (Provider := P2) (world (env f2)) (id inst) start2 end2 = inr netin →
  cloudwatch_network_out (Provider := P2) (world (env f2)) (id inst) start2 end2 = inr netout →
  ∃ f1' f2' extra more_idle,
    scan_instance (H := P1) (H0 := C1) timestamp inst f1 = (inr tt, f1') ∧
    scan_instance (H := P2) (H0 := C2) timestamp inst f2 = (inr tt, f2') ∧
    analyzed_instances f1' = analyzed_instances f1 ++ extra ∧
    analyzed_instances f2' = analyzed_instances f2 ++ extra ∧
    idle_instances f1' = idle_instances f1 ++ more_idle ∧
    idle_instances f2' = idle_instances f2 ++ more_idle ∧
    put_items (drop (length (calls (env f1))) (calls (env f1'))) =
    put_items (drop (length (calls (env f2))) (calls (env f2'))) ∧
    ((cpu ≠ [] → window_is_finite netin netout = true) → ∃ info, extra = [info]).
Proof.
  intros Hin end1 start1 end2 start2 Hc1 Hi1 Ho1 Hc2 Hi2 Ho2.
  rewrite (scan_instance_run (H := P1) (H0 := C1) timestamp inst f1 cpu netin netout
             Hin Hc1 Hi1 Ho1).
  rewrite (scan_instance_run (H := P2) (H0 := C2) timestamp inst f2 cpu netin netout
             Hin Hc2 Hi2 Ho2).
  exists (analyzed_state (H := P1) (H0 := C1) timestamp inst f1 cpu netin netout),
         (analyzed_state (H := P2) (H0 := C2) timestamp inst f2 cpu netin netout),
         (match cpu with
          | [] => [entry_of timestamp inst cpu netin netout]
          | _ :: _ => if window_is_finite netin netout
                      then [entry_of timestamp inst cpu netin netout] else []
          end),
         (match cpu with
          | [] => []
          | _ :: _ => if window_is_finite netin netout && is_idle cpu netin netout
                      then [entry_of timestamp inst cpu netin netout] else []
          end).
  unfold analyzed_state.
  do 2 (split; [reflexivity|]).
  destruct cpu as [|dp cpu].
  - cbn [idle_instances analyzed_instances env calls]. rewrite !app_nil_r.
    do 4 (split; [reflexivity|]). split; [now rewrite !drop_app_length|eauto].
  - destruct (window_is_finite netin netout); cbn [andb];
      cbn [idle_instances analyzed_instances env calls].
    + do 2 (split; [reflexivity|]).
      destruct (is_idle (dp :: cpu) netin netout); rewrite ?app_nil_r;
        do 2 (split; [reflexivity|]); (split; [now rewrite !drop_app_length|eauto]).
    + rewrite !app_nil_r. do 4 (split; [reflexivity|]).
      split; [now rewrite !drop_app_length|].
      intros Hfin. now specialize (Hfin ltac:(discriminate)).
Qed.

Lemma status_partition (l : list instance_info) :
  Forall status_ok l →
  length l = (length (filter (λ i, Status i = Some "Idle") l) +
              length (filter (λ i, Status i = Some "Active") l) +
              length (filter (λ i, Status i = Some "NoData") l))%nat.
Proof.
  induction 1 as [|info l Hinfo _ IH]; [reflexivity|].
  destruct Hinfo as [Hst|[Hst|Hst]].
  - rewrite (filter_cons_True (λ i, Status i = Some "Idle")) by exact Hst.
    rewrite (filter_cons_False (λ i, Status i = Some "Active"))
      by (rewrite Hst; discriminate).
    rewrite (filter_cons_False (λ i, Status i = Some "NoData"))
      by (rewrite Hst; discriminate).
    cbn [length]. lia.
  - rewrite (filter_cons_False (λ i, Status i = Some "Idle"))
      by (rewrite Hst; discriminate).
    rewrite (filter_cons_True (λ i, Status i = Some "Active")) by exact Hst.
    rewrite (filter_cons_False (λ i, Status i = Some "NoData"))
      by (rewrite Hst; discriminate).
    cbn [length]. lia.
  - rewrite (filter_cons_False (λ i, Status i = Some "Idle"))
      by (rewrite Hst; discriminate).
    rewrite (filter_cons_False (λ i, Status i = Some "Active"))
      by (rewrite Hst; discriminate).
    rewrite (filter_cons_True (λ i, Status i = Some "NoData")) by exact Hst.
    cbn [length]. lia.
Qed.

Lemma tags_dict_snoc (l : list (string * string)) (k v : string) :
  tags_dict (l ++ [(k, v)]) = <[k := v]> (tags_dict l).
Proof. unfold tags_dict. now rewrite fold_left_app. Qed.

Lemma tags_dict_absent (l : list (string * string)) (k : string) :
  k ∉ l.*1 → tags_dict l !! k = None.
Proof.
  induction l as [|[k' v'] l IH] using rev_ind; intros Hk; [reflexivity|].
  rewrite tags_dict_snoc. rewrite fmap_app in Hk. cbn in Hk.
  rewrite lookup_insert_ne.
  - apply IH. intros Hin. apply Hk. apply elem_of_app. now left.
  - intros ->. apply Hk. apply elem_of_app. right. apply list_elem_of_singleton.
    reflexivity.
Qed.

Lemma tags_dict_last (l1 l2 : list (string * string)) (k v : string) :
  k ∉ l2.*1 → tags_dict (l1 ++ (k, v) :: l2) !! k = Some v.
Proof.
  induction l2 as [|[k' v'] l2 IH] using rev_ind; intros Hk.
  - rewrite tags_dict_snoc. apply lookup_insert_eq.
  - rewrite fmap_app in Hk. cbn in Hk.
    change (l1 ++ (k, v) :: l2 ++ [(k', v')]) with (l1 ++ ((k, v) :: l2) ++ [(k', v')]).
    rewrite app_assoc, tags_dict_snoc, lookup_insert_ne.
    + apply IH. intros Hin. apply Hk. apply elem_of_app. now left.
    + intros ->. apply Hk. apply elem_of_app. right. apply list_elem_of_singleton.
      reflexivity.
Qed.

Lemma tags_dict_found (l : list (string * string)) (k v : string) :
  tags_dict l !! k = Some v →
  ∃ l1 l2, l = l1 ++ (k, v) :: l2 ∧ k ∉ l2.*1.
Proof.
  induction l as [|[k' v'] l IH] using rev_ind; intros Hk; [discriminate|].
  rewrite tags_dict_snoc in Hk.
  destruct (decide (k' = k)) as [->|Hne].
  - rewrite lookup_insert_eq in Hk. injection Hk as ->.
    exists l, []. split; [reflexivity|]. apply not_elem_of_nil.
  - rewrite lookup_insert_ne in Hk by exact Hne.
    destruct (IH Hk) as (l1 & l2 & -> & Hl2).
    exists l1, (l2 ++ [(k', v')]). split; [now rewrite <- app_assoc|].
    rewrite fmap_app. intros Hin. apply elem_of_app in Hin as [Hin|Hin]; [now apply Hl2|].
    apply list_elem_of_singleton in Hin. cbn in Hin. now apply Hne.
Qed.

(** X16.  In the tag dict of an instance the last tag with a given key
    wins, and a key without a tag is absent.  So an instance is skipped
    exactly when its list of tags has a tag [AutoStop=false] that no later
    [AutoStop] tag follows; an instance with [tags] set to [None] or to an
    empty list is never skipped. *)
Theorem last_autostop_tag_decides (inst : instance) :
  (opted_out inst ↔
   ∃ l1 l2, default [] (tags inst) = l1 ++ ("AutoStop", "false") :: l2 ∧
            "AutoStop" ∉ l2.*1) ∧
  (∀ k, k ∉ (default [] (tags inst)).*1 →
        tags_dict (default [] (tags inst)) !! k = None) ∧
  (∀ l1 k v l2, default [] (tags inst) = l1 ++ (k, v) :: l2 → k ∉ l2.*1 →
        tags_dict (default [] (tags inst)) !! k = Some v) ∧
  (default [] (tags inst) = [] → ¬ opted_out inst).
Proof.
  split; [|split; [|split]].
  - unfold opted_out. split.
    + apply tags_dict_found.
    + intros (l1 & l2 & -> & Hl2). now apply tags_dict_last.
  - intros k. apply tags_dict_absent.
  - intros l1 k v l2 -> Hk. now apply tags_dict_last.
  - unfold opted_out. intros ->. discriminate.
Qed.

Section Handler.
Context {W : Type} `{Provider W} `{Clock}.

(** X17.  The handler returns exactly when the listing of the running
    instances does not fail, and then with status 200, whatever the other
    calls to the provider do.  In its summary every entry has the status
    [Idle], [Active] or [NoData]; the list of idle instances is the list of
    all entries restricted to those with status [Idle], in the same order;
    the three counts are the lengths of the list of all entries and of its
    [Idle] and [Active] parts, so that the total is the idle count plus the
    active count plus the number of [NoData] entries; the entries follow the
    order of the listed instances that did not opt out, at most one for
    each; and the timestamp is the first reading of the clock.  When the
    listing fails after it has yielded some instances, the handler raises
    the exception of the listing, without a summary, and what it did for
    the instances yielded before stays done: the account, the table and the
    calls are those of a scan of these instances. *)
Theorem summary_is_consistent (s : sys W) :
  let instances := (ec2_instances_running (world s)).1 in
  match (ec2_instances_running (world s)).2 with
  | Some e =>
      lambda_handler s = (inl e, (scan_instances instances None s).2)
  | None =>
      ∃ response s',
        lambda_handler s = (inr response, s') ∧
        statusCode response = 200%Z ∧
        sum_timestamp (body response) = isoformat (utcnow_at (ticks s)) ∧
        evaluation_period_minutes (body response) = 5%Z ∧
        Forall status_ok (all_instances (body response)) ∧
        sum_idle_instances (body response) =
          filter (λ i, Status i = Some "Idle") (all_instances (body response)) ∧
        total_instances_analyzed (body response) =
          length (all_instances (body response)) ∧
        idle_instances_count (body response) =
          length (filter (λ i, Status i = Some "Idle") (all_instances (body response))) ∧
        active_instances_count (body response) =
          length (filter (λ i, Status i = Some "Active") (all_instances (body response))) ∧
        total_instances_analyzed (body response) =
          (idle_instances_count (body response) + active_instances_count (body response) +
           length (filter (λ i, Status i = Some "NoData")
                          (all_instances (body response))))%nat ∧
        map InstanceId (all_instances (body response))
          `sublist_of` map id (filter (λ i, ¬ opted_out i) instances)
  end.
Proof.
  intros instances. unfold lambda_handler. fold instances.
  destruct (scan_loop_step (isoformat (utcnow_at (ticks s))) instances
              (Scan [] [] (Sys (world s) (S (ticks s)) (table s) (calls s))))
    as (f' & extra & cs & Hloop & Han & Hidle & Hst & Hsub & _).
  destruct (scan_instances_run instances None s) as (f0 & Hloop0 & Hnone).
  rewrite Hloop in Hloop0. injection Hloop0 as <-.
  destruct ((ec2_instances_running (world s)).2) as [e|].
  - destruct (scan_instances_run instances (Some e) s) as (f1 & Hloop1 & ->).
    rewrite Hloop in Hloop1. injection Hloop1 as <-.
    now rewrite Hnone.
  - rewrite Hnone. cbn [analyzed_instances idle_instances app] in Han, Hidle.
    eexists _, _. split; [reflexivity|].
    cbn [body statusCode sum_timestamp evaluation_period_minutes all_instances
         sum_idle_instances total_instances_analyzed idle_instances_count
         active_instances_count].
    rewrite Han, Hidle. do 8 (split; [reflexivity || assumption|]).
    split; [now apply status_partition|exact Hsub].
Qed.

(** X18.  A scan only upserts, whether or not the listing of the instances
    fails in the end.  A key of the table before the scan is still a key
    after it; a key that is not the id of a listed instance that did not opt
    out keeps its item; and an item that the scan has put under a key has
    that key as its [InstanceId], the timestamp of the scan, and the status
    [Idle] or [Active].  The timestamp of the scan is the one of the summary
    when the handler returns, which it does when the listing does not
    fail. *)
Theorem scan_only_upserts (instances : list instance) (failure : option exn) (s : sys W) :
  let timestamp := isoformat (utcnow_at (ticks s)) in
  let s' := (scan_instances instances failure s).2 in
  (∀ key, is_Some (table s !! key) → is_Some (table s' !! key)) ∧
  (∀ key, (∀ inst, inst ∈ instances → ¬ opted_out inst → id inst ≠ key) →
          table s' !! key = table s !! key) ∧
  (∀ key it, table s' !! key = Some it →
     table s !! key = Some it ∨
     item_InstanceId it = key ∧
     item_EvaluationTimestamp it = timestamp ∧
     (item_Status it = Some "Idle" ∨ item_Status it = Some "Active") ∧
     ∃ inst, inst ∈ instances ∧ ¬ opted_out inst ∧ id inst = key) ∧
  (failure = None →
     ∃ response,
       scan_instances instances failure s = (inr response, s') ∧
       sum_timestamp (body response) = timestamp).
Proof.
  intros timestamp s'. subst s'.
  destruct (scan_instances_run instances failure s) as (f' & Hloop & ->).
  destruct (scan_loop_step timestamp instances
              (Scan [] [] (Sys (world s) (S (ticks s)) (table s) (calls s))))
    as (f'' & extra & cs & Hloop' & _ & _ & _ & _ & _ & _ & _ & Hother & Hkeys).
  fold timestamp in Hloop. rewrite Hloop in Hloop'. injection Hloop' as <-.
  cbn [env table snd] in *.
  split; [|split; [|split]].
  - intros key Hsome.
    destruct (Hkeys key) as [->|(it & inst & -> & _)]; [exact Hsome|eauto].
  - exact Hother.
  - intros key it Hit.
    destruct (Hkeys key) as [Hsame|(it' & inst & Hit' & Hin & Hno & Hid & Hok)].
    + left. now rewrite <- Hsame.
    + right. rewrite Hit in Hit'. injection Hit' as <-.
      destruct Hok as (Hkey & Hts & Hst). rewrite Hkey.
      repeat split; try assumption. eauto.
  - intros ->. eexists. split; reflexivity.
Qed.

(** X19.  Every call of a scan is made for a listed instance that did not
    opt out, whether or not the listing of the instances fails in the end.
    A metric query is one of [CPUUtilization], [NetworkIn] and [NetworkOut]
    over a window of exactly five minutes; a tagging call carries the two
    idle tags with the timestamp of the scan; an item written to the table
    has the id of the instance, the timestamp of the scan and the status
    [Idle] or [Active].  The clock is read once for the scan and once for
    each listed instance that did not opt out. *)
Theorem scan_calls_are_bounded (instances : list instance) (failure : option exn)
    (s : sys W) :
  let timestamp := isoformat (utcnow_at (ticks s)) in
  let s' := (scan_instances instances failure s).2 in
  (∃ cs,
     calls s' = calls s ++ cs ∧
     Forall (λ c, ∃ inst, inst ∈ instances ∧ ¬ opted_out inst ∧
                          call_ok timestamp inst c) cs) ∧
  ticks s' = (1 + ticks s + length (filter (λ i, ¬ opted_out i) instances))%nat ∧
  (failure = None →
     ∃ response,
       scan_instances instances failure s = (inr response, s') ∧
       sum_timestamp (body response) = timestamp).
Proof.
  intros timestamp s'. subst s'.
  destruct (scan_instances_run instances failure s) as (f' & Hloop & ->).
  destruct (scan_loop_step timestamp instances
              (Scan [] [] (Sys (world s) (S (ticks s)) (table s) (calls s))))
    as (f'' & extra & cs & Hloop' & _ & _ & _ & _ & Hcalls & Hcs & Hticks & _).
  fold timestamp in Hloop. rewrite Hloop in Hloop'. injection Hloop' as <-.
  cbn [env calls ticks snd] in *.
  split; [exists cs; now split|]. split; [rewrite Hticks; lia|].
  intros ->. eexists. split; reflexivity.
Qed.

End Handler.

(** *** The theorems on the simulated account *)

Lemma failed_query_gives_no_verdict_witness :
  ¬ opted_out i_busy ∧
  query_failures throttled_monitored i_busy 1000000 !! 0%nat = Some (Some "Throttling") ∧
  (∀ j, (j < 0)%nat →
        query_failures throttled_monitored i_busy 1000000 !! j = Some None) ∧
  ∃ f',
    scan_instance "1970-01-01T00:00:0" i_busy throttled_scan = (inr tt, f') ∧
    analyzed_instances f' = [] ∧
    idle_instances f' = [] ∧
    table (env f') = ∅ ∧
    calls (env f') =
      [GetMetricStatistics "CPUUtilization" "i-busy" (-299000000) 1000000].
Proof.
  assert (H1 : ¬ opted_out i_busy) by (unfold opted_out; vm_compute; discriminate).
  assert (H2 : query_failures throttled_monitored i_busy 1000000 !! 0%nat =
               Some (Some "Throttling")) by reflexivity.
  assert (H3 : ∀ j, (j < 0)%nat →
                    query_failures throttled_monitored i_busy 1000000 !! j = Some None)
    by (intros j Hj; lia).
  do 3 (split; [assumption|]).
  destruct (failed_query_gives_no_verdict (H0 := sim_clock) "1970-01-01T00:00:0"
              i_busy throttled_scan 0 "Throttling" H1 H2 H3)
    as (f' & Hrun & Han & Hidle & Htable & _ & _ & Hcalls).
  exists f'. auto.
Defined.

Lemma only_idle_instances_are_tagged_witness :
  ¬ opted_out i_busy ∧
  cloudwatch_cpu sim_monitored "i-busy" (-299000000) 1000000 = inr busy_cpu ∧
  cloudwatch_network_in sim_monitored "i-busy" (-299000000) 1000000 =
    inr busy_network_in ∧
  cloudwatch_network_out sim_monitored "i-busy" (-299000000) 1000000 = inr [] ∧
  (busy_cpu ≠ [] → window_is_finite busy_network_in [] = true) ∧
  ∃ info f' cs,
    scan_instance "1970-01-01T00:00:0" i_busy sim_scan = (inr tt, f') ∧
    analyzed_instances f' = [info] ∧
    calls (env f') = metric_queries i_busy 1000000 ++ cs ∧
    (Status info ≠ Some "Idle" → created_tags cs = [] ∧ idle_instances f' = []).
Proof.
  assert (H1 : ¬ opted_out i_busy) by (unfold opted_out; vm_compute; discriminate).
  assert (H2 : cloudwatch_cpu sim_monitored "i-busy" (-299000000) 1000000 = inr busy_cpu)
    by reflexivity.
  assert (H3 : cloudwatch_network_in sim_monitored "i-busy" (-299000000) 1000000 =
               inr busy_network_in) by reflexivity.
  assert (H4 : cloudwatch_network_out sim_monitored "i-busy" (-299000000) 1000000 = inr [])
    by reflexivity.
  assert (H5 : busy_cpu ≠ [] → window_is_finite busy_network_in [] = true)
    by (intros _; reflexivity).
  do 5 (split; [assumption|]).
  destruct (only_idle_instances_are_tagged (H0 := sim_clock) "1970-01-01T00:00:0"
              i_busy sim_scan busy_cpu busy_network_in [] H1 H2 H3 H4 H5)
    as (info & f' & cs & Hrun & Han & Hcalls & _ & Hnot).
  exists info, f', cs. auto.
Defined.

Lemma record_agrees_with_entry_witness :
  ¬ opted_out i_idle ∧
  cloudwatch_cpu sim_monitored "i-idle" (-299000000) 1000000 = inr idle_cpu ∧
  cloudwatch_network_in sim_monitored "i-idle" (-299000000) 1000000 =
    inr idle_network_in ∧
  cloudwatch_network_out sim_monitored "i-idle" (-299000000) 1000000 =
    inr idle_network_out ∧
  idle_cpu ≠ [] ∧
  window_is_finite idle_network_in idle_network_out = true ∧
  ∃ info it f',
    scan_instance "1970-01-01T00:00:0" i_idle sim_scan = (inr tt, f') ∧
    analyzed_instances f' = [info] ∧
    put_items (calls (env f')) = [it] ∧
    item_Status it = Status info ∧
    item_Recommendation it = Recommendation info ∧
    AvgCPU info = Some 3.25%float ∧
    item_AvgCPU it = Decimal_str (PyFloat 3.25) ∧
    item_TotalNetworkBytes it = Decimal_str (PyFloat 500000) ∧
    TotalNetworkBytes info = Some 500000%Z ∧
    item_EvaluationTimestamp it = "1970-01-01T00:00:0".
Proof.
  assert (H1 : ¬ opted_out i_idle) by (unfold opted_out; vm_compute; discriminate).
  assert (H2 : cloudwatch_cpu sim_monitored "i-idle" (-299000000) 1000000 = inr idle_cpu)
    by reflexivity.
  assert (H3 : cloudwatch_network_in sim_monitored "i-idle" (-299000000) 1000000 =
               inr idle_network_in) by reflexivity.
  assert (H4 : cloudwatch_network_out sim_monitored "i-idle" (-299000000) 1000000 =
               inr idle_network_out) by reflexivity.
  assert (H5 : idle_cpu ≠ []) by discriminate.
  assert (H6 : window_is_finite idle_network_in idle_network_out = true) by reflexivity.
  do 6 (split; [assumption|]).
  destruct (record_agrees_with_entry (H0 := sim_clock) "1970-01-01T00:00:0"
              i_idle sim_scan idle_cpu idle_network_in idle_network_out H1 H2 H3 H4 H5 H6)
    as (info & it & f' & cs & avg & max & total_in & total_out & bytes_in & bytes_out &
        bytes_total & Hrun & Han & Hcalls & Hput & _ & _ & _ & _ & _ & Hst & Hrec & _ &
        Hts & Havg & Hinfo_avg & Hit_avg & _ & _ & Hin & Hout & _ & _ & Hit_total &
        _ & _ & _ & _ & Hint & Hinfo_total & _).
  exists info, it, f'. rewrite Hcalls.
  subst avg total_in total_out.
  assert (Hbytes : bytes_total = 500000%Z).
  { vm_compute in Hint. now injection Hint as <-. }
  rewrite Hinfo_avg, Hit_avg, Hit_total, Hinfo_total, Hbytes.
  repeat split; try assumption; reflexivity.
Defined.

Lemma entry_describes_instance_witness :
  ¬ opted_out i_idle ∧
  cloudwatch_cpu sim_monitored "i-idle" (-299000000) 1000000 = inr idle_cpu ∧
  cloudwatch_network_in sim_monitored "i-idle" (-299000000) 1000000 =
    inr idle_network_in ∧
  cloudwatch_network_out sim_monitored "i-idle" (-299000000) 1000000 =
    inr idle_network_out ∧
  (idle_cpu ≠ [] → window_is_finite idle_network_in idle_network_out = true) ∧
  ∃ info f',
    scan_instance "1970-01-01T00:00:0" i_idle sim_scan = (inr tt, f') ∧
    analyzed_instances f' = [info] ∧
    InstanceId info = "i-idle" ∧
    InstanceType info = "t3.micro" ∧
    Region info = "us-east-1".
Proof.
  assert (H1 : ¬ opted_out i_idle) by (unfold opted_out; vm_compute; discriminate).
  assert (H2 : cloudwatch_cpu sim_monitored "i-idle" (-299000000) 1000000 = inr idle_cpu)
    by reflexivity.
  assert (H3 : cloudwatch_network_in sim_monitored "i-idle" (-299000000) 1000000 =
               inr idle_network_in) by reflexivity.
  assert (H4 : cloudwatch_network_out sim_monitored "i-idle" (-299000000) 1000000 =
               inr idle_network_out) by reflexivity.
  assert (H5 : idle_cpu ≠ [] → window_is_finite idle_network_in idle_network_out = true)
    by (intros _; reflexivity).
  do 5 (split; [assumption|]).
  destruct (entry_describes_instance (H0 := sim_clock) "1970-01-01T00:00:0"
              i_idle sim_scan idle_cpu idle_network_in idle_network_out H1 H2 H3 H4 H5)
    as (info & f' & Hrun & Han & Hid & Hty & _ & _ & Hregion & _).
  exists info, f'. do 4 (split; [assumption|]).
  eapply (Hregion "us-east-1"). reflexivity.
Defined.

Lemma unconvertible_totals_give_no_verdict_witness :
  ¬ opted_out i_flood ∧
  cloudwatch_cpu flood_monitored "i-flood" (-299000000) 1000000 =
    inr [CpuDatapoint 1 1] ∧
  cloudwatch_network_in flood_monitored "i-flood" (-299000000) 1000000 =
    inr flood_network_in ∧
  cloudwatch_network_out flood_monitored "i-flood" (-299000000) 1000000 = inr [] ∧
  [CpuDatapoint 1 1] ≠ [] ∧
  window_is_finite flood_network_in [] = false ∧
  ∃ f',
    scan_instance "1970-01-01T00:00:0" i_flood flood_scan = (inr tt, f') ∧
    analyzed_instances f' = [] ∧
    idle_instances f' = [] ∧
    table (env f') = ∅ ∧
    calls (env f') = metric_queries i_flood 1000000.
Proof.
  assert (H1 : ¬ opted_out i_flood) by (unfold opted_out; vm_compute; discriminate).
  assert (H2 : cloudwatch_cpu flood_monitored "i-flood" (-299000000) 1000000 =
               inr [CpuDatapoint 1 1]) by reflexivity.
  assert (H3 : cloudwatch_network_in flood_monitored "i-flood" (-299000000) 1000000 =
               inr flood_network_in) by reflexivity.
  assert (H4 : cloudwatch_network_out flood_monitored "i-flood" (-299000000) 1000000 =
               inr []) by reflexivity.
  assert (H5 : [CpuDatapoint 1 1] ≠ []) by discriminate.
  assert (H6 : window_is_finite flood_network_in [] = false) by reflexivity.
  do 6 (split; [assumption|]).
  destruct (unconvertible_totals_give_no_verdict (H0 := sim_clock) "1970-01-01T00:00:0"
              i_flood flood_scan [CpuDatapoint 1 1] flood_network_in [] H1 H2 H3 H4 H5 H6)
    as (_ & f' & Hrun & Han & Hidle & Htable & _ & _ & Hcalls).
  exists f'. auto.
Defined.

Lemma verdict_depends_on_metrics_only_witness :
  ¬ opted_out i_idle ∧
  cloudwatch_cpu sim_monitored "i-idle" (-299000000) 1000000 = inr idle_cpu ∧
  cloudwatch_network_in sim_monitored "i-idle" (-299000000) 1000000 =
    inr idle_network_in ∧
  cloudwatch_network_out sim_monitored "i-idle" (-299000000) 1000000 =
    inr idle_network_out ∧
  cloudwatch_cpu down_monitored "i-idle" (-299000000) 1000000 = inr idle_cpu ∧
  cloudwatch_network_in down_monitored "i-idle" (-299000000) 1000000 =
    inr idle_network_in ∧
  cloudwatch_network_out down_monitored "i-idle" (-299000000) 1000000 =
    inr idle_network_out ∧
  ∃ f1' f2',
    scan_instance "1970-01-01T00:00:0" i_idle sim_scan = (inr tt, f1') ∧
    scan_instance "1970-01-01T00:00:0" i_idle down_scan = (inr tt, f2') ∧
    analyzed_instances f1' = analyzed_instances f2' ∧
    idle_instances f1' = idle_instances f2' ∧
    put_items (calls (env f1')) = put_items (calls (env f2')).
Proof.
  assert (H1 : ¬ opted_out i_idle) by (unfold opted_out; vm_compute; discriminate).
  assert (H2 : cloudwatch_cpu sim_monitored "i-idle" (-299000000) 1000000 = inr idle_cpu)
    by reflexivity.
  assert (H3 : cloudwatch_network_in sim_monitored "i-idle" (-299000000) 1000000 =
               inr idle_network_in) by reflexivity.
  assert (H4 : cloudwatch_network_out sim_monitored "i-idle" (-299000000) 1000000 =
               inr idle_network_out) by reflexivity.
  assert (H5 : cloudwatch_cpu down_monitored "i-idle" (-299000000) 1000000 = inr idle_cpu)
    by reflexivity.
  assert (H6 : cloudwatch_network_in down_monitored "i-idle" (-299000000) 1000000 =
               inr idle_network_in) by reflexivity.
  assert (H7 : cloudwatch_network_out down_monitored "i-idle" (-299000000) 1000000 =
               inr idle_network_out) by reflexivity.
  do 7 (split; [assumption|]).
  destruct (verdict_depends_on_metrics_only monitored_provider monitored_provider
              sim_clock sim_clock "1970-01-01T00:00:0" i_idle sim_scan down_scan
              idle_cpu idle_network_in idle_network_out H1 H2 H3 H4 H5 H6 H7)
    as (f1' & f2' & extra & more & Hr1 & Hr2 & Ha1 & Ha2 & Hi1 & Hi2 & Hput & _).
  exists f1', f2'. do 2 (split; [assumption|]).
  split; [now rewrite Ha1, Ha2|]. split; [now rewrite Hi1, Hi2|]. exact Hput.
Defined.

(** An instance tagged [AutoStop=true] and later [AutoStop=false] is skipped. *)
Example last_autostop_tag_on_i_twice : opted_out i_twice.
Proof. vm_compute. reflexivity. Qed.

(** A listing that fails after it has yielded [i_idle]: the handler raises,
    and the record of [i_idle] is in the table. *)
Example listing_failure_on_paged_account :
  match lambda_handler paged_sys with
  | (inl e, s') =>
      e = "RequestLimitExceeded" ∧
      item_Status <$> (table s' !! "i-idle") = Some (Some "Idle") ∧
      length (calls s') = 5%nat
  | _ => False
  end.
Proof. vm_compute. repeat split; reflexivity. Qed.

End DetectExtras.
